(** * kkpy.io: readers for meteorological field data

    A shallow embedding of [src/kkpy/io.py] and the properties of its four
    readers ([read_aws], [read_2dvd_rho], [read_mxpol_rhi_with_hc],
    [read_dem]).

    Conventions of the embedding.
    - Python exceptions are values of [exn]; a computation is a pair of the
      trace of observable events it performed (file accesses, prints) and
      either its value or the exception that ended it (type [M]).
    - A global name is looked up when the statement that mentions it runs,
      in the module namespace, a dictionary from names to values
      ([namespace]). [io_globals] is the namespace that the source file
      itself builds. The readers take the namespace as an argument, so that
      the code after a name the module leaves unbound can be studied too.
      The builtins ([len], [print], [zip], [enumerate]) are taken as such.
    - numpy's float64 is IEEE binary64, taken from the standard library's
      [SpecFloat] with precision 53 and maximal exponent 1024.
    - The scientific libraries (glob, pandas, scipy.io, netCDF4, py-ART,
      wradlib) are collaborators: what they read from disk is given by a
      [World], and what they compute in memory is written out here for the
      calls that the readers make. *)

From Stdlib Require Import ZArith String List Ascii Bool Lia DecimalString.
From Stdlib Require Import Floats.SpecFloat.
From stdpp Require Import gmap strings.
Import ListNotations.

Local Open Scope string_scope.
Local Open Scope Z_scope.

(** ** Exceptions, traces and the computation monad *)

Inductive exn : Type :=
| NameError (name : string)
| UnboundLocalError (name : string)
| AttributeError (attr : string)
| KeyError (key : string)
| TypeError
| ValueError
| IndexError
| AxisError
| OSError (path : string).

Inductive result (A : Type) : Type :=
| Ok (a : A)
| Raise (e : exn).
Arguments Ok {A} a.
Arguments Raise {A} e.

Inductive event : Type :=
| EvPrint (line : string)
| EvGlob (pattern : string)
| EvReadCsv (path : string)
| EvLoadMat (path : string)
| EvOpenDataset (path : string)
| EvOpenRaster (path : string).

Definition M (A : Type) : Type := (list event * result A)%type.

Definition raise {A} (e : exn) : M A := ([], Raise e).
Definition emit (e : event) : M unit := ([e], Ok tt).
Definition lift {A} (r : result A) : M A := ([], r).

#[global] Instance M_ret : MRet M := fun A a => ([], Ok a).
#[global] Instance M_bind : MBind M := fun A B k c =>
  match c with
  | (t, Ok a) => let '(t', r) := k a in ((t ++ t')%list, r)
  | (t, Raise e) => (t, Raise e)
  end.
Definition ret {A} (a : A) : M A := mret a.

Definition trace {A} (c : M A) : list event := fst c.
Definition outcome {A} (c : M A) : result A := snd c.

(** ** The module namespace *)

Inductive pymodule : Type :=
| numpy | datetime_module | glob_module | scipy | pyart | wradlib
| pandas | os_module.

Inductive pyval : Type :=
| PyModule (m : pymodule)
| PyFunction (name : string)
| PyClass (name : string)
| PyStr (s : string)
| PyList (l : list string)
| PyInt (z : Z).

#[global] Instance pymodule_eq_dec : EqDecision pymodule.
Proof. solve_decision. Defined.

Definition namespace : Type := gmap string pyval.

(** The names bound by executing the source file: its six imports
    (lines 16-21) and its four [def] statements. [import scipy.io] binds
    [scipy]; the submodules [pyart.testing], [wrl.io] and [wrl.georef] come
    with their packages. *)
Definition io_globals : namespace :=
  list_to_map
    [ ("np", PyModule numpy);
      ("datetime", PyModule datetime_module);
      ("glob", PyModule glob_module);
      ("scipy", PyModule scipy);
      ("pyart", PyModule pyart);
      ("wrl", PyModule wradlib);
      ("read_aws", PyFunction "read_aws");
      ("read_2dvd_rho", PyFunction "read_2dvd_rho");
      ("read_mxpol_rhi_with_hc", PyFunction "read_mxpol_rhi_with_hc");
      ("read_dem", PyFunction "read_dem") ].

(** Evaluation of a global name. *)
Definition load_global (g : namespace) (name : string) : M pyval :=
  match g !! name with
  | Some v => ret v
  | None => raise (NameError name)
  end.

(** Evaluation of [name.attr] where the code expects [name] to be the
    library module [m]; any other value has no such attribute. *)
Definition module_attr (g : namespace) (name : string) (m : pymodule)
    (attr : string) : M unit :=
  v ← load_global g name;
  match v with
  | PyModule m' => if decide (m' = m) then ret tt else raise (AttributeError attr)
  | _ => raise (AttributeError attr)
  end.

(** Evaluation of a local variable that an earlier branch may have left
    unassigned. *)
Definition load_local {A} (name : string) (v : option A) : M A :=
  match v with
  | Some a => ret a
  | None => raise (UnboundLocalError name)
  end.

(** ** float64 *)

Definition float64 : Type := spec_float.
Definition prec64 : Z := 53.
Definition emax64 : Z := 1024.

Definition f64_of_Z (z : Z) : float64 := binary_normalize prec64 emax64 z 0 false.
Definition f64_nan : float64 := S754_nan.
Definition f64_div (x y : float64) : float64 := SFdiv prec64 emax64 x y.
Definition f64_add (x y : float64) : float64 := SFadd prec64 emax64 x y.
Definition f64_sub (x y : float64) : float64 := SFsub prec64 emax64 x y.
Definition f64_lt (x y : float64) : bool := SFltb x y.
Definition f64_le (x y : float64) : bool := SFleb x y.
Definition f64_gt (x y : float64) : bool := SFltb y x.
Definition f64_eq (x y : float64) : bool := SFeqb x y.
Definition f64_isnan (x : float64) : bool :=
  match x with S754_nan => true | _ => false end.

Arguments f64_of_Z : simpl never.
Arguments f64_div : simpl never.
Arguments f64_add : simpl never.
Arguments f64_sub : simpl never.

(** ** Two-dimensional arrays *)

Record ndarray2 (A : Type) : Type := mk_ndarray2 {
  shape0 : nat;
  shape1 : nat;
  data : list (list A)
}.
Arguments mk_ndarray2 {A} shape0 shape1 data.
Arguments shape0 {A} n.
Arguments shape1 {A} n.
Arguments data {A} n.

Definition wf_ndarray2 {A} (a : ndarray2 A) : Prop :=
  length (data a) = shape0 a /\ Forall (fun r => length r = shape1 a) (data a).

Definition get2 {A} (a : ndarray2 A) (i j : nat) : option A :=
  match nth_error (data a) i with
  | Some r => nth_error r j
  | None => None
  end.

Definition map2d {A B} (f : A -> B) (a : ndarray2 A) : ndarray2 B :=
  mk_ndarray2 (shape0 a) (shape1 a) (map (map f) (data a)).

(** [a.T]: element (i, j) of the result is element (j, i) of [a]. *)
Definition column {A} (rows : list (list A)) (j : nat) : list A :=
  flat_map (fun r => match nth_error r j with Some x => [x] | None => [] end) rows.

Definition transpose {A} (a : ndarray2 A) : ndarray2 A :=
  mk_ndarray2 (shape1 a) (shape0 a)
    (map (column (data a)) (seq 0 (shape1 a))).

(** ** Python strings *)

(** [needle in hay] for two strings. *)
Fixpoint str_in (needle hay : string) : bool :=
  String.prefix needle hay ||
  match hay with
  | EmptyString => false
  | String _ rest => str_in needle rest
  end.

(** [needle] occurs in [hay] as a contiguous substring. *)
Definition substring_of (needle hay : string) : Prop :=
  exists pre post, hay = pre ++ needle ++ post.

(** ** Python values used by the readers *)

Definition print (line : string) : M unit := emit (EvPrint line).

(** [s[start:stop]] with Python's treatment of negative and out-of-range
    bounds; [None] is an omitted bound. *)
Definition slice_bound (len : Z) (i : Z) : Z :=
  if i <? 0 then Z.max 0 (len + i) else Z.min i len.

Definition slice_range (len : Z) (start stop : option Z) : nat * nat :=
  let a := match start with Some i => slice_bound len i | None => 0 end in
  let b := match stop with Some i => slice_bound len i | None => len end in
  (Z.to_nat a, Z.to_nat (b - a)).

Definition str_slice (s : string) (start stop : option Z) : string :=
  let '(a, n) := slice_range (Z.of_nat (String.length s)) start stop in
  String.substring a n s.

Definition list_slice {A} (l : list A) (start stop : option Z) : list A :=
  let '(a, n) := slice_range (Z.of_nat (length l)) start stop in
  firstn n (skipn a l).

(** [v[start:stop]] on a value of the namespace. *)
Definition py_slice (v : pyval) (start stop : option Z) : M pyval :=
  match v with
  | PyStr s => ret (PyStr (str_slice s start stop))
  | PyList l => ret (PyList (list_slice l start stop))
  | _ => raise TypeError
  end.

(** [a + b] on values of the namespace. *)
Definition py_add (a b : pyval) : M pyval :=
  match a, b with
  | PyStr x, PyStr y => ret (PyStr (x ++ y))
  | PyList x, PyList y => ret (PyList (x ++ y))
  | PyInt x, PyInt y => ret (PyInt (x + y))
  | _, _ => raise TypeError
  end.

(** [os.path.basename]: what follows the last ['/']. *)
Fixpoint basename (path : string) : string :=
  match path with
  | EmptyString => EmptyString
  | String c rest =>
      if str_in "/" rest then basename rest
      else if Ascii.eqb c "/" then rest else path
  end.

(** [int(s)] for a string of ASCII characters: surrounding white space,
    an optional sign, decimal digits, single underscores between digits. *)
Definition is_space (c : ascii) : bool :=
  let n := nat_of_ascii c in
  (Nat.eqb n 32 || (Nat.leb 9 n && Nat.leb n 13) || (Nat.leb 28 n && Nat.leb n 31))%bool.

Definition digit_of (c : ascii) : option Z :=
  let n := Z.of_nat (nat_of_ascii c) in
  if (48 <=? n) && (n <=? 57) then Some (n - 48) else None.

Fixpoint lstrip (s : string) : string :=
  match s with
  | String c rest => if is_space c then lstrip rest else s
  | EmptyString => s
  end.

Fixpoint rstrip (s : string) : string :=
  match s with
  | EmptyString => EmptyString
  | String c rest =>
      match rstrip rest with
      | EmptyString => if is_space c then EmptyString else String c EmptyString
      | rest' => String c rest'
      end
  end.

Fixpoint parse_digits (acc : Z) (after_digit : bool) (s : string) : option Z :=
  match s with
  | EmptyString => if after_digit then Some acc else None
  | String c rest =>
      match digit_of c with
      | Some d => parse_digits (10 * acc + d) true rest
      | None =>
          if Ascii.eqb c "_" && after_digit then parse_digits acc false rest
          else None
      end
  end.

Definition py_int (s : string) : result Z :=
  let body := rstrip (lstrip s) in
  let '(neg, digits) :=
    match body with
    | String c rest =>
        if Ascii.eqb c "-" then (true, rest)
        else if Ascii.eqb c "+" then (false, rest)
        else (false, body)
    | EmptyString => (false, body)
    end in
  match parse_digits 0 false digits with
  | Some n => Ok (if neg then - n else n)
  | None => Raise ValueError
  end.

(** [np.sort] on strings: ascending in code-point order. *)
Fixpoint insert_sorted (x : string) (l : list string) : list string :=
  match l with
  | [] => [x]
  | y :: rest => if String.leb x y then x :: l else y :: insert_sorted x rest
  end.

Definition np_sort (l : list string) : list string :=
  fold_right insert_sorted [] l.

(** [datetime.datetime]: naive date-times, ordered field by field. *)
Record datetime : Type := mk_datetime {
  dt_year : Z; dt_month : Z; dt_day : Z;
  dt_hour : Z; dt_minute : Z; dt_second : Z; dt_microsecond : Z
}.

Definition is_leap (y : Z) : bool :=
  (y mod 4 =? 0) && (negb (y mod 100 =? 0) || (y mod 400 =? 0)).

Definition days_in_month (y m : Z) : Z :=
  match m with
  | 1 | 3 | 5 | 7 | 8 | 10 | 12 => 31
  | 4 | 6 | 9 | 11 => 30
  | 2 => if is_leap y then 29 else 28
  | _ => 0
  end.

(** [datetime.datetime(yyyy, mm, dd)] *)
Definition datetime_date (y m d : Z) : result datetime :=
  if (1 <=? y) && (y <=? 9999) && (1 <=? m) && (m <=? 12)
     && (1 <=? d) && (d <=? days_in_month y m)
  then Ok (mk_datetime y m d 0 0 0 0)
  else Raise ValueError.

Definition datetime_fields (t : datetime) : list Z :=
  [dt_year t; dt_month t; dt_day t; dt_hour t; dt_minute t; dt_second t;
   dt_microsecond t].

Fixpoint lex_compare (a b : list Z) : comparison :=
  match a, b with
  | x :: a', y :: b' =>
      match x ?= y with
      | Eq => lex_compare a' b'
      | c => c
      end
  | [], [] => Eq
  | [], _ :: _ => Lt
  | _ :: _, [] => Gt
  end.

Definition datetime_compare (a b : datetime) : comparison :=
  lex_compare (datetime_fields a) (datetime_fields b).

(** [a >= b] and [a < b] *)
Definition datetime_ge (a b : datetime) : bool :=
  match datetime_compare a b with Lt => false | _ => true end.
Definition datetime_lt (a b : datetime) : bool :=
  match datetime_compare a b with Lt => true | _ => false end.

(** The [time] argument of the readers: [None], one datetime, or a
    sequence of datetimes. *)
Inductive time_arg : Type :=
| TimeNone
| TimeScalar (t : datetime)
| TimeSeq (l : list datetime).

(** [len(time)] *)
Definition py_len (time : time_arg) : M nat :=
  match time with
  | TimeSeq l => ret (length l)
  | _ => raise TypeError
  end.

(** [time[i]] *)
Definition py_item (time : time_arg) (i : nat) : M datetime :=
  match time with
  | TimeSeq l =>
      match nth_error l i with
      | Some t => ret t
      | None => raise IndexError
      end
  | _ => raise TypeError
  end.

(** [a[mask]] for a one-dimensional array and a boolean array of the
    same length. *)
Fixpoint select {A} (a : list A) (mask : list bool) : list A :=
  match a, mask with
  | x :: a', b :: mask' => if b then x :: select a' mask' else select a' mask'
  | _, _ => []
  end.

Definition bool_index {A} (a : list A) (mask : list bool) : M (list A) :=
  if Nat.eqb (length a) (length mask) then ret (select a mask)
  else raise IndexError.

(** A [for] loop that appends one item per iteration. *)
Fixpoint for_each {A B} (f : A -> M B) (l : list A) : M (list B) :=
  match l with
  | [] => ret []
  | x :: rest =>
      y ← f x;
      ys ← for_each f rest;
      ret (y :: ys)
  end.

(** ** pandas data frames *)

Inductive cell : Type :=
| CInt (z : Z)
| CFloat (f : float64)
| CStr (s : string).

Record DataFrame : Type := mk_DataFrame {
  columns : list string;
  values : list (list cell)
}.

Fixpoint index_of (name : string) (names : list string) : option nat :=
  match names with
  | [] => None
  | n :: rest =>
      if String.eqb n name then Some 0%nat
      else option_map S (index_of name rest)
  end.

(** [x / 10.] on one element of a column. *)
Definition cell_div (c : cell) (d : float64) : result cell :=
  match c with
  | CInt z => Ok (CFloat (f64_div (f64_of_Z z) d))
  | CFloat f => Ok (CFloat (f64_div f d))
  | CStr _ => Raise TypeError
  end.

(** [x == n] on one element of a column, for an integer [n]. *)
Definition cell_eq_int (c : cell) (n : Z) : bool :=
  match c with
  | CInt z => z =? n
  | CFloat f => f64_eq f (f64_of_Z n)
  | CStr _ => false
  end.

Fixpoint map_result {A B} (f : A -> result B) (l : list A) : result (list B) :=
  match l with
  | [] => Ok []
  | x :: rest =>
      match f x with
      | Raise e => Raise e
      | Ok y =>
          match map_result f rest with
          | Raise e => Raise e
          | Ok ys => Ok (y :: ys)
          end
      end
  end.

Definition update_nth {A} (i : nat) (f : A -> result A) (l : list A)
    : result (list A) :=
  match nth_error l i with
  | Some x =>
      match f x with
      | Ok y => Ok (firstn i l ++ y :: skipn (S i) l)%list
      | Raise e => Raise e
      end
  | None => Ok l
  end.

(** [data.name = data.name / d]: attribute access to a column, division of
    the whole column, assignment back. *)
Definition divide_column (name : string) (d : float64) (df : DataFrame)
    : result DataFrame :=
  match index_of name (columns df) with
  | None => Raise (AttributeError name)
  | Some i =>
      match map_result (update_nth i (fun c => cell_div c d)) (values df) with
      | Ok rows => Ok (mk_DataFrame (columns df) rows)
      | Raise e => Raise e
      end
  end.

(** [data[data.name == n]] *)
Definition rows_where_eq (name : string) (n : Z) (df : DataFrame)
    : result DataFrame :=
  match index_of name (columns df) with
  | None => Raise (AttributeError name)
  | Some i =>
      Ok (mk_DataFrame (columns df)
            (List.filter
               (fun row => match nth_error row i with
                           | Some c => cell_eq_int c n
                           | None => false
                           end)
               (values df)))
  end.

(** Conversion of an integer to float64 where pandas or numpy settle on a
    floating-point element type for the data. *)
Definition upcast (c : cell) : cell :=
  match c with
  | CInt z => CFloat (f64_of_Z z)
  | other => other
  end.

Definition is_str (c : cell) : bool :=
  match c with CStr _ => true | _ => false end.
Definition is_float (c : cell) : bool :=
  match c with CFloat _ => true | _ => false end.

(** [df.values.tolist()]: one element type for the whole frame, object if
    some column holds strings and float64 otherwise (the frames handled
    here always have floating-point columns by then). *)
Definition values_tolist (whole : DataFrame) (df : DataFrame) : list (list cell) :=
  if existsb (existsb is_str) (values whole) then values df
  else map (map upcast) (values df).

(** [pd.DataFrame(rows, columns=names)]: rows of the wrong width are
    refused; a column of numbers of which one is a float becomes float64. *)
Definition column_cells (rows : list (list cell)) (i : nat) : list cell :=
  flat_map (fun r => match nth_error r i with Some c => [c] | None => [] end) rows.

Definition float_column (rows : list (list cell)) (i : nat) : bool :=
  let cs := column_cells rows i in
  negb (existsb is_str cs) && existsb is_float cs.

Definition infer_row (rows : list (list cell)) (row : list cell) : list cell :=
  map (fun '(i, c) => if float_column rows i then upcast c else c)
      (combine (seq 0 (length row)) row).

Definition pd_DataFrame (rows : list (list cell)) (names : list string)
    : result DataFrame :=
  if forallb (fun r => Nat.eqb (length r) (length names)) rows
  then Ok (mk_DataFrame names (map (infer_row rows) rows))
  else Raise ValueError.
(** ** What the collaborating libraries read from disk *)

(** A raster as [wrl.georef.extract_raster_dataset] presents it: the pixel
    array in the file's own element type, the coordinate pair of every
    pixel, and the spatial reference. *)
Inductive pixels : Type :=
| IntPixels (a : ndarray2 Z)
| FloatPixels (a : ndarray2 float64).

Record raster : Type := mk_raster {
  raster_pixels : pixels;
  raster_coord : list (list (float64 * float64));
  raster_proj : string
}.

(** One row of a 2DVD file in the fixed ten-column layout
    hhmm, Dapp, VEL, RHO, AREA, WA, HA, WB, HB, Deq; [hhmm] is read as an
    integer column. Files with other contents are outside this model. *)
Record dvd_record : Type := mk_dvd_record {
  rec_hhmm : Z;
  rec_Dapp : float64; rec_VEL : float64; rec_RHO : float64;
  rec_AREA : float64; rec_WA : float64; rec_HA : float64;
  rec_WB : float64; rec_HB : float64; rec_Deq : float64
}.

(** The dictionary returned by [scipy.io.loadmat], in iteration order:
    arrays under the variable names, other objects under the reserved
    keys. The arrays are the two-dimensional float64 arrays of a
    classification file; a file with variables of more dimensions is
    outside this model. *)
Inductive mat_value : Type :=
| MatArray (a : ndarray2 float64)
| MatMeta.

Definition mat_bundle : Type := list (string * mat_value).

(** An opened MXPOL RHI file: the variables and global attributes that
    the reader asks for. *)
Record ncfile : Type := mk_ncfile {
  nc_Elevation : list float64;
  nc_Range : list float64;
  nc_Azimuth : list float64;
  nc_Time : list float64;
  nc_Zdr : ndarray2 float64;
  nc_Zh : ndarray2 float64;
  nc_Kdp : ndarray2 float64;
  nc_Longitude : float64;
  nc_Latitude : float64;
  nc_Altitude : float64
}.

Record World : Type := mk_World {
  (** [glob.glob(pattern, recursive=...)] *)
  glob_glob : string -> bool -> list string;
  (** [pd.read_csv(file, delimiter='#', names=names)]: the rows *)
  read_csv_hash : string -> list string -> result (list (list cell));
  (** [pd.read_csv(file, skiprows=1, names=columns, header=None,
      delim_whitespace=True)]: the rows *)
  read_csv_2dvd : string -> result (list dvd_record);
  (** [scipy.io.loadmat(path)] *)
  loadmat : string -> result mat_bundle;
  (** [netCDF4.Dataset(path, 'r')] *)
  open_dataset : string -> result ncfile;
  (** [wrl.io.open_raster(path)] *)
  open_raster : string -> result raster;
  (** whether the installed numpy still has the aliases [np.int] and
      [np.float_] *)
  numpy_has_int : bool;
  numpy_has_float_ : bool
}.

(** [glob.glob(pattern, recursive=recursive)] *)
Definition glob (w : World) (pattern : string) (recursive : bool)
    : M (list string) :=
  emit (EvGlob pattern);;
  ret (glob_glob w pattern recursive).

(** ** read_aws *)

(** The argument of [glob.glob] on line 53:
    [aws_dir+YYYYMMDD[:6]+'/'+YYYYMMDD[6:8]+'/'+'AWS_MIN_'+YYYYMMDD+'*'] *)
Definition aws_pattern (g : namespace) : M string :=
  aws_dir ← load_global g "aws_dir";
  ymd ← load_global g "YYYYMMDD";
  ym ← py_slice ymd None (Some 6);
  p ← py_add aws_dir ym;
  p ← py_add p (PyStr "/");
  ymd ← load_global g "YYYYMMDD";
  dd ← py_slice ymd (Some 6) (Some 8);
  p ← py_add p dd;
  p ← py_add p (PyStr "/");
  p ← py_add p (PyStr "AWS_MIN_");
  ymd ← load_global g "YYYYMMDD";
  p ← py_add p ymd;
  p ← py_add p (PyStr "*");
  match p with
  | PyStr s => ret s
  | _ => raise TypeError
  end.

(** [pd.read_csv(file, delimiter='#', names=names)]; pandas checks [names]
    before it opens the file. *)
Definition pd_read_csv_hash (g : namespace) (w : World) (file : string)
    : M DataFrame :=
  module_attr g "pd" pandas "read_csv";;
  names ← load_global g "names";
  match names with
  | PyList l =>
      if bool_decide (NoDup l) then
        emit (EvReadCsv file);;
        rows ← lift (read_csv_hash w file l);
        ret (mk_DataFrame l rows)
      else raise ValueError
  | _ => raise ValueError
  end.

(** The literal [10.] *)
Definition ten : float64 := f64_of_Z 10.

(** The body of the loop, lines 55-68: the row appended to [list_aws]. *)
Definition read_aws_file (g : namespace) (w : World) (file : string)
    : M (list cell) :=
  data ← pd_read_csv_hash g w file;                    (* line 55 *)
  data ← lift (divide_column "wd" ten data);           (* lines 56-67 *)
  data ← lift (divide_column "ws" ten data);
  data ← lift (divide_column "t" ten data);
  data ← lift (divide_column "rh" ten data);
  data ← lift (divide_column "pa" ten data);
  data ← lift (divide_column "ps" ten data);
  data ← lift (divide_column "rn60m_acc" ten data);
  data ← lift (divide_column "rn1d" ten data);
  data ← lift (divide_column "rn15m" ten data);
  data ← lift (divide_column "rn60m" ten data);
  data ← lift (divide_column "wds" ten data);
  data ← lift (divide_column "wss" ten data);
  selected ← lift (rows_where_eq "stn" 100 data);      (* line 68 *)
  match values_tolist data selected with
  | row :: _ => ret row
  | [] => raise IndexError
  end.

Definition read_aws (g : namespace) (w : World)
    (time : time_arg) (datadir : string) (date_range : bool) : M DataFrame :=
  (* line 53 *)
  module_attr g "np" numpy "sort";;
  module_attr g "glob" glob_module "glob";;
  pattern ← aws_pattern g;
  files ← glob w pattern false;
  let filearr_1d := np_sort files in
  (* lines 54-68 *)
  list_aws ← for_each (read_aws_file g w) filearr_1d;
  (* line 70 *)
  module_attr g "pd" pandas "DataFrame";;
  names ← load_global g "names";
  match names with
  | PyList l => lift (pd_DataFrame list_aws l)
  | _ => raise TypeError
  end.

(** ** read_2dvd_rho *)

(** A pandas [Timestamp], counted in minutes since 1970-01-01 00:00. *)
Definition timestamp : Type := Z.

(** Days from 1970-01-01 to a date of the proleptic Gregorian calendar. *)
Definition days_from_civil (y m d : Z) : Z :=
  let y := if m <=? 2 then y - 1 else y in
  let era := y / 400 in
  let yoe := y - era * 400 in
  let mp := (m + 9) mod 12 in
  let doy := (153 * mp + 2) / 5 + d - 1 in
  let doe := yoe * 365 + yoe / 4 - yoe / 100 + doy in
  era * 146097 + doe - 719468.

Definition ns_per_minute : Z := 60000000000.
Definition in_int64 (n : Z) : bool := (- 2 ^ 63 <? n) && (n <? 2 ^ 63).

(** [pd.to_datetime(df[['year','month','day','hour','minute']])] for one
    row: the date, plus the hours, plus the minutes; every step has to fit
    the 64-bit nanosecond clock. This is what pandas computes for the
    years 1678 to 2261 and [hhmm] from 0 to 9999; beyond them pandas may
    end differently (another exception, or for a year of fewer than four
    digits another date), and the model is not meant for that. *)
Definition to_datetime (year month day hour minute : Z) : result timestamp :=
  let date := days_from_civil year month day * 1440 in
  let total := date + hour * 60 + minute in
  if in_int64 (date * ns_per_minute)
     && in_int64 (hour * 60 * ns_per_minute)
     && in_int64 (minute * ns_per_minute)
     && in_int64 ((date + hour * 60) * ns_per_minute)
     && in_int64 (total * ns_per_minute)
  then Ok total
  else Raise ValueError.

(** [np.int_(x)] on a float64: the fractional part is dropped; what is
    not a number or is infinite comes out as the smallest int64. *)
Definition f64_trunc (f : float64) : Z :=
  match f with
  | S754_zero _ => 0
  | S754_finite s m e =>
      let a := if 0 <=? e then Zpos m * 2 ^ e else Zpos m / 2 ^ (- e) in
      if s then - a else a
  | _ => - 2 ^ 63
  end.

(** One row of the table that [read_2dvd_rho] returns: the index
    [jultime] and the columns that are kept. *)
Record dvd_row : Type := mk_dvd_row {
  row_jultime : timestamp;
  row_VEL : float64;
  row_AREA : float64;
  row_Deq : float64;
  row_jultime_minute : timestamp
}.

(** Lines 126-134 on one row of a file dated [dt]. *)
Definition dvd_derive (dt : datetime) (r : dvd_record) : result dvd_row :=
  let year := dt_year dt in
  let month := dt_month dt in
  let day := dt_day dt in
  let hour := f64_trunc (f64_div (f64_of_Z (rec_hhmm r)) (f64_of_Z 100)) in
  let minute := rec_hhmm r mod 100 in
  match to_datetime year month day hour minute with
  | Ok jultime => Ok (mk_dvd_row jultime (rec_VEL r) (rec_AREA r) (rec_Deq r) jultime)
  | Raise e => Raise e
  end.

Definition string_of_nat (n : nat) : string :=
  NilEmpty.string_of_uint (Nat.to_uint n).

(** [np.int(os.path.basename(x)[start:stop])] *)
Definition filename_field (g : namespace) (w : World) (x : string)
    (start stop : Z) : M Z :=
  module_attr g "np" numpy "int";;
  (if numpy_has_int w then ret tt else raise (AttributeError "int"));;
  module_attr g "os" os_module "path";;
  lift (py_int (str_slice (basename x) (Some start) (Some stop))).

(** The body of the loop, lines 125-136. *)
Definition read_2dvd_file (g : namespace) (w : World) (size : nat)
    (item : nat * (string * datetime)) : M (list dvd_row) :=
  let '(i_file, (file, dt)) := item in
  (* line 125 *)
  module_attr g "pd" pandas "read_csv";;
  emit (EvReadCsv file);;
  _df ← lift (read_csv_2dvd w file);
  (* lines 126-134 *)
  module_attr g "np" numpy "int_";;
  module_attr g "pd" pandas "to_datetime";;
  _df ← lift (map_result (dvd_derive dt) _df);
  (* line 136 *)
  print (string_of_nat (i_file + 1) ++ " " ++ string_of_nat size ++ " " ++ file);;
  ret _df.

Definition dvd_pattern (datadir : string) : string :=
  datadir ++ "/**/2DVD_Dapp_v_rho_201*Deq.txt".

Definition in_range (dt_start dt_finis d : datetime) : bool :=
  datetime_ge d dt_start && datetime_lt d dt_finis.

Definition read_2dvd_rho (g : namespace) (w : World)
    (time : time_arg) (datadir : string) (date_range : bool)
    : M (list dvd_row) :=
  (* line 105 *)
  module_attr g "np" numpy "array";;
  module_attr g "np" numpy "sort";;
  module_attr g "glob" glob_module "glob";;
  files ← glob w (dvd_pattern datadir) true;
  let filearr := np_sort files in
  (* lines 106-109 *)
  yyyy_filearr ← for_each (fun x => filename_field g w x (-27) (-23)) filearr;
  mm_filearr ← for_each (fun x => filename_field g w x (-23) (-21)) filearr;
  dd_filearr ← for_each (fun x => filename_field g w x (-21) (-19)) filearr;
  module_attr g "np" numpy "array";;
  dt_filearr ← for_each
    (fun '(yyyy, (mm, dd)) =>
       module_attr g "datetime" datetime_module "datetime";;
       lift (datetime_date yyyy mm dd))
    (combine yyyy_filearr (combine mm_filearr dd_filearr));
  (* lines 112-118 *)
  n ← py_len time;
  selected ←
    (if Nat.eqb n 2 && date_range then
       dt_start ← py_item time 0;
       dt_finis ← py_item time 1;
       let mask := map (in_range dt_start dt_finis) dt_filearr in
       ret (select filearr mask, select dt_filearr mask)
     else ret (filearr, dt_filearr));
  let '(filearr, dt_filearr) := selected in
  (* lines 124-136 *)
  dflist ← for_each (read_2dvd_file g w (length filearr))
             (combine (seq 0 (length filearr)) (combine filearr dt_filearr));
  (* lines 138-141 *)
  module_attr g "pd" pandas "concat";;
  match dflist with
  | [] => raise ValueError
  | _ => ret (List.concat dflist)
  end.

(** ** read_dem *)

Definition wrl_io_open_raster (g : namespace) (w : World) (path : string)
    : M raster :=
  module_attr g "wrl" wradlib "io";;
  emit (EvOpenRaster path);;
  lift (open_raster w path).

(** [dem.astype(float)] *)
Definition astype_float (p : pixels) : ndarray2 float64 :=
  match p with
  | IntPixels a => map2d f64_of_Z a
  | FloatPixels a => a
  end.

(** [dem[dem <= 0] = np.nan] *)
Definition mask_nonpositive (a : ndarray2 float64) : ndarray2 float64 :=
  map2d (fun v => if f64_le v (f64_of_Z 0) then f64_nan else v) a.

Definition pyeongchang_tif : string :=
  "/disk/WORKSPACE/kwonil/SRTM3_V2.1/TIF/pyeongchang_90m.tif".
Definition korea_tif : string :=
  "/disk/WORKSPACE/kwonil/SRTM3_V2.1/TIF/korea_90m.tif".

Definition dem_result : Type :=
  (ndarray2 float64 * list (list float64) * list (list float64) * string)%type.

Definition read_dem (g : namespace) (w : World)
    (file : option string) (area : string) : M dem_result :=
  (* lines 286-294 *)
  ds ← match file with
        | Some f => d ← wrl_io_open_raster g w f; ret (Some d)
        | None =>
            if str_in area "pyeongchang" then
              d ← wrl_io_open_raster g w pyeongchang_tif; ret (Some d)
            else if str_in area "korea" then
              d ← wrl_io_open_raster g w korea_tif; ret (Some d)
            else
              print "Please check area argument";; ret None
        end;
  (* line 296 *)
  module_attr g "wrl" wradlib "georef";;
  ds ← load_local "ds" ds;
  let dem := raster_pixels ds in
  let coord := raster_coord ds in
  let proj_dem := raster_proj ds in
  (* lines 297-301 *)
  let lon_dem := map (map fst) coord in
  let lat_dem := map (map snd) coord in
  let dem := astype_float dem in
  module_attr g "np" numpy "nan";;
  let dem := mask_nonpositive dem in
  let dem := transpose dem in
  ret (dem, lon_dem, lat_dem, proj_dem).

(** ** read_mxpol_rhi_with_hc *)

(** A field dictionary of a py-ART radar object. *)
Record field : Type := mk_field {
  field_data : ndarray2 float64;
  field_unit : string;
  field_long_name : string;
  field_FillValue : Z;
  field_standard_name : string
}.

(** The parts of a py-ART radar object that the reader fills in. *)
Record radar : Type := mk_radar {
  nrays : nat;
  ngates : nat;
  fields : gmap string field;
  range_data : list float64;
  elevation_data : list float64;
  azimuth_data : list float64;
  fixed_angle_data : list float64;
  time_data : list float64;
  time_units : string;
  longitude_data : list float64;
  latitude_data : list float64;
  altitude_data : list float64;
  instrument_name : string
}.

(** [pyart.testing.make_empty_rhi_radar(ngates, rays_per_sweep, nsweeps)]:
    no fields yet; the coordinate arrays that py-ART prepares are all
    replaced on lines 238-249 and start empty here. With no ray per sweep
    py-ART raises at once; here the reader fails later instead, on line
    241 at the latest, where no ray is left to take the azimuth from. *)
Definition make_empty_rhi_radar (n_gates rays_per_sweep nsweeps : nat) : radar :=
  mk_radar (rays_per_sweep * nsweeps) n_gates ∅ [] [] [] [] [] "" [] [] [] "".

(** [radar.add_field(name, dic, replace_existing)] *)
Definition add_field (r : radar) (name : string) (dic : field)
    (replace_existing : bool) : result radar :=
  if bool_decide (is_Some (fields r !! name)) && negb replace_existing then
    Raise ValueError
  else if Nat.eqb (shape0 (field_data dic)) (nrays r)
          && Nat.eqb (shape1 (field_data dic)) (ngates r) then
    Ok (mk_radar (nrays r) (ngates r) (<[name := dic]> (fields r))
          (range_data r) (elevation_data r) (azimuth_data r)
          (fixed_angle_data r) (time_data r) (time_units r)
          (longitude_data r) (latitude_data r) (altitude_data r)
          (instrument_name r))
  else Raise ValueError.

(** [HC_proportion[key]] *)
Fixpoint bundle_lookup (key : string) (b : mat_bundle) : option mat_value :=
  match b with
  | [] => None
  | (k, v) :: rest => if String.eqb k key then Some v else bundle_lookup key rest
  end.

Definition bundle_item (b : mat_bundle) (key : string) : M mat_value :=
  match bundle_lookup key b with
  | Some v => ret v
  | None => raise (KeyError key)
  end.

(** A loaded variable used as an array; the objects stored under the
    reserved keys are no arrays. *)
Definition as_array (v : mat_value) : M (ndarray2 float64) :=
  match v with
  | MatArray a => ret a
  | MatMeta => raise TypeError
  end.

(** [v.shape] *)
Definition array_shape (v : mat_value) : M (nat * nat) :=
  match v with
  | MatArray a => ret (shape0 a, shape1 a)
  | MatMeta => raise (AttributeError "shape")
  end.

(** The local [HC3d_proportion]: unassigned, or the layers stacked so
    far; a single layer is the two-dimensional array of line 183. *)
Definition hc_stack : Type := option (list (ndarray2 float64)).

Definition same_shape (a b : ndarray2 float64) : bool :=
  Nat.eqb (shape0 a) (shape0 b) && Nat.eqb (shape1 a) (shape1 b).

(** [np.dstack([stack, a])] *)
Definition np_dstack (layers : list (ndarray2 float64)) (a : ndarray2 float64)
    : M (list (ndarray2 float64)) :=
  if forallb (fun l => same_shape l a) layers then ret (layers ++ [a])%list
  else raise ValueError.

(** One iteration of the loop of lines 179-185. *)
Definition hc_stack_step (g : namespace) (HC_proportion : mat_bundle)
    (stack : hc_stack) (i : string) : M hc_stack :=
  if str_in "_" i then ret stack
  else if str_in i "AG" then
    module_attr g "np" numpy "array";;
    v ← bundle_item HC_proportion i;
    a ← as_array v;
    ret (Some [a])
  else
    module_attr g "np" numpy "dstack";;
    layers ← load_local "HC3d_proportion" stack;
    v ← bundle_item HC_proportion i;
    a ← as_array v;
    stacked ← np_dstack layers a;
    ret (Some stacked).

Fixpoint hc_stack_loop (g : namespace) (HC_proportion : mat_bundle)
    (stack : hc_stack) (keys : list string) : M hc_stack :=
  match keys with
  | [] => ret stack
  | i :: rest =>
      stack ← hc_stack_step g HC_proportion stack i;
      hc_stack_loop g HC_proportion stack rest
  end.

(** [np.argmax] along one gate: the first NaN if there is one, else the
    first position of the largest value. *)
Fixpoint argmax_from (best : float64) (best_i i : nat) (l : list float64) : nat :=
  if f64_isnan best then best_i
  else
    match l with
    | [] => best_i
    | x :: rest =>
        if negb (f64_le x best) then argmax_from x i (S i) rest
        else argmax_from best best_i (S i) rest
    end.

Definition argmax (l : list float64) : nat :=
  match l with
  | [] => 0%nat
  | x :: rest => argmax_from x 0 1 rest
  end.

(** The values of all layers at gate (i, j). *)
Definition gate_values (layers : list (ndarray2 float64)) (i j : nat)
    : list float64 :=
  flat_map (fun l => match get2 l i j with Some v => [v] | None => [] end) layers.

(** Lines 186-187. *)
Definition most_probable_habit (layers : list (ndarray2 float64))
    : M (ndarray2 float64) :=
  match layers with
  | [] | [_] => raise AxisError
  | first :: _ =>
      ret (mk_ndarray2 (shape0 first) (shape1 first)
             (map (fun i =>
                map (fun j =>
                  match get2 first i j with
                  | Some v =>
                      if f64_isnan v then f64_nan
                      else f64_of_Z (Z.of_nat (argmax (gate_values layers i j)))
                  | None => f64_nan
                  end)
                  (seq 0 (shape1 first)))
                (seq 0 (shape0 first))))
  end.

Definition list_str : list string :=
  ["AG"; "CR"; "IH"; "LR"; "MH"; "RN"; "RP"; "WS"].
Definition list_standard : list string :=
  ["Aggregation"; "Crystal"; "Ice hail / Graupel"; "Light rain";
   "Melting hail"; "Rain"; "Rimed particles"; "Wet snow"].

Definition hc_long_name : string :=
  "Most probable habit. AG(0), CR(1), IH(2), LR(3), MH(4), RN(5), RP(6), WS(7)".

(** Lines 198-203. *)
Fixpoint add_proportion_fields (HC_proportion : mat_bundle) (r : radar)
    (names : list (string * string)) : M radar :=
  match names with
  | [] => ret r
  | (_str, _standard) :: rest =>
      v ← bundle_item HC_proportion _str;
      shape ← array_shape v;
      a ← as_array v;
      r ← lift (add_field r _str
                  (mk_field a "-" ("Proportion of the " ++ _str) (-9999) _standard)
                  true);
      add_proportion_fields HC_proportion r rest
  end.

(** [a.T[mask]]: the rows of the transposed array that the mask keeps. *)
Definition rows_where (a : ndarray2 float64) (mask : list bool)
    : M (ndarray2 float64) :=
  if Nat.eqb (shape0 a) (length mask) then
    let kept := select (data a) mask in
    ret (mk_ndarray2 (length kept) (shape1 a) kept)
  else raise IndexError.

(** The gate mask of line 171. *)
Definition gate_mask (El : list float64) : list bool :=
  map (fun e => f64_gt e (f64_of_Z 5) && f64_lt e (f64_of_Z 175)) El.

(** The literal [4.5] *)
Definition zdr_offset : float64 := binary_normalize prec64 emax64 9 (-1) false.

Definition Dataset (g : namespace) (w : World) (path : string) : M ncfile :=
  cls ← load_global g "Dataset";
  match cls with
  | PyClass "netCDF4.Dataset" =>
      emit (EvOpenDataset path);;
      lift (open_dataset w path)
  | _ => raise TypeError
  end.

Definition read_mxpol_rhi_with_hc (g : namespace) (w : World)
    (rhifile_nc hcfile_mat : string) : M radar :=
  (* HC file, line 167 *)
  module_attr g "scipy" scipy "io";;
  emit (EvLoadMat hcfile_mat);;
  HC_proportion ← lift (loadmat w hcfile_mat);
  (* RHI file, lines 169-173 *)
  mxpol ← Dataset g w rhifile_nc;
  let El := nc_Elevation mxpol in
  module_attr g "np" numpy "logical_and";;
  let wh_hc := gate_mask El in
  El ← bool_index El wh_hc;
  let R := nc_Range mxpol in
  (* line 175 *)
  module_attr g "pyart" pyart "testing";;
  ag ← bundle_item HC_proportion "AG";
  ag_shape ← array_shape ag;
  let radar := make_empty_rhi_radar (snd ag_shape) (fst ag_shape) 1 in
  (* find most probable habit, lines 179-187 *)
  HC3d_proportion ← hc_stack_loop g HC_proportion None (map fst HC_proportion);
  module_attr g "np" numpy "float_";;
  (if numpy_has_float_ w then ret tt else raise (AttributeError "float_"));;
  module_attr g "np" numpy "argmax";;
  layers ← load_local "HC3d_proportion" HC3d_proportion;
  HC ← most_probable_habit layers;
  (* add to PYART radar fields, lines 190-209 *)
  radar ← add_proportion_fields HC_proportion radar (combine list_str list_standard);
  radar ← lift (add_field radar "HC"
                  (mk_field HC "-" hc_long_name (-9999) "Hydrometeor classification")
                  true);
  (* Radar variables, lines 212-235 *)
  ZDR ← rows_where (transpose (nc_Zdr mxpol)) wh_hc;
  Z ← rows_where (transpose (nc_Zh mxpol)) wh_hc;
  KDP ← rows_where (transpose (nc_Kdp mxpol)) wh_hc;
  radar ← lift (add_field radar "KDP"
                  (mk_field KDP "deg/km" "differential phase shift" (-9999) "KDP")
                  false);
  radar ← lift (add_field radar "ZDR"
                  (mk_field (map2d (fun v => f64_sub v zdr_offset) ZDR) "dB"
                     "differential reflectivity" (-9999) "ZDR")
                  false);
  radar ← lift (add_field radar "ZHH"
                  (mk_field Z "dBZ" "horizontal reflectivity" (-9999) "ZHH")
                  false);
  (* lines 238-249 *)
  module_attr g "np" numpy "array";;
  azimuth ← bool_index (nc_Azimuth mxpol) wh_hc;
  first ← match azimuth with
          | a0 :: _ => ret a0
          | [] => raise IndexError
          end;
  let azimuth :=
    if f64_lt first (f64_of_Z 0)
    then map (fun a => f64_add a (f64_of_Z 360)) azimuth
    else azimuth in
  module_attr g "np" numpy "array";;
  ret (mk_radar (nrays radar) (ngates radar) (fields radar)
         R El azimuth azimuth (nc_Time mxpol)
         "seconds since 1970-01-01T00:00:00Z"
         [nc_Longitude mxpol] [nc_Latitude mxpol] [nc_Altitude mxpol]
         "MXPol").


(** Vocabulary for the raw raster: one pixel in the file's element type. *)
Inductive px : Type :=
| PxInt (z : Z)
| PxFloat (f : float64).

Definition px_get (p : pixels) (i j : nat) : option px :=
  match p with
  | IntPixels a => option_map PxInt (get2 a i j)
  | FloatPixels a => option_map PxFloat (get2 a i j)
  end.

Definition px_nonpositive (v : px) : Prop :=
  match v with
  | PxInt z => z <= 0
  | PxFloat f => f64_le f (f64_of_Z 0) = true
  end.

Definition px_positive (v : px) : Prop :=
  match v with
  | PxInt z => 0 < z
  | PxFloat f => f64_gt f (f64_of_Z 0) = true
  end.

Definition px_float (v : px) : float64 :=
  match v with
  | PxInt z => f64_of_Z z
  | PxFloat f => f
  end.

Definition wf_pixels (p : pixels) : Prop :=
  match p with
  | IntPixels a => wf_ndarray2 a
  | FloatPixels a => wf_ndarray2 a
  end.

Definition pixels_shape (p : pixels) : nat * nat :=
  match p with
  | IntPixels a => (shape0 a, shape1 a)
  | FloatPixels a => (shape0 a, shape1 a)
  end.

(** The four-tuple that lines 296-303 build from an opened raster. *)
Definition dem_of_raster (r : raster) : dem_result :=
  (transpose (mask_nonpositive (astype_float (raster_pixels r))),
   map (map fst) (raster_coord r),
   map (map snd) (raster_coord r),
   raster_proj r).

Definition invalid_area_message : string := "Please check area argument".

(** The columns that lines 56-67 divide by ten, in source order. *)
Definition aws_scaled_fields : list string :=
  ["wd"; "ws"; "t"; "rh"; "pa"; "ps"; "rn60m_acc"; "rn1d"; "rn15m";
   "rn60m"; "wds"; "wss"].

Definition divide_columns (fields : list string) (d : float64)
    (df : DataFrame) : result DataFrame :=
  fold_left
    (fun acc name =>
       match acc with
       | Ok data => divide_column name d data
       | Raise e => Raise e
       end)
    fields (Ok df).

Definition is_scaled (name : string) : bool :=
  existsb (String.eqb name) aws_scaled_fields.

(** How a cell of the parsed file shows up in the returned frame. *)
Definition aws_cell_rel (name : string) (raw out : cell) : Prop :=
  if is_scaled name then cell_div raw ten = Ok out
  else out = raw \/ out = upcast raw.

Definition is_read_csv (e : event) : bool :=
  match e with EvReadCsv _ => true | _ => false end.

(** The columns of a returned row that differ from the parsed row. *)
Definition cell_eqb (a b : cell) : bool :=
  match a, b with
  | CInt x, CInt y => x =? y
  | CFloat x, CFloat y => f64_eq x y
  | CStr x, CStr y => String.eqb x y
  | CInt x, CFloat y | CFloat y, CInt x => f64_eq (f64_of_Z x) y
  | _, _ => false
  end.

Definition changed_columns (names : list string) (raw out : list cell)
    : list string :=
  map fst
    (List.filter (fun '(_, (r, o)) => negb (cell_eqb r o))
       (combine names (combine raw out))).

(** The relation between a row before and after: the cells under the
    columns accepted by [sel] were divided, the others are untouched. *)
Definition row_divided (names : list string) (sel : string -> bool)
    (d : float64) (row row' : list cell) : Prop :=
  length row' = length row /\
  forall j n c, nth_error names j = Some n -> nth_error row j = Some c ->
    exists c', nth_error row' j = Some c' /\
      (if sel n then cell_div c d = Ok c' else c' = c).

(** The pure part of the loop body: what lines 56-68 make of the frame
    that [pd.read_csv] returned. *)
Definition aws_row_of (data : DataFrame) : result (list cell) :=
  match divide_columns aws_scaled_fields ten data with
  | Raise e => Raise e
  | Ok data' =>
      match rows_where_eq "stn" 100 data' with
      | Raise e => Raise e
      | Ok selected =>
          match values_tolist data' selected with
          | row :: _ => Ok row
          | [] => Raise IndexError
          end
      end
  end.

(** What the loop body makes of one parsed file. *)
Definition aws_row_spec (names : list string) (raw out : list cell) : Prop :=
  length out = length raw /\
  (forall j n c, nth_error names j = Some n -> nth_error raw j = Some c ->
     exists c', nth_error out j = Some c' /\ aws_cell_rel n c c') /\
  (exists i c, index_of "stn" names = Some i /\ nth_error out i = Some c /\
     cell_eq_int c 100 = true).


(** The date that lines 106-109 read off a file name. *)
Definition file_date (x : string) : result datetime :=
  match py_int (str_slice (basename x) (Some (-27)) (Some (-23))) with
  | Raise e => Raise e
  | Ok yyyy =>
      match py_int (str_slice (basename x) (Some (-23)) (Some (-21))) with
      | Raise e => Raise e
      | Ok mm =>
          match py_int (str_slice (basename x) (Some (-21)) (Some (-19))) with
          | Raise e => Raise e
          | Ok dd => datetime_date yyyy mm dd
          end
      end
  end.

(** The rows that one file contributes. *)
Definition file_rows (w : World) (file : string) (rows : list dvd_row) : Prop :=
  exists d recs,
    file_date file = Ok d /\ read_csv_2dvd w file = Ok recs /\
    map_result (dvd_derive d) recs = Ok rows.

(** The files of a listing whose date lies in [[dt_start, dt_finis)]. *)
Definition dated_in_range (dt_start dt_finis : datetime) (file : string) : bool :=
  match file_date file with
  | Ok d => in_range dt_start dt_finis d
  | Raise _ => false
  end.

(** The keys of a bundle that the stacking loop does not skip, in
    iteration order. *)
Definition habit_keys (b : mat_bundle) : list string :=
  List.filter (fun k => negb (str_in "_" k)) (map fst b).

(** The arrays of a bundle are rectangular. *)
Definition wf_bundle (b : mat_bundle) : Prop :=
  Forall (fun kv => match snd kv with
                    | MatArray a => wf_ndarray2 a
                    | MatMeta => True
                    end) b.

(** The layers of a bundle in the documented order. *)
Definition documented_layers (b : mat_bundle) (layers : list (ndarray2 float64))
    : Prop :=
  Forall2 (fun code a => bundle_lookup code b = Some (MatArray a)) list_str layers.

(** The stack, once assigned, starts with the array stored under 'AG'. *)
Definition stack_headed (b : mat_bundle) (stack : hc_stack) : Prop :=
  match stack with
  | None => True
  | Some layers =>
      exists ag rest, layers = ag :: rest /\
                      bundle_lookup "AG" b = Some (MatArray ag)
  end.

(** What lines 186-187 put at gate (i, j). *)
Definition habit_at (layers : list (ndarray2 float64)) (i j : nat) (v : float64)
    : float64 :=
  if f64_isnan v then f64_nan
  else f64_of_Z (Z.of_nat (argmax (gate_values layers i j))).
(** ** Vocabulary for the further properties *)

(** The files that lines 112-118 keep: those dated in [[dt_start,
    dt_finis)] when [time] has two elements and [date_range] is true, all
    of them otherwise. *)
Definition selected_files (time : list datetime) (date_range : bool)
    (files : list string) : list string :=
  match time with
  | [dt_start; dt_finis] =>
      if date_range then List.filter (dated_in_range dt_start dt_finis) files
      else files
  | _ => files
  end.

(** What a run shows for the file at position [i] of [size] selected
    files: the read, then the progress line of line 136. *)
Definition file_events (size : nat) (item : nat * string) : list event :=
  [EvReadCsv (snd item);
   EvPrint (string_of_nat (fst item + 1) ++ " " ++ string_of_nat size ++ " "
            ++ snd item)].

(** A list of names in ascending order. *)
Fixpoint ascending (l : list string) : bool :=
  match l with
  | a :: (b :: _) as rest => String.leb a b && ascending rest
  | _ => true
  end.

(** The same world with another directory listing. *)
Definition with_listing (w : World) (listing : string -> bool -> list string)
    : World :=
  mk_World listing (read_csv_hash w) (read_csv_2dvd w) (loadmat w)
    (open_dataset w) (open_raster w) (numpy_has_int w) (numpy_has_float_ w).

(** [data.stn == 100] on one row, the station column being at position
    [i]. *)
Definition at_station (i : nat) (row : list cell) : bool :=
  match nth_error row i with
  | Some c => cell_eq_int c 100
  | None => false
  end.

(** The cells under the divided columns are numbers. *)
Definition numeric_rows (names : list string) (rows : list (list cell)) : Prop :=
  Forall (fun r => forall j n c,
            nth_error names j = Some n -> is_scaled n = true ->
            nth_error r j = Some c -> is_str c = false) rows.


(** [grid[i][j]] on a list of rows. *)
Definition grid_get {A} (grid : list (list A)) (i j : nat) : option A :=
  match nth_error grid i with
  | Some row => nth_error row j
  | None => None
  end.

(** A raster whose pixel array is rectangular and whose coordinate array
    has the shape of the pixel array. *)
Definition wf_raster (r : raster) : Prop :=
  wf_pixels (raster_pixels r) /\
  length (raster_coord r) = fst (pixels_shape (raster_pixels r)) /\
  Forall (fun row => length row = snd (pixels_shape (raster_pixels r)))
    (raster_coord r).

(** A key for the float64 numbers whose lexicographic order is their
    order: the class (infinities, negative, zero, positive), then the
    exponent and the mantissa, both reversed for the negative numbers. *)
Definition f64_key (f : float64) : list Z :=
  match f with
  | S754_infinity true => [-2; 0; 0]
  | S754_finite true m e => [-1; - e; Zneg m]
  | S754_zero _ => [0; 0; 0]
  | S754_finite false m e => [1; e; Zpos m]
  | S754_infinity false => [2; 0; 0]
  | S754_nan => [3; 0; 0]
  end.

(** Where [np.argmax] settles on the values [l]: position [k] holds a
    value m such that every earlier value is a number and, if m is a
    number, is smaller than m, and no value at all is larger than m. So
    [k] is the place of the first NaN if there is one, and otherwise the
    first place of the largest value. *)
Definition is_argmax (l : list float64) (k : nat) : Prop :=
  exists m,
    nth_error l k = Some m /\
    (forall i x, (i < k)%nat -> nth_error l i = Some x ->
       f64_isnan x = false /\ (f64_isnan m = false -> f64_lt x m = true)) /\
    (f64_isnan m = false -> forall x, In x l -> f64_le x m = true).

(** The number of layers stacked so far. *)
Definition stack_size (stack : hc_stack) : nat :=
  match stack with
  | Some layers => length layers
  | None => 0
  end.

(** ** Concrete inputs *)

(** A namespace in which the names that [read_aws] leaves unbound have
    been supplied. *)
Definition aws_names : list string :=
  ["time"; "stn"; "wd"; "ws"; "t"; "rh"; "pa"; "ps"; "rn60m_acc"; "rn1d";
   "rn15m"; "rn60m"; "wds"; "wss"; "eol"].

Definition aws_globals : namespace :=
  <["aws_dir" := PyStr "/aws/"]>
  (<["YYYYMMDD" := PyStr "20180228"]>
  (<["names" := PyList aws_names]>
  (<["pd" := PyModule pandas]> io_globals))).

Definition aws_row (stn v : Z) : list cell :=
  [CInt 201802280600; CInt stn; CInt v; CInt v; CInt v; CInt v; CInt v;
   CInt v; CInt v; CInt v; CInt v; CInt v; CInt v; CInt v; CStr "="].

Definition aws_world : World :=
  mk_World
    (fun pattern _ =>
       if String.eqb pattern "/aws/201802/28/AWS_MIN_20180228*"
       then ["/aws/201802/28/AWS_MIN_201802280601";
             "/aws/201802/28/AWS_MIN_201802280600"]
       else [])
    (fun path _ =>
       if String.eqb path "/aws/201802/28/AWS_MIN_201802280600"
       then Ok [aws_row 90 10; aws_row 100 25; aws_row 100 30]
       else if String.eqb path "/aws/201802/28/AWS_MIN_201802280601"
       then Ok [aws_row 100 40; aws_row 95 50]
       else Raise (OSError path))
    (fun p => Raise (OSError p)) (fun p => Raise (OSError p))
    (fun p => Raise (OSError p)) (fun p => Raise (OSError p)) true true.

(** A namespace in which [os] and [pd] have been supplied, and two 2DVD
    files, dated 2017-12-24 and 2017-12-25. *)
Definition dvd_globals : namespace :=
  <["os" := PyModule os_module]> (<["pd" := PyModule pandas]> io_globals).

Definition dvd_file_24 : string :=
  "/dvd/2017/2DVD_Dapp_v_rho_20171224_0000_2359__Deq.txt".
Definition dvd_file_25 : string :=
  "/dvd/2017/2DVD_Dapp_v_rho_20171225_0000_2359__Deq.txt".

Definition dvd_rec (hhmm v : Z) : dvd_record :=
  mk_dvd_record hhmm (f64_of_Z 1) (f64_of_Z v) (f64_of_Z 1) (f64_of_Z 2)
    (f64_of_Z 1) (f64_of_Z 1) (f64_of_Z 1) (f64_of_Z 1) (f64_of_Z 3).

Definition dvd_world : World :=
  mk_World
    (fun pattern recursive =>
       if String.eqb pattern "/dvd/**/2DVD_Dapp_v_rho_201*Deq.txt" && recursive
       then [dvd_file_25; dvd_file_24] else [])
    (fun p _ => Raise (OSError p))
    (fun path =>
       if String.eqb path dvd_file_24 then Ok [dvd_rec 930 4; dvd_rec 931 5]
       else if String.eqb path dvd_file_25 then Ok [dvd_rec 15 6]
       else Raise (OSError path))
    (fun p => Raise (OSError p)) (fun p => Raise (OSError p))
    (fun p => Raise (OSError p)) true true.

Definition day_2017_12_24 : datetime := mk_datetime 2017 12 24 0 0 0 0.
Definition day_2017_12_25 : datetime := mk_datetime 2017 12 25 0 0 0 0.

(** A namespace in which [Dataset] has been supplied, a classification
    bundle of one ray and two gates, and an RHI volume of two rays, the
    first of them at 3 degrees of elevation. *)
Definition mxpol_globals : namespace :=
  <["Dataset" := PyClass "netCDF4.Dataset"]> io_globals.

Definition tenths (n : Z) : float64 := f64_div (f64_of_Z n) (f64_of_Z 10).

Definition layer (a b : float64) : mat_value :=
  MatArray (mk_ndarray2 1 2 [[a; b]]).

Definition reserved_items : mat_bundle :=
  [("__header__", MatMeta); ("__version__", MatMeta); ("__globals__", MatMeta)].

(** Gate (0,0): AG is NaN. Gate (0,1): RN is the largest proportion. *)
Definition hc_bundle : mat_bundle :=
  (reserved_items ++
   [("AG", layer f64_nan (tenths 1)); ("CR", layer (tenths 2) (tenths 0));
    ("IH", layer (tenths 0) (tenths 0)); ("LR", layer (tenths 0) (tenths 0));
    ("MH", layer (tenths 0) (tenths 0)); ("RN", layer (tenths 8) (tenths 9));
    ("RP", layer (tenths 0) (tenths 0)); ("WS", layer (tenths 0) (tenths 0))])%list.

(** The same layers, saved with RN right after AG. *)
Definition hc_bundle_reordered : mat_bundle :=
  (reserved_items ++
   [("AG", layer f64_nan (tenths 1)); ("RN", layer (tenths 8) (tenths 9));
    ("CR", layer (tenths 2) (tenths 0)); ("IH", layer (tenths 0) (tenths 0));
    ("LR", layer (tenths 0) (tenths 0)); ("MH", layer (tenths 0) (tenths 0));
    ("RP", layer (tenths 0) (tenths 0)); ("WS", layer (tenths 0) (tenths 0))])%list.

Definition rhi_volume : ncfile :=
  mk_ncfile
    [f64_of_Z 3; f64_of_Z 10]            (* Elevation *)
    [f64_of_Z 75; f64_of_Z 150]          (* Range *)
    [f64_of_Z (-5); f64_of_Z (-5)]       (* Azimuth *)
    [f64_of_Z 1000; f64_of_Z 1001]       (* Time *)
    (mk_ndarray2 2 2 [[f64_of_Z 1; f64_of_Z 2]; [f64_of_Z 3; f64_of_Z 4]])
    (mk_ndarray2 2 2 [[f64_of_Z 11; f64_of_Z 12]; [f64_of_Z 13; f64_of_Z 14]])
    (mk_ndarray2 2 2 [[f64_of_Z 21; f64_of_Z 22]; [f64_of_Z 23; f64_of_Z 24]])
    (f64_of_Z 128) (f64_of_Z 37) (f64_of_Z 800).

Definition mxpol_world : World :=
  mk_World (fun _ _ => []) (fun p _ => Raise (OSError p))
    (fun p => Raise (OSError p))
    (fun path =>
       if String.eqb path "hc.mat" then Ok hc_bundle
       else if String.eqb path "hc_reordered.mat" then Ok hc_bundle_reordered
       else Raise (OSError path))
    (fun path =>
       if String.eqb path "rhi.nc" then Ok rhi_volume else Raise (OSError path))
    (fun p => Raise (OSError p)) true true.

(** A raster of two rows and three columns of 16-bit elevations. *)
Definition dem_raster : raster :=
  mk_raster
    (IntPixels (mk_ndarray2 2 3 [[-5; 0; 7]; [12; -1; 3]]))
    [[(f64_of_Z 128, f64_of_Z 38); (f64_of_Z 129, f64_of_Z 38);
      (f64_of_Z 130, f64_of_Z 38)];
     [(f64_of_Z 128, f64_of_Z 37); (f64_of_Z 129, f64_of_Z 37);
      (f64_of_Z 130, f64_of_Z 37)]]
    "EPSG:4326".

Definition dem_world : World :=
  mk_World (fun _ _ => []) (fun p _ => Raise (OSError p))
    (fun p => Raise (OSError p)) (fun p => Raise (OSError p))
    (fun p => Raise (OSError p))
    (fun path =>
       if String.eqb path "dem.tif" || String.eqb path pyeongchang_tif
          || String.eqb path korea_tif
       then Ok dem_raster else Raise (OSError path))
    true true.

(** The radar objects that the reader returns for these inputs. *)
Definition mxpol_radar : radar :=
  Eval vm_compute in
    match outcome (read_mxpol_rhi_with_hc mxpol_globals mxpol_world
                     "rhi.nc" "hc.mat") with
    | Ok r => r
    | Raise _ => make_empty_rhi_radar 0 0 0
    end.

Definition mxpol_radar_reordered : radar :=
  Eval vm_compute in
    match outcome (read_mxpol_rhi_with_hc mxpol_globals mxpol_world
                     "rhi.nc" "hc_reordered.mat") with
    | Ok r => r
    | Raise _ => make_empty_rhi_radar 0 0 0
    end.

(** ** More concrete inputs *)

(** A world without any file. *)
Definition no_files : World :=
  mk_World (fun _ _ => []) (fun p _ => Raise (OSError p))
    (fun p => Raise (OSError p)) (fun p => Raise (OSError p))
    (fun p => Raise (OSError p)) (fun p => Raise (OSError p)) true true.

(** The AWS files, listed in the opposite order. *)
Definition aws_world_reversed : World :=
  with_listing aws_world
    (fun pattern recursive => rev (glob_glob aws_world pattern recursive)).

(** The AWS files, the later one without a row of station 100. *)
Definition aws_world_without_station : World :=
  mk_World (glob_glob aws_world)
    (fun path names =>
       if String.eqb path "/aws/201802/28/AWS_MIN_201802280601"
       then Ok [aws_row 95 50]
       else read_csv_hash aws_world path names)
    (read_csv_2dvd aws_world) (loadmat aws_world) (open_dataset aws_world)
    (open_raster aws_world) true true.

(** The frame and the tables that the readers return for these inputs. *)
Definition aws_frame : DataFrame :=
  Eval vm_compute in
    match outcome (read_aws aws_globals aws_world TimeNone
                     "/disk/STORAGE/OBS/AWS/" true) with
    | Ok df => df
    | Raise _ => mk_DataFrame [] []
    end.

Definition dvd_table : list dvd_row :=
  Eval vm_compute in
    match outcome (read_2dvd_rho dvd_globals dvd_world
                     (TimeSeq [day_2017_12_24; day_2017_12_25]) "/dvd" true) with
    | Ok table => table
    | Raise _ => []
    end.

Definition dvd_table_unfiltered : list dvd_row :=
  Eval vm_compute in
    match outcome (read_2dvd_rho dvd_globals dvd_world
                     (TimeSeq [day_2017_12_24; day_2017_12_25]) "/dvd" false) with
    | Ok table => table
    | Raise _ => []
    end.

Definition dvd_file_notes : string :=
  "/dvd/2017/2DVD_Dapp_v_rho_2017_notes_on_the_season_Deq.txt".

Definition dvd_world_with_notes : World :=
  with_listing dvd_world (fun _ _ => [dvd_file_24; dvd_file_notes]).

(** * Properties *)

(** ** The computation monad *)

Lemma bind_unfold {A B} (c : M A) (k : A -> M B) :
  (c ≫= k) =
  match c with
  | (t, Ok a) => ((t ++ fst (k a))%list, snd (k a))
  | (t, Raise e) => (t, Raise e)
  end.
Proof.
  unfold mbind, M_bind. destruct c as [t [a|e]]; [|reflexivity].
  destruct (k a); reflexivity.
Qed.

Lemma bind_ret_l {A B} (a : A) (k : A -> M B) : (ret a ≫= k) = k a.
Proof. rewrite bind_unfold. simpl. destruct (k a); reflexivity. Qed.

Lemma bind_outcome_Ok {A B} (c : M A) (k : A -> M B) (b : B) :
  outcome (c ≫= k) = Ok b ->
  exists a, outcome c = Ok a /\ outcome (k a) = Ok b.
Proof.
  rewrite bind_unfold. destruct c as [t [a|e]]; simpl; [|discriminate].
  intros H. exists a. split; [reflexivity|exact H].
Qed.

Lemma bind_trace_Ok {A B} (c : M A) (k : A -> M B) (a : A) :
  outcome c = Ok a -> trace (c ≫= k) = (trace c ++ trace (k a))%list.
Proof.
  rewrite bind_unfold. destruct c as [t [a'|e]]; simpl; [|discriminate].
  intros [= ->]. reflexivity.
Qed.

Lemma bind_outcome_step {A B} (c : M A) (k : A -> M B) (a : A) :
  outcome c = Ok a -> outcome (c ≫= k) = outcome (k a).
Proof.
  rewrite bind_unfold. destruct c as [t [a'|e]]; simpl; [|discriminate].
  intros [= ->]. reflexivity.
Qed.

(** ** Substring test *)

Lemma prefix_spec (a b : string) :
  String.prefix a b = true <-> exists post, b = (a ++ post)%string.
Proof.
  revert b. induction a as [|c a IH]; intros [|c' b]; simpl.
  - split; [intros _; exists EmptyString; reflexivity | reflexivity].
  - split; [intros _; exists (String c' b); reflexivity | reflexivity].
  - split; [discriminate | intros [post H]; discriminate].
  - destruct (Ascii.ascii_dec c c') as [->|Hne].
    + rewrite IH. split; intros [post H]; exists post.
      * rewrite H. reflexivity.
      * injection H as H. exact H.
    + split; [discriminate|]. intros [post H]. injection H as H1 H2.
      congruence.
Qed.

Lemma str_in_spec (needle hay : string) :
  str_in needle hay = true <-> substring_of needle hay.
Proof.
  unfold substring_of. induction hay as [|c hay IH]; cbn [str_in].
  - rewrite orb_false_r, prefix_spec. split.
    + intros [post H]. exists EmptyString, post. exact H.
    + intros [[|c pre] [post H]]; [exists post; exact H | discriminate].
  - rewrite orb_true_iff, prefix_spec, IH. split.
    + intros [[post H] | [pre [post H]]].
      * exists EmptyString, post. exact H.
      * exists (String c pre), post. simpl. rewrite H. reflexivity.
    + intros [[|c' pre] [post H]].
      * left. exists post. exact H.
      * right. injection H as _ H. exists pre, post. exact H.
Qed.

Lemma str_in_false (needle hay : string) :
  str_in needle hay = false <-> ~ substring_of needle hay.
Proof.
  rewrite <- str_in_spec. destruct (str_in needle hay); split; intros H;
    try reflexivity; try discriminate; try congruence.
Qed.

(** ** Loops and lifted results *)

Lemma lift_bind {A B} (r : result A) (k : A -> M B) :
  (lift r ≫= k) = match r with Ok a => k a | Raise e => raise e end.
Proof. destruct r as [a|e]; [apply (bind_ret_l a k)|reflexivity]. Qed.

Lemma module_attr_Ok (g : namespace) (name : string) (m : pymodule)
    (attr : string) (u : unit) :
  outcome (module_attr g name m attr) = Ok u ->
  g !! name = Some (PyModule m) /\ module_attr g name m attr = ret tt.
Proof.
  unfold module_attr, load_global. destruct (g !! name) as [v|]; [|discriminate].
  rewrite (bind_ret_l v). destruct v; try discriminate.
  destruct (decide (m0 = m)) as [->|]; [|discriminate]. auto.
Qed.

Lemma load_global_Ok (g : namespace) (name : string) (v : pyval) :
  outcome (load_global g name) = Ok v ->
  g !! name = Some v /\ load_global g name = ret v.
Proof.
  unfold load_global. destruct (g !! name) as [v'|]; [|discriminate].
  intros [= ->]. auto.
Qed.

Lemma for_each_Ok {A B} (f : A -> M B) (l : list A) (ys : list B) :
  outcome (for_each f l) = Ok ys ->
  Forall2 (fun x y => outcome (f x) = Ok y) l ys.
Proof.
  revert ys. induction l as [|x l IH]; intros ys H; simpl in H.
  - injection H as <-. constructor.
  - apply bind_outcome_Ok in H as (y & Hy & H).
    apply bind_outcome_Ok in H as (ys' & Hys & H).
    injection H as <-. constructor; auto.
Qed.

Lemma for_each_trace {A B} (f : A -> M B) (l : list A) (ys : list B) :
  outcome (for_each f l) = Ok ys ->
  trace (for_each f l) = List.concat (map (fun x => trace (f x)) l).
Proof.
  revert ys. induction l as [|x l IH]; intros ys H; simpl in *.
  - reflexivity.
  - apply bind_outcome_Ok in H as (y & Hy & H).
    apply bind_outcome_Ok in H as (ys' & Hys & H).
    rewrite (bind_trace_Ok _ _ y Hy). f_equal.
    rewrite (bind_trace_Ok _ _ ys' Hys). rewrite (IH ys' Hys).
    simpl. apply app_nil_r.
Qed.

Lemma for_each_complete {A B} (f : A -> M B) (l : list A) (ys : list B) :
  Forall2 (fun x y => outcome (f x) = Ok y) l ys ->
  outcome (for_each f l) = Ok ys.
Proof.
  induction 1 as [|x y l ys Hxy _ IH]; simpl.
  - reflexivity.
  - rewrite (bind_outcome_step _ _ y Hxy).
    rewrite (bind_outcome_step _ _ ys IH). reflexivity.
Qed.

(** Inversion of a successful run, one bind at a time. *)
Ltac bind_inv H :=
  let a := fresh "a" in
  let Ha := fresh "Hbind" in
  apply bind_outcome_Ok in H as (a & Ha & H).

Lemma bind_ext {A B} (c : M A) (k1 k2 : A -> M B) :
  (forall a, k1 a = k2 a) -> (c ≫= k1) = (c ≫= k2).
Proof.
  intros H. rewrite !bind_unfold. destruct c as [t [a|e]]; [|reflexivity].
  rewrite H. reflexivity.
Qed.

(** Computations that touch neither the disk nor the terminal. *)
Lemma bind_silent {A B} (c : M A) (k : A -> M B) :
  trace c = [] -> (forall a, trace (k a) = []) -> trace (c ≫= k) = [].
Proof.
  intros Hc Hk. rewrite bind_unfold. destruct c as [t [a|e]]; simpl in *.
  - rewrite Hc. apply Hk.
  - exact Hc.
Qed.

Lemma load_global_silent (g : namespace) (name : string) :
  trace (load_global g name) = [].
Proof. unfold load_global. destruct (g !! name); reflexivity. Qed.

Lemma module_attr_silent (g : namespace) (name : string) (m : pymodule)
    (attr : string) :
  trace (module_attr g name m attr) = [].
Proof.
  unfold module_attr. apply bind_silent; [apply load_global_silent|].
  intros [m'| | | | |]; try reflexivity. destruct (decide (m' = m)); reflexivity.
Qed.

Lemma lift_silent {A} (r : result A) : trace (lift r) = [].
Proof. reflexivity. Qed.

Lemma trace_module_attr_bind {A} (g : namespace) (name : string)
    (m : pymodule) (attr : string) (k : unit -> M A) (a : A) :
  outcome (module_attr g name m attr ≫= k) = Ok a ->
  g !! name = Some (PyModule m) /\
  (module_attr g name m attr ≫= k) = k tt.
Proof.
  intros H. pose proof H as H0. bind_inv H0.
  apply module_attr_Ok in Hbind as [Hg Heq]. split; [exact Hg|].
  rewrite Heq. apply (bind_ret_l tt).
Qed.

Lemma module_attr_bound (g : namespace) (name : string) (m : pymodule)
    (attr : string) :
  g !! name = Some (PyModule m) -> module_attr g name m attr = ret tt.
Proof.
  intros H. unfold module_attr, load_global. rewrite H.
  rewrite (bind_ret_l (PyModule m)). destruct (decide (m = m)); [reflexivity|congruence].
Qed.

Lemma io_globals_bound (g : namespace) (name : string) (v : pyval) :
  io_globals ⊆ g -> io_globals !! name = Some v -> g !! name = Some v.
Proof. intros Hsub H. eapply lookup_weaken; eassumption. Qed.


(** ** float64: conversion from integers keeps the sign *)

Lemma iter_pos_nat {A} (f : A -> A) (p : positive) (x : A) :
  SpecFloat.iter_pos f p x = Nat.iter (Pos.to_nat p) f x.
Proof.
  revert x. induction p as [p IH|p IH|]; intros x; cbn [SpecFloat.iter_pos].
  - rewrite !IH, Pos2Nat.inj_xI.
    replace (S (2 * Pos.to_nat p)) with (Pos.to_nat p + S (Pos.to_nat p))%nat by lia.
    rewrite Nat.iter_add, Nat.iter_succ_r. reflexivity.
  - rewrite !IH, Pos2Nat.inj_xO.
    replace (2 * Pos.to_nat p)%nat with (Pos.to_nat p + Pos.to_nat p)%nat by lia.
    rewrite Nat.iter_add. reflexivity.
  - reflexivity.
Qed.

Lemma shr_1_digits (k : nat) : forall (p : positive) (r s : bool),
  Z.of_nat k < Zpos (digits2_pos p) ->
  exists q r' s',
    Nat.iter k shr_1 (Build_shr_record (Zpos p) r s) = Build_shr_record (Zpos q) r' s'
    /\ Zpos (digits2_pos q) = Zpos (digits2_pos p) - Z.of_nat k.
Proof.
  induction k as [|k IH]; intros p r s Hk.
  - exists p, r, s. split; [reflexivity|]. simpl. lia.
  - rewrite Nat.iter_succ_r.
    destruct p as [p|p|]; cbn [digits2_pos] in *.
    + destruct (IH p true (r || s)%bool) as (q & r' & s' & E & D); [lia|].
      exists q, r', s'. split; [exact E|]. lia.
    + destruct (IH p false (r || s)%bool) as (q & r' & s' & E & D); [lia|].
      exists q, r', s'. split; [exact E|]. lia.
    + lia.
Qed.

Lemma shr_fexp_pos (p : positive) (e : Z) (l : location) :
  -1074 <= e ->
  exists q r s e',
    shr_fexp 53 1024 (Zpos p) e l = (Build_shr_record (Zpos q) r s, e') /\ e <= e'.
Proof.
  intros He. unfold shr_fexp, shr.
  remember (fexp 53 1024 (Zdigits2 (Z.pos p) + e) - e) as n eqn:En.
  assert (Hn : n < Zpos (digits2_pos p)).
  { subst n. unfold fexp, emin. cbn [Zdigits2]. lia. }
  destruct n as [|k|k].
  - destruct l as [|[| |]]; cbn; do 4 eexists; (split; [reflexivity|lia]).
  - rewrite iter_pos_nat.
    assert (Hk : Z.of_nat (Pos.to_nat k) < Zpos (digits2_pos p)) by lia.
    destruct l as [|[| |]]; cbn [shr_record_of_loc];
      match goal with
      | |- context [Nat.iter _ shr_1 (Build_shr_record _ ?r ?s)] =>
          destruct (shr_1_digits (Pos.to_nat k) p r s Hk) as (q & r' & s' & E & _)
      end; rewrite E; do 4 eexists; (split; [reflexivity|lia]).
  - destruct l as [|[| |]]; cbn; do 4 eexists; (split; [reflexivity|lia]).
Qed.

Lemma round_nearest_even_pos (q : positive) (l : location) :
  exists q', round_nearest_even (Zpos q) l = Zpos q'.
Proof.
  destruct l as [|[| |]]; cbn [round_nearest_even]; try (eexists; reflexivity).
  destruct (Z.even (Zpos q)); eexists; reflexivity.
Qed.

Lemma binary_round_aux_sign (s : bool) (p : positive) (e : Z) (l : location) :
  -1074 <= e ->
  (exists m e', binary_round_aux 53 1024 s (Zpos p) e l = S754_finite s m e')
  \/ binary_round_aux 53 1024 s (Zpos p) e l = S754_infinity s.
Proof.
  intros He. unfold binary_round_aux.
  destruct (shr_fexp_pos p e l He) as (q & r & s1 & e' & E & He'). rewrite E.
  cbn [shr_m].
  destruct (round_nearest_even_pos q (loc_of_shr_record (Build_shr_record (Zpos q) r s1)))
    as (q' & Eq'). rewrite Eq'.
  destruct (shr_fexp_pos q' e' loc_Exact ltac:(lia)) as (q2 & r2 & s2 & e2 & E2 & _).
  rewrite E2. cbn [shr_m].
  destruct (e2 <=? 1024 - 53); [left; eauto | right; reflexivity].
Qed.

Lemma binary_round_sign (s : bool) (p : positive) :
  (exists m e', binary_round 53 1024 s p 0 = S754_finite s m e')
  \/ binary_round 53 1024 s p 0 = S754_infinity s.
Proof.
  unfold binary_round, shl_align.
  assert (H : -1074 <= fexp 53 1024 (Zpos (digits2_pos p) + 0)).
  { unfold fexp, emin. lia. }
  destruct (fexp 53 1024 (Zpos (digits2_pos p) + 0) - 0) eqn:E;
    apply binary_round_aux_sign; lia.
Qed.

Lemma f64_of_Z_cases (z : Z) :
  match z with
  | Z0 => f64_of_Z z = S754_zero false
  | Zpos _ => (exists m e, f64_of_Z z = S754_finite false m e)
              \/ f64_of_Z z = S754_infinity false
  | Zneg _ => (exists m e, f64_of_Z z = S754_finite true m e)
              \/ f64_of_Z z = S754_infinity true
  end.
Proof.
  destruct z as [|p|p]; unfold f64_of_Z, binary_normalize, prec64, emax64.
  - reflexivity.
  - apply binary_round_sign.
  - apply binary_round_sign.
Qed.

Lemma f64_of_Z_le_0 (z : Z) : f64_le (f64_of_Z z) (f64_of_Z 0) = (z <=? 0).
Proof.
  pose proof (f64_of_Z_cases z) as H. unfold f64_le.
  change (f64_of_Z 0) with (S754_zero false).
  destruct z as [|p|p].
  - rewrite H. reflexivity.
  - destruct H as [(m & e & ->) | ->]; reflexivity.
  - destruct H as [(m & e & ->) | ->]; reflexivity.
Qed.

Lemma f64_of_Z_not_nan (z : Z) : f64_isnan (f64_of_Z z) = false.
Proof.
  pose proof (f64_of_Z_cases z) as H.
  destruct z as [|p|p].
  - rewrite H. reflexivity.
  - destruct H as [(m & e & ->) | ->]; reflexivity.
  - destruct H as [(m & e & ->) | ->]; reflexivity.
Qed.

Lemma f64_gt_0_not_le (f : float64) :
  f64_gt f (f64_of_Z 0) = true -> f64_le f (f64_of_Z 0) = false.
Proof.
  unfold f64_gt, f64_le. change (f64_of_Z 0) with (S754_zero false).
  destruct f as [s|[|]| |[|] m e]; cbn; congruence.
Qed.

(** ** float64: comparisons *)

Lemma SFcompare_antisym (a b : float64) :
  SFcompare b a = option_map CompOpp (SFcompare a b).
Proof.
  destruct a as [sa|sa| |sa ma ea], b as [sb|sb| |sb mb eb]; cbn;
    try reflexivity;
    try (destruct sa; reflexivity); try (destruct sb; reflexivity);
    try (destruct sa, sb; reflexivity).
  destruct sa, sb; try reflexivity; f_equal;
    rewrite (Z.compare_antisym ea eb);
    destruct (ea ?= eb)%Z; cbn; try reflexivity;
    rewrite (Pos.compare_cont_antisym ma mb Eq); cbn;
    destruct (Pos.compare_cont Eq ma mb); reflexivity.
Qed.

Lemma f64_lt_le (a b : float64) : f64_lt a b = true -> f64_le a b = true.
Proof.
  unfold f64_lt, f64_le, SFltb, SFleb.
  destruct (SFcompare a b) as [[| |]|]; congruence.
Qed.

Lemma f64_lt_not_ge (a b : float64) : f64_lt a b = true -> f64_le b a = false.
Proof.
  unfold f64_lt, f64_le, SFltb, SFleb. rewrite (SFcompare_antisym a b).
  destruct (SFcompare a b) as [[| |]|]; cbn; congruence.
Qed.

Lemma f64_lt_not_nan (a b : float64) :
  f64_lt a b = true -> f64_isnan a = false /\ f64_isnan b = false.
Proof.
  unfold f64_lt, SFltb.
  destruct a as [sa|sa| |sa ma ea], b as [sb|sb| |sb mb eb]; cbn;
    try discriminate; auto.
Qed.

(** ** Arrays *)

Lemma column_nth {A} (rows : list (list A)) (i j : nat) (r : list A) (v : A) :
  Forall (fun r => (j < length r)%nat) rows ->
  nth_error rows i = Some r ->
  nth_error r j = Some v ->
  nth_error (column rows j) i = Some v.
Proof.
  unfold column. revert i. induction rows as [|r0 rows IH]; intros i Hall Hi Hj.
  - destruct i; discriminate.
  - inversion Hall as [|? ? Hr0 Hrest]; subst.
    simpl. destruct (nth_error r0 j) as [x|] eqn:E.
    + destruct i as [|i]; simpl in *.
      * injection Hi as ->. congruence.
      * apply IH; assumption.
    + apply nth_error_None in E. lia.
Qed.

Lemma get2_lt {A} (a : ndarray2 A) (i j : nat) (v : A) :
  wf_ndarray2 a -> get2 a i j = Some v ->
  (i < shape0 a)%nat /\ (j < shape1 a)%nat.
Proof.
  intros [Hlen Hall] H. unfold get2 in H.
  destruct (nth_error (data a) i) as [r|] eqn:Er; [|discriminate].
  split.
  - rewrite <- Hlen. apply nth_error_Some. congruence.
  - rewrite List.Forall_forall in Hall.
    rewrite <- (Hall r) by (eapply nth_error_In; eassumption).
    apply nth_error_Some. congruence.
Qed.

Lemma get2_transpose {A} (a : ndarray2 A) (i j : nat) (v : A) :
  wf_ndarray2 a -> get2 a i j = Some v -> get2 (transpose a) j i = Some v.
Proof.
  intros Hwf H. destruct (get2_lt a i j v Hwf H) as [Hi Hj].
  destruct Hwf as [Hlen Hall]. unfold get2 in *. simpl.
  destruct (nth_error (data a) i) as [r|] eqn:Er; [|discriminate].
  rewrite nth_error_map, nth_error_seq.
  destruct (Nat.ltb_spec j (shape1 a)) as [_|]; [|lia]. simpl.
  eapply column_nth; eauto.
  eapply List.Forall_impl; [|exact Hall]. simpl. intros r0 ->. exact Hj.
Qed.

Lemma get2_map2d {A B} (f : A -> B) (a : ndarray2 A) (i j : nat) :
  get2 (map2d f a) i j = option_map f (get2 a i j).
Proof.
  unfold get2, map2d. simpl. rewrite nth_error_map.
  destruct (nth_error (data a) i) as [r|]; simpl; [|reflexivity].
  apply nth_error_map.
Qed.

Lemma wf_map2d {A B} (f : A -> B) (a : ndarray2 A) :
  wf_ndarray2 a -> wf_ndarray2 (map2d f a).
Proof.
  intros [Hlen Hall]. split; simpl.
  - rewrite length_map. exact Hlen.
  - apply List.Forall_map. eapply List.Forall_impl; [|exact Hall].
    simpl. intros r Hr. rewrite length_map. exact Hr.
Qed.

(** ** read_dem *)

Lemma read_dem_file (w : World) (f area : string) :
  read_dem io_globals w (Some f) area =
  ([EvOpenRaster f],
   match open_raster w f with
   | Ok r => Ok (dem_of_raster r)
   | Raise e => Raise e
   end).
Proof.
  unfold read_dem, wrl_io_open_raster, dem_of_raster.
  destruct (open_raster w f); reflexivity.
Qed.

Lemma read_dem_preset (w : World) (area : string) :
  read_dem io_globals w None area =
  if str_in area "pyeongchang" then read_dem io_globals w (Some pyeongchang_tif) area
  else if str_in area "korea" then read_dem io_globals w (Some korea_tif) area
  else ([EvPrint invalid_area_message], Raise (UnboundLocalError "ds")).
Proof.
  unfold read_dem.
  destruct (str_in area "pyeongchang"); [reflexivity|].
  destruct (str_in area "korea"); reflexivity.
Qed.

Lemma read_dem_returns_inv (w : World) (file : option string) (area : string)
    (res : dem_result) :
  outcome (read_dem io_globals w file area) = Ok res ->
  exists path r,
    open_raster w path = Ok r /\ res = dem_of_raster r /\
    trace (read_dem io_globals w file area) = [EvOpenRaster path].
Proof.
  assert (Hfile : forall f, outcome (read_dem io_globals w (Some f) area) = Ok res ->
    exists path r, open_raster w path = Ok r /\ res = dem_of_raster r /\
      trace (read_dem io_globals w (Some f) area) = [EvOpenRaster path]).
  { intros f. rewrite read_dem_file. simpl.
    destruct (open_raster w f) as [r|e] eqn:E; [|discriminate].
    intros [= <-]. exists f, r. auto. }
  destruct file as [f|]; [apply Hfile|].
  rewrite read_dem_preset.
  destruct (str_in area "pyeongchang"); [apply Hfile|].
  destruct (str_in area "korea"); [apply Hfile|].
  discriminate.
Qed.

Lemma dem_of_raster_pixel (r : raster) (i j : nat) (v : px) :
  wf_pixels (raster_pixels r) ->
  px_get (raster_pixels r) i j = Some v ->
  get2 (fst (fst (fst (dem_of_raster r)))) j i =
    Some (if f64_le (px_float v) (f64_of_Z 0) then f64_nan else px_float v).
Proof.
  intros Hwf Hget. unfold dem_of_raster. cbn [fst].
  apply get2_transpose.
  - unfold mask_nonpositive. apply wf_map2d.
    destruct (raster_pixels r) as [a|a]; simpl in *; [apply wf_map2d|]; exact Hwf.
  - unfold mask_nonpositive. rewrite get2_map2d.
    destruct (raster_pixels r) as [a|a]; simpl in *.
    + rewrite get2_map2d. destruct (get2 a i j) as [z|]; [|discriminate].
      injection Hget as <-. reflexivity.
    + destruct (get2 a i j) as [f|]; [|discriminate].
      injection Hget as <-. reflexivity.
Qed.

(** C7. Whenever [read_dem] returns, it opened exactly one raster, and for
    every pixel of that raster, at row i and column j of the extracted
    array: if the raw elevation is <= 0 the returned grid holds NaN at
    (j, i); if it is > 0 the returned grid holds that same elevation at
    (j, i). The returned grid has the transposed shape. *)
Theorem read_dem_masks_and_transposes (w : World) (file : option string)
    (area : string) (dem : ndarray2 float64) (lon lat : list (list float64))
    (proj : string) :
  outcome (read_dem io_globals w file area) = Ok (dem, lon, lat, proj) ->
  exists path r,
    open_raster w path = Ok r /\
    (shape0 dem, shape1 dem) = (snd (pixels_shape (raster_pixels r)),
                                fst (pixels_shape (raster_pixels r))) /\
    (wf_pixels (raster_pixels r) ->
     forall i j v, px_get (raster_pixels r) i j = Some v ->
       (px_nonpositive v -> get2 dem j i = Some f64_nan) /\
       (px_positive v -> get2 dem j i = Some (px_float v))).
Proof.
  intros H. destruct (read_dem_returns_inv _ _ _ _ H) as (path & r & Hopen & Hres & _).
  exists path, r. split; [exact Hopen|]. split.
  - injection Hres as -> _ _ _. destruct (raster_pixels r); reflexivity.
  - intros Hwf i j v Hget.
    pose proof (dem_of_raster_pixel r i j v Hwf Hget) as Hpx.
    rewrite <- Hres in Hpx. cbn [fst] in Hpx. rewrite Hpx.
    split; intros Hv.
    + destruct v as [z|f]; cbn [px_nonpositive px_float] in *.
      * rewrite f64_of_Z_le_0. destruct (Z.leb_spec z 0); [reflexivity|lia].
      * rewrite Hv. reflexivity.
    + destruct v as [z|f]; cbn [px_positive px_float] in *.
      * rewrite f64_of_Z_le_0. destruct (Z.leb_spec z 0); [lia|reflexivity].
      * rewrite (f64_gt_0_not_le f Hv). reflexivity.
Qed.

(** C8. With [file=None] and an area that is a substring of neither preset
    name, [read_dem] prints the diagnostic and then fails on the unbound
    local [ds]: it opens no raster and returns no four-tuple. *)
Theorem read_dem_unknown_area_fails (w : World) (area : string) :
  ~ substring_of area "pyeongchang" ->
  ~ substring_of area "korea" ->
  read_dem io_globals w None area =
    ([EvPrint invalid_area_message], Raise (UnboundLocalError "ds")).
Proof.
  intros H1 H2. rewrite read_dem_preset.
  apply str_in_false in H1. apply str_in_false in H2.
  rewrite H1, H2. reflexivity.
Qed.

(** C10. The preset is chosen by substring membership: every area that is a
    contiguous substring of 'pyeongchang' (the empty string included) opens
    the pyeongchang raster; every area that is a substring of 'korea' but
    not of 'pyeongchang' opens the korea raster; the invalid-area branch,
    with its diagnostic, is reached exactly by the strings that are
    substrings of neither. *)
Theorem read_dem_preset_by_substring (w : World) (area : string) :
  (substring_of area "pyeongchang" ->
     read_dem io_globals w None area
       = read_dem io_globals w (Some pyeongchang_tif) area /\
     trace (read_dem io_globals w None area) = [EvOpenRaster pyeongchang_tif]) /\
  (substring_of area "korea" -> ~ substring_of area "pyeongchang" ->
     read_dem io_globals w None area
       = read_dem io_globals w (Some korea_tif) area /\
     trace (read_dem io_globals w None area) = [EvOpenRaster korea_tif]) /\
  (In (EvPrint invalid_area_message) (trace (read_dem io_globals w None area))
     <-> ~ substring_of area "pyeongchang" /\ ~ substring_of area "korea").
Proof.
  rewrite read_dem_preset, <- !str_in_false, <- !str_in_spec.
  rewrite !read_dem_file.
  destruct (str_in area "pyeongchang"); destruct (str_in area "korea"); simpl;
    repeat split; try discriminate; try tauto; try congruence;
    intros; intuition (try discriminate; try congruence).
Qed.

(** ** Column arithmetic on data frames *)

Lemma map_result_Ok {A B} (f : A -> result B) (l : list A) (ys : list B) :
  map_result f l = Ok ys -> Forall2 (fun x y => f x = Ok y) l ys.
Proof.
  revert ys. induction l as [|x l IH]; intros ys H; simpl in H.
  - injection H as <-. constructor.
  - destruct (f x) as [y|] eqn:Ey; [|discriminate].
    destruct (map_result f l) as [ys'|]; [|discriminate].
    injection H as <-. constructor; auto.
Qed.

Lemma update_nth_Ok {A} (i : nat) (f : A -> result A) (l l' : list A) :
  update_nth i f l = Ok l' ->
  length l' = length l /\
  forall j c, nth_error l j = Some c ->
    exists c', nth_error l' j = Some c' /\
      (if Nat.eqb j i then f c = Ok c' else c' = c).
Proof.
  unfold update_nth. destruct (nth_error l i) as [x|] eqn:Ex.
  - destruct (f x) as [y|] eqn:Ey; [|discriminate]. intros [= <-].
    assert (Hi : (i < length l)%nat) by (apply nth_error_Some; congruence).
    split.
    + rewrite length_app, length_firstn. simpl. rewrite length_skipn. lia.
    + intros j c Hj. destruct (Nat.eqb_spec j i) as [->|Hne].
      * exists y. split; [|congruence].
        rewrite nth_error_app2 by (rewrite length_firstn; lia).
        rewrite length_firstn. replace (i - Nat.min i (length l))%nat with 0%nat by lia.
        reflexivity.
      * exists c. split; [|reflexivity].
        destruct (Nat.lt_ge_cases j i) as [Hlt|Hge].
        -- rewrite nth_error_app1 by (rewrite length_firstn; lia).
           rewrite nth_error_firstn.
           destruct (Nat.ltb_spec j i); [exact Hj|lia].
        -- rewrite nth_error_app2 by (rewrite length_firstn; lia).
           rewrite length_firstn.
           replace (j - Nat.min i (length l))%nat with (S (j - S i)) by lia.
           simpl. rewrite nth_error_skipn.
           replace (S i + (j - S i))%nat with j by lia. exact Hj.
  - intros [= <-]. split; [reflexivity|].
    intros j c Hj. exists c. split; [exact Hj|].
    destruct (Nat.eqb_spec j i) as [->|]; [congruence|reflexivity].
Qed.

Lemma index_of_Some (name : string) (names : list string) (i : nat) :
  index_of name names = Some i -> nth_error names i = Some name.
Proof.
  revert i. induction names as [|n names IH]; intros i H; simpl in H.
  - discriminate.
  - destruct (String.eqb_spec n name) as [->|Hne].
    + injection H as <-. reflexivity.
    + destruct (index_of name names) as [k|]; [|discriminate].
      injection H as <-. simpl. apply IH. reflexivity.
Qed.

Lemma NoDup_nth_error_eq {A} (l : list A) (i j : nat) (x : A) :
  List.NoDup l -> nth_error l i = Some x -> nth_error l j = Some x -> i = j.
Proof.
  intros Hnd Hi Hj. rewrite List.NoDup_nth_error in Hnd. apply Hnd.
  - apply nth_error_Some. congruence.
  - congruence.
Qed.

Lemma divide_column_Ok (name : string) (d : float64) (df df' : DataFrame) :
  List.NoDup (columns df) ->
  divide_column name d df = Ok df' ->
  columns df' = columns df /\
  Forall2 (row_divided (columns df) (String.eqb name) d) (values df) (values df').
Proof.
  intros Hnd. unfold divide_column.
  destruct (index_of name (columns df)) as [i|] eqn:Ei; [|discriminate].
  destruct (map_result _ (values df)) as [rows|] eqn:Er; [|discriminate].
  intros [= <-]. simpl. split; [reflexivity|].
  apply map_result_Ok in Er. eapply Forall2_impl; [exact Er|].
  intros row row' Hrow. apply update_nth_Ok in Hrow as [Hlen Hcells].
  split; [exact Hlen|]. intros j n c Hn Hc.
  destruct (Hcells j c Hc) as (c' & Hc' & Hrel). exists c'. split; [exact Hc'|].
  apply index_of_Some in Ei.
  destruct (Nat.eqb_spec j i) as [->|Hne].
  - assert (n = name) by congruence. subst n. rewrite String.eqb_refl. exact Hrel.
  - destruct (String.eqb_spec name n) as [->|]; [|exact Hrel].
    exfalso. apply Hne. eapply NoDup_nth_error_eq; eauto.
Qed.

Lemma divide_columns_Raise (fields : list string) (d : float64) (e : exn) :
  fold_left
    (fun acc name =>
       match acc with
       | Ok data => divide_column name d data
       | Raise e => Raise e
       end) fields (Raise e) = Raise e.
Proof. induction fields as [|f fields IH]; simpl; auto. Qed.

Lemma divide_columns_Ok (fields : list string) (d : float64) :
  List.NoDup fields ->
  forall df df',
    List.NoDup (columns df) ->
    divide_columns fields d df = Ok df' ->
    columns df' = columns df /\
    Forall2 (row_divided (columns df) (fun n => existsb (String.eqb n) fields) d)
      (values df) (values df').
Proof.
  unfold divide_columns.
  induction 1 as [|s rest Hs Hrest IH]; intros df df' Hnd H; simpl in H.
  - injection H as <-. split; [reflexivity|].
    induction (values df) as [|row rows IHr]; constructor; auto.
    split; [reflexivity|]. intros j n c _ Hc. exists c.
    split; [exact Hc|reflexivity].
  - destruct (divide_column s d df) as [df1|e] eqn:E1;
      [|rewrite divide_columns_Raise in H; discriminate].
    destruct (divide_column_Ok _ _ _ _ Hnd E1) as [Hc1 H1].
    assert (Hnd1 : List.NoDup (columns df1)) by (rewrite Hc1; exact Hnd).
    destruct (IH df1 df' Hnd1 H) as [Hc2 H2].
    split; [congruence|]. rewrite Hc1 in H2.
    clear - H1 H2 Hs. revert H2. generalize (values df').
    induction H1 as [|row row1 rows rows1 Hr _ IHrows]; intros rows' H2;
      inversion H2 as [|? row' ? rows2 Hr' Hrest']; subst; constructor; auto.
    destruct Hr as [Hl1 Hcell1]. destruct Hr' as [Hl2 Hcell2].
    split; [congruence|]. intros j n c Hn Hc.
    destruct (Hcell1 j n c Hn Hc) as (c1 & Hc1 & Hrel1).
    destruct (Hcell2 j n c1 Hn Hc1) as (c2 & Hc2 & Hrel2).
    exists c2. split; [exact Hc2|]. simpl.
    destruct (String.eqb_spec s n) as [->|Hne].
    + rewrite String.eqb_refl. simpl.
      assert (Hnot : existsb (String.eqb n) rest = false).
      { apply not_true_is_false. intros Hex. apply existsb_exists in Hex as (x & Hin & Hx).
        apply String.eqb_eq in Hx. subst x. contradiction. }
      rewrite Hnot in Hrel2. subst c2. exact Hrel1.
    + destruct (String.eqb_spec n s) as [->|_]; [congruence|]. simpl.
      subst c1. exact Hrel2.
Qed.

(** ** read_aws *)

Lemma read_aws_file_eq (g : namespace) (w : World) (file : string) :
  read_aws_file g w file =
  (pd_read_csv_hash g w file ≫= fun data => lift (aws_row_of data)).
Proof.
  unfold read_aws_file. apply bind_ext. intros data.
  unfold aws_row_of, divide_columns, aws_scaled_fields. cbn [fold_left].
  repeat (rewrite lift_bind;
          match goal with
          | |- context [divide_column ?n ?d ?x] =>
              destruct (divide_column n d x); [|reflexivity]
          end).
  rewrite lift_bind. destruct (rows_where_eq "stn" 100 _); [|reflexivity].
  destruct (values_tolist _ _); reflexivity.
Qed.

Lemma pd_read_csv_hash_Ok (g : namespace) (w : World) (file : string)
    (data : DataFrame) :
  outcome (pd_read_csv_hash g w file) = Ok data ->
  exists names rows,
    g !! "names" = Some (PyList names) /\ List.NoDup names /\
    read_csv_hash w file names = Ok rows /\
    data = mk_DataFrame names rows /\
    trace (pd_read_csv_hash g w file) = [EvReadCsv file].
Proof.
  unfold pd_read_csv_hash. intros H.
  pose proof H as H0. bind_inv H0.
  apply module_attr_Ok in Hbind as [_ Hpd]. rewrite Hpd, (bind_ret_l tt) in H |- *.
  clear H0. pose proof H as H0. bind_inv H0.
  apply load_global_Ok in Hbind as [Hnames Hload].
  rewrite Hload, (bind_ret_l a0) in H |- *. clear H0.
  destruct a0 as [| | | |names|]; try discriminate.
  destruct (bool_decide (NoDup names)) eqn:Hnd; [|discriminate].
  apply bool_decide_eq_true in Hnd.
  destruct (read_csv_hash w file names) as [rows|e] eqn:Hrows; [|discriminate].
  injection H as <-. exists names, rows.
  repeat split; auto. now apply NoDup_ListNoDup.
Qed.

Lemma py_slice_silent (v : pyval) (a b : option Z) : trace (py_slice v a b) = [].
Proof. destruct v; reflexivity. Qed.

Lemma py_add_silent (a b : pyval) : trace (py_add a b) = [].
Proof. destruct a, b; reflexivity. Qed.

Lemma aws_pattern_silent (g : namespace) : trace (aws_pattern g) = [].
Proof.
  unfold aws_pattern.
  repeat (apply bind_silent;
          [first [apply load_global_silent | apply py_slice_silent
                 | apply py_add_silent]|intros ?]).
  destruct a11; reflexivity.
Qed.

Lemma Forall2_In_r {A B} (R : A -> B -> Prop) (l : list A) (l' : list B) (y : B) :
  Forall2 R l l' -> In y l' -> exists x, In x l /\ R x y.
Proof.
  induction 1 as [|a b l l' Hab _ IH]; intros Hin; simpl in *; [tauto|].
  destruct Hin as [->|Hin].
  - exists a. auto.
  - destruct (IH Hin) as (x & Hx & HR). exists x. auto.
Qed.

Lemma upcast_idem (c : cell) : upcast (upcast c) = upcast c.
Proof. destruct c; reflexivity. Qed.

Lemma cell_div_float (c c' : cell) (d : float64) :
  cell_div c d = Ok c' -> upcast c' = c'.
Proof. destruct c; simpl; intros [= <-]; reflexivity. Qed.

Lemma cell_eq_int_upcast (c : cell) :
  cell_eq_int c 100 = true -> cell_eq_int (upcast c) 100 = true.
Proof.
  destruct c as [z|f|s]; simpl; auto.
  intros H. apply Z.eqb_eq in H. subst z. reflexivity.
Qed.

Lemma nth_error_map_upcast (row : list cell) (j : nat) :
  nth_error (map upcast row) j = option_map upcast (nth_error row j).
Proof. apply nth_error_map. Qed.

Lemma aws_cell_rel_upcast (n : string) (c c' : cell) :
  aws_cell_rel n c c' -> aws_cell_rel n c (upcast c').
Proof.
  unfold aws_cell_rel. destruct (is_scaled n).
  - intros H. rewrite (cell_div_float _ _ _ H). exact H.
  - intros [->| ->]; [right; reflexivity|right; apply upcast_idem].
Qed.

Lemma aws_scaled_fields_NoDup : List.NoDup aws_scaled_fields.
Proof.
  apply NoDup_ListNoDup. apply (proj1 (bool_decide_eq_true _)). reflexivity.
Qed.

Lemma aws_row_spec_upcast (names : list string) (raw out : list cell) :
  aws_row_spec names raw out -> aws_row_spec names raw (map upcast out).
Proof.
  intros (Hlen & Hcells & i & c & Hi & Hc & Hstn). split; [|split].
  - rewrite length_map. exact Hlen.
  - intros j n c0 Hn Hc0. destruct (Hcells j n c0 Hn Hc0) as (c' & Hc' & Hrel).
    exists (upcast c'). rewrite nth_error_map_upcast, Hc'. split; [reflexivity|].
    apply aws_cell_rel_upcast. exact Hrel.
  - exists i, (upcast c). rewrite nth_error_map_upcast, Hc.
    repeat split; auto. apply cell_eq_int_upcast. exact Hstn.
Qed.

Lemma aws_row_of_Ok (names : list string) (rows : list (list cell))
    (row : list cell) :
  List.NoDup names ->
  aws_row_of (mk_DataFrame names rows) = Ok row ->
  exists raw, In raw rows /\ aws_row_spec names raw row.
Proof.
  intros Hnd. unfold aws_row_of.
  destruct (divide_columns _ _ _) as [data|] eqn:Ediv; [|discriminate].
  apply divide_columns_Ok in Ediv as [Hcols Hrows]; cbn [columns values] in *; auto.
  2:{ apply aws_scaled_fields_NoDup. }
  unfold rows_where_eq. rewrite Hcols.
  destruct (index_of "stn" names) as [i|] eqn:Ei; [|discriminate].
  set (keep := fun row : list cell =>
                 match nth_error row i with
                 | Some c => cell_eq_int c 100
                 | None => false
                 end).
  assert (Hsel : forall r, In r (List.filter keep (values data)) ->
                 exists raw, In raw rows /\ aws_row_spec names raw r).
  { intros r Hr. apply filter_In in Hr as [Hin Hkeep].
    destruct (Forall2_In_r _ _ _ _ Hrows Hin) as (raw & Hraw & Hlen & Hcells).
    exists raw. split; [exact Hraw|]. split; [exact Hlen|]. split.
    - intros j n c Hn Hc. destruct (Hcells j n c Hn Hc) as (c' & Hc' & Hrel).
      exists c'. split; [exact Hc'|]. unfold aws_cell_rel, is_scaled.
      destruct (existsb (String.eqb n) aws_scaled_fields); auto.
    - unfold keep in Hkeep. destruct (nth_error r i) as [c|] eqn:Ec; [|discriminate].
      exists i, c. auto. }
  unfold values_tolist. cbn [values].
  destruct (existsb (existsb is_str) (values data)).
  - destruct (List.filter keep (values data)) as [|r rest] eqn:Ef; [discriminate|].
    intros [= <-]. apply Hsel. left. reflexivity.
  - destruct (List.filter keep (values data)) as [|r rest] eqn:Ef; [discriminate|].
    simpl. intros [= <-]. destruct (Hsel r (or_introl eq_refl)) as (raw & Hraw & Hspec).
    exists raw. split; [exact Hraw|]. apply aws_row_spec_upcast. exact Hspec.
Qed.

Lemma nth_error_indexed {A B} (f : nat -> A -> B) (l : list A) (s j : nat) :
  nth_error (map (fun '(i, c) => f i c) (combine (seq s (length l)) l)) j
  = option_map (f (s + j)%nat) (nth_error l j).
Proof.
  revert s j. induction l as [|x l IH]; intros s j; simpl.
  - destruct j; reflexivity.
  - destruct j as [|j]; simpl.
    + rewrite Nat.add_0_r. reflexivity.
    + rewrite IH. replace (S s + j)%nat with (s + S j)%nat by lia. reflexivity.
Qed.

Lemma infer_row_length (rows : list (list cell)) (row : list cell) :
  length (infer_row rows row) = length row.
Proof.
  unfold infer_row. rewrite length_map, length_combine, length_seq. lia.
Qed.

Lemma infer_row_nth (rows : list (list cell)) (row : list cell) (j : nat) (c : cell) :
  nth_error row j = Some c ->
  exists c', nth_error (infer_row rows row) j = Some c' /\
             (c' = c \/ c' = upcast c).
Proof.
  intros Hc. unfold infer_row.
  rewrite (nth_error_indexed
             (fun i c => if float_column rows i then upcast c else c) row 0 j).
  rewrite Hc. simpl. destruct (float_column rows j); eauto.
Qed.

Lemma aws_row_spec_infer (names : list string) (rows : list (list cell))
    (raw out : list cell) :
  aws_row_spec names raw out -> aws_row_spec names raw (infer_row rows out).
Proof.
  intros (Hlen & Hcells & i & c & Hi & Hc & Hstn). split; [|split].
  - rewrite infer_row_length. exact Hlen.
  - intros j n c0 Hn Hc0. destruct (Hcells j n c0 Hn Hc0) as (c' & Hc' & Hrel).
    destruct (infer_row_nth rows out j c' Hc') as (c'' & Hc'' & [->| ->]).
    + exists c'. auto.
    + exists (upcast c'). split; [exact Hc''|]. apply aws_cell_rel_upcast. exact Hrel.
  - destruct (infer_row_nth rows out i c Hc) as (c'' & Hc'' & [->| ->]).
    + exists i, c. auto.
    + exists i, (upcast c). repeat split; auto. apply cell_eq_int_upcast. exact Hstn.
Qed.

Lemma read_aws_file_Ok (g : namespace) (w : World) (file : string)
    (row : list cell) :
  outcome (read_aws_file g w file) = Ok row ->
  exists names rows raw,
    g !! "names" = Some (PyList names) /\
    read_csv_hash w file names = Ok rows /\
    In raw rows /\ aws_row_spec names raw row /\
    trace (read_aws_file g w file) = [EvReadCsv file].
Proof.
  rewrite read_aws_file_eq. intros H. pose proof H as H0. bind_inv H0.
  destruct (pd_read_csv_hash_Ok _ _ _ _ Hbind)
    as (names & rows & Hnames & Hnd & Hrows & -> & Htr).
  simpl in H0. destruct (aws_row_of_Ok names rows row Hnd H0) as (raw & Hraw & Hspec).
  exists names, rows, raw. repeat split; try apply Hspec; auto.
  rewrite (bind_trace_Ok _ _ _ Hbind), Htr. reflexivity.
Qed.

Lemma glob_run (w : World) (pattern : string) (recursive : bool) :
  glob w pattern recursive = ([EvGlob pattern], Ok (glob_glob w pattern recursive)).
Proof. reflexivity. Qed.

(** A successful run of [read_aws]: the frame is built from one row per
    file of the sorted listing, and the only events are the listing and
    one read per file, in that order. *)
Lemma read_aws_Ok (g : namespace) (w : World) (time : time_arg)
    (datadir : string) (date_range : bool) (df : DataFrame) :
  outcome (read_aws g w time datadir date_range) = Ok df ->
  exists names pattern rows,
    g !! "names" = Some (PyList names) /\
    outcome (aws_pattern g) = Ok pattern /\
    Forall2 (fun file row => outcome (read_aws_file g w file) = Ok row)
      (np_sort (glob_glob w pattern false)) rows /\
    pd_DataFrame rows names = Ok df /\
    trace (read_aws g w time datadir date_range) =
      EvGlob pattern :: map EvReadCsv (np_sort (glob_glob w pattern false)).
Proof.
  unfold read_aws. intros H.
  apply trace_module_attr_bind in H as Hstep. destruct Hstep as [_ ->].
  rewrite (proj2 (trace_module_attr_bind _ _ _ _ _ _ H)) in H.
  apply trace_module_attr_bind in H as Hstep. destruct Hstep as [_ ->].
  rewrite (proj2 (trace_module_attr_bind _ _ _ _ _ _ H)) in H.
  pose proof H as H0. bind_inv H0. rename a into pattern. rename Hbind into Hpat.
  rewrite (bind_trace_Ok _ _ _ Hpat), aws_pattern_silent.
  rewrite (bind_outcome_step _ _ _ Hpat) in H. clear H0.
  rewrite glob_run in *. rewrite (bind_unfold (_, Ok _)) in *. cbn [fst snd] in *.
  unfold trace, outcome in *. cbn [fst snd] in *.
  set (files := np_sort (glob_glob w pattern false)) in *.
  pose proof H as H0. change (snd ?c) with (outcome c) in H0. bind_inv H0.
  rename a into rows. rename Hbind into Hloop.
  change (fst ?c) with (trace c). change (snd ?c) with (outcome c) in H.
  rewrite (bind_trace_Ok _ _ _ Hloop).
  rewrite (bind_outcome_step _ _ _ Hloop) in H. clear H0.
  apply trace_module_attr_bind in H as Hstep. destruct Hstep as [_ ->].
  rewrite (proj2 (trace_module_attr_bind _ _ _ _ _ _ H)) in H.
  pose proof H as H0. bind_inv H0. apply load_global_Ok in Hbind as [Hnames Hload].
  rewrite Hload, (bind_ret_l a) in H |- *. clear H0.
  destruct a as [| | | |names|]; try discriminate.
  exists names, pattern, rows. split; [exact Hnames|]. split; [exact Hpat|].
  split; [apply for_each_Ok; exact Hloop|]. split; [exact H|].
  rewrite lift_silent, app_nil_r. cbn [app]. f_equal.
  rewrite (for_each_trace _ _ _ Hloop). fold files.
  apply for_each_Ok in Hloop. clear - Hloop.
  induction Hloop as [|file row files rows Hrow _ IH]; simpl; [reflexivity|].
  apply read_aws_file_Ok in Hrow as (? & ? & ? & _ & _ & _ & _ & ->).
  simpl. f_equal. exact IH.
Qed.

Lemma pd_DataFrame_Ok (rows : list (list cell)) (names : list string)
    (df : DataFrame) :
  pd_DataFrame rows names = Ok df ->
  columns df = names /\ values df = map (infer_row rows) rows /\
  Forall (fun r => length r = length names) rows.
Proof.
  unfold pd_DataFrame.
  destruct (forallb _ rows) eqn:E; [|discriminate]. intros [= <-].
  repeat split. apply List.Forall_forall. intros r Hr.
  rewrite forallb_forall in E. apply Nat.eqb_eq. apply E. exact Hr.
Qed.

Lemma read_aws_rows (g : namespace) (w : World) (time : time_arg)
    (datadir : string) (date_range : bool) (df : DataFrame) :
  outcome (read_aws g w time datadir date_range) = Ok df ->
  exists names pattern,
    g !! "names" = Some (PyList names) /\
    outcome (aws_pattern g) = Ok pattern /\
    columns df = names /\
    Forall2
      (fun file out =>
         exists rows raw,
           read_csv_hash w file names = Ok rows /\ In raw rows /\
           length out = length names /\ aws_row_spec names raw out)
      (np_sort (glob_glob w pattern false)) (values df) /\
    trace (read_aws g w time datadir date_range) =
      EvGlob pattern :: map EvReadCsv (np_sort (glob_glob w pattern false)).
Proof.
  intros H. apply read_aws_Ok in H as (names & pattern & rows & Hn & Hp & Hl & Hdf & Htr).
  exists names, pattern. split; [exact Hn|]. split; [exact Hp|].
  apply pd_DataFrame_Ok in Hdf as (Hc & Hv & Hw). split; [exact Hc|].
  split; [|exact Htr]. rewrite Hv.
  generalize rows at 1 as all. intros all. clear Hv Htr.
  induction Hl as [|file row files rows' Hrow _ IH]; simpl; constructor.
  - apply read_aws_file_Ok in Hrow as (names' & frows & raw & Hn' & Hr & Hin & Hspec & _).
    assert (names' = names) by congruence. subst names'.
    exists frows, raw. split; [exact Hr|]. split; [exact Hin|].
    inversion Hw as [|? ? Hlen _]; subst. split.
    + rewrite infer_row_length. exact Hlen.
    + apply aws_row_spec_infer. exact Hspec.
  - apply IH. inversion Hw; assumption.
Qed.

(** C4, amended. [read_aws] divides twelve columns by ten, namely
    wd, ws, t, rh, pa, ps, rn60m_acc, rn1d, rn15m, rn60m, wds and wss.
    Whenever it returns a frame, the frame has one row for each file of
    the sorted listing, taken from a row of that file, and in it every
    cell under one of the twelve columns is the float64 quotient of the
    parsed cell by 10.0, while every other cell is the parsed cell itself
    (an integer possibly converted to float64 together with its column). *)
Theorem read_aws_rescales_twelve_fields (g : namespace) (w : World)
    (time : time_arg) (datadir : string) (date_range : bool) (df : DataFrame) :
  outcome (read_aws g w time datadir date_range) = Ok df ->
  length aws_scaled_fields = 12%nat /\ List.NoDup aws_scaled_fields /\
  exists names pattern,
    g !! "names" = Some (PyList names) /\
    outcome (aws_pattern g) = Ok pattern /\
    columns df = names /\
    Forall2
      (fun file out =>
         exists rows raw,
           read_csv_hash w file names = Ok rows /\ In raw rows /\
           length out = length names /\
           forall j n c,
             nth_error names j = Some n -> nth_error raw j = Some c ->
             exists c', nth_error out j = Some c' /\
               if is_scaled n then cell_div c (f64_of_Z 10) = Ok c'
               else c' = c \/ c' = upcast c)
      (np_sort (glob_glob w pattern false)) (values df).
Proof.
  intros H. split; [reflexivity|]. split; [apply aws_scaled_fields_NoDup|].
  apply read_aws_rows in H as (names & pattern & Hn & Hp & Hc & Hrows & _).
  exists names, pattern. repeat (split; [assumption|]).
  eapply Forall2_impl; [exact Hrows|].
  intros file out (rows & raw & Hr & Hin & Hlen & _ & Hcells & _).
  exists rows, raw. repeat (split; [assumption|]). exact Hcells.
Qed.

(** C5. Whenever [read_aws] returns a frame, the files it parsed are
    exactly the files of the sorted listing, and the frame has exactly one
    row for each of them, in that order: the row comes from a row of that
    file, whatever other rows the file has, and its station code equals
    100. *)
Theorem read_aws_one_row_per_file (g : namespace) (w : World)
    (time : time_arg) (datadir : string) (date_range : bool) (df : DataFrame) :
  outcome (read_aws g w time datadir date_range) = Ok df ->
  exists names pattern,
    g !! "names" = Some (PyList names) /\
    outcome (aws_pattern g) = Ok pattern /\
    List.filter is_read_csv (trace (read_aws g w time datadir date_range))
      = map EvReadCsv (np_sort (glob_glob w pattern false)) /\
    Forall2
      (fun file out =>
         exists rows raw i c,
           read_csv_hash w file names = Ok rows /\ In raw rows /\
           aws_row_spec names raw out /\
           index_of "stn" names = Some i /\
           nth_error out i = Some c /\ cell_eq_int c 100 = true)
      (np_sort (glob_glob w pattern false)) (values df).
Proof.
  intros H. apply read_aws_rows in H as (names & pattern & Hn & Hp & Hc & Hrows & Htr).
  exists names, pattern. split; [exact Hn|]. split; [exact Hp|]. split.
  - rewrite Htr. simpl. generalize (np_sort (glob_glob w pattern false)).
    intros l. induction l as [|x l IH]; simpl; congruence.
  - eapply Forall2_impl; [exact Hrows|].
    intros file out (rows & raw & Hr & Hin & _ & Hspec).
    pose proof Hspec as (_ & _ & i & c & Hi & Hc' & H100).
    exists rows, raw, i, c. auto 10.
Qed.

Lemma for_each_all_raise {A B} (f : A -> M B) (e : exn) (l : list A) :
  (forall x, f x = raise e) ->
  for_each f l = match l with [] => ret [] | _ => raise e end.
Proof.
  intros Hf. destruct l as [|x l]; [reflexivity|]. simpl. rewrite Hf. reflexivity.
Qed.

(** C9. As the module stands, every call of [read_aws] ends in a
    NameError for [aws_dir] before any file is listed or read: none of
    [aws_dir], [YYYYMMDD], [names] and [pd] is bound in the module. The
    body does refer to each of them: once the earlier ones are supplied the
    call fails on the next one. The arguments [time], [datadir] and
    [date_range] never have any influence. *)
Theorem read_aws_name_error (w : World) (time : time_arg) (datadir : string)
    (date_range : bool) :
  read_aws io_globals w time datadir date_range = ([], Raise (NameError "aws_dir"))
  /\ Forall (fun n => io_globals !! n = None) ["aws_dir"; "YYYYMMDD"; "names"; "pd"]
  /\ (forall d,
        read_aws (<["aws_dir" := d]> io_globals) w time datadir date_range
        = ([], Raise (NameError "YYYYMMDD")))
  /\ (forall d y,
        outcome (read_aws (<["YYYYMMDD" := PyStr y]>
                             (<["aws_dir" := PyStr d]> io_globals))
                   w time datadir date_range)
        = Raise (NameError "pd"))
  /\ (forall d y,
        outcome (read_aws (<["pd" := PyModule pandas]>
                             (<["YYYYMMDD" := PyStr y]>
                                (<["aws_dir" := PyStr d]> io_globals)))
                   w time datadir date_range)
        = Raise (NameError "names"))
  /\ (forall g time' datadir' date_range',
        read_aws g w time' datadir' date_range'
        = read_aws g w time datadir date_range).
Proof.
  split; [reflexivity|]. split; [repeat constructor|].
  split; [intros d; reflexivity|]. split; [|split].
  - intros d y. unfold read_aws.
    set (g := <["YYYYMMDD" := PyStr y]> (<["aws_dir" := PyStr d]> io_globals)).
    change (module_attr g "np" numpy "sort") with (ret tt : M unit).
    rewrite (bind_ret_l tt).
    change (module_attr g "glob" glob_module "glob") with (ret tt : M unit).
    rewrite (bind_ret_l tt).
    assert (Hpat : exists p, aws_pattern g = ret p) by (eexists; reflexivity).
    destruct Hpat as [p ->]. rewrite (bind_ret_l p), glob_run.
    rewrite bind_unfold. unfold outcome. cbn [fst snd].
    rewrite (for_each_all_raise _ (NameError "pd")) by reflexivity.
    destruct (np_sort _); reflexivity.
  - intros d y. unfold read_aws.
    set (g := <["pd" := PyModule pandas]>
                (<["YYYYMMDD" := PyStr y]> (<["aws_dir" := PyStr d]> io_globals))).
    change (module_attr g "np" numpy "sort") with (ret tt : M unit).
    rewrite (bind_ret_l tt).
    change (module_attr g "glob" glob_module "glob") with (ret tt : M unit).
    rewrite (bind_ret_l tt).
    assert (Hpat : exists p, aws_pattern g = ret p) by (eexists; reflexivity).
    destruct Hpat as [p ->]. rewrite (bind_ret_l p), glob_run.
    rewrite bind_unfold. unfold outcome. cbn [fst snd].
    rewrite (for_each_all_raise _ (NameError "names")) by reflexivity.
    destruct (np_sort _); reflexivity.
  - reflexivity.
Qed.

(** *** The run does return *)

(** With [aws_dir], [YYYYMMDD], [names] and [pd] bound beside the
    module's own names: if every listed file parses and has a row of
    station 100 of the right width, the call returns one row per file. *)
Lemma read_aws_returns (g : namespace) (w : World) (time : time_arg)
    (datadir : string) (date_range : bool)
    (d y : string) (names : list string) (rows : list (list cell)) :
  io_globals ⊆ g ->
  g !! "aws_dir" = Some (PyStr d) ->
  g !! "YYYYMMDD" = Some (PyStr y) ->
  g !! "names" = Some (PyList names) ->
  g !! "pd" = Some (PyModule pandas) ->
  List.NoDup names ->
  let pattern := (((((((d ++ str_slice y None (Some 6)) ++ "/")
                        ++ str_slice y (Some 6) (Some 8)) ++ "/")
                      ++ "AWS_MIN_") ++ y) ++ "*")%string in
  Forall2
    (fun file row =>
       exists parsed, read_csv_hash w file names = Ok parsed /\
                      aws_row_of (mk_DataFrame names parsed) = Ok row /\
                      length row = length names)
    (np_sort (glob_glob w pattern false)) rows ->
  outcome (read_aws g w time datadir date_range)
    = Ok (mk_DataFrame names (map (infer_row rows) rows)).
Proof.
  intros Hg Hdir Hymd Hnames Hpd Hnd pattern Hrows.
  unfold read_aws.
  rewrite (module_attr_bound g "np" numpy)
    by (eapply io_globals_bound; [eassumption|reflexivity]).
  rewrite (bind_ret_l tt).
  rewrite (module_attr_bound g "glob" glob_module)
    by (eapply io_globals_bound; [eassumption|reflexivity]).
  rewrite (bind_ret_l tt).
  assert (Hpat : aws_pattern g = ret pattern).
  { unfold aws_pattern, load_global. rewrite Hdir, Hymd.
    rewrite (bind_ret_l (PyStr d)), (bind_ret_l (PyStr y)).
    cbn [py_slice]. rewrite (bind_ret_l (PyStr _)). cbn [py_add].
    repeat (rewrite (bind_ret_l (PyStr _)); cbn [py_slice py_add]).
    reflexivity. }
  rewrite Hpat, (bind_ret_l pattern), glob_run, bind_unfold.
  unfold outcome. cbn [fst snd]. change (snd ?c) with (outcome c).
  assert (Hloop : outcome (for_each (read_aws_file g w)
                             (np_sort (glob_glob w pattern false))) = Ok rows).
  { apply for_each_complete. eapply Forall2_impl; [exact Hrows|].
    intros file row (parsed & Hparsed & Hrow & _).
    rewrite read_aws_file_eq. unfold pd_read_csv_hash.
    rewrite (module_attr_bound g "pd" pandas) by exact Hpd.
    rewrite (bind_ret_l tt). unfold load_global. rewrite Hnames.
    rewrite (bind_ret_l (PyList names)).
    rewrite (bool_decide_eq_true_2 (NoDup names)) by (apply NoDup_ListNoDup; exact Hnd).
    unfold emit. rewrite !bind_unfold. cbn [fst snd outcome].
    rewrite Hparsed. cbn [lift fst snd]. exact Hrow. }
  rewrite (bind_outcome_step _ _ rows Hloop).
  rewrite (module_attr_bound g "pd" pandas) by exact Hpd.
  rewrite (bind_ret_l tt). unfold load_global. rewrite Hnames.
  rewrite (bind_ret_l (PyList names)). cbn [outcome lift snd].
  unfold pd_DataFrame.
  assert (Hw : forallb (fun r => Nat.eqb (length r) (length names)) rows = true).
  { apply forallb_forall. intros r Hr.
    destruct (Forall2_In_r _ _ _ _ Hrows Hr) as (file & _ & parsed & _ & _ & Hlen).
    apply Nat.eqb_eq. exact Hlen. }
  rewrite Hw. reflexivity.
Qed.

(** ** read_2dvd_rho *)

(** One step of the inversion of a successful run: the first computation
    succeeded, the run continues with its value, and the trace splits. *)
Ltac step H :=
  let a := fresh "a" in
  let Ha := fresh "Hstep" in
  let H0 := fresh in
  pose proof H as H0;
  apply bind_outcome_Ok in H0 as (a & Ha & _);
  rewrite ?(bind_trace_Ok _ _ a Ha);
  rewrite (bind_outcome_step _ _ a Ha) in H.

Lemma for_each_silent {A B} (f : A -> M B) (l : list A) :
  (forall x, trace (f x) = []) -> trace (for_each f l) = [].
Proof.
  intros Hf. induction l as [|x l IH]; simpl; [reflexivity|].
  apply bind_silent; [apply Hf|]. intros y.
  apply bind_silent; [exact IH|]. reflexivity.
Qed.

Lemma filename_field_silent (g : namespace) (w : World) (x : string) (a b : Z) :
  trace (filename_field g w x a b) = [].
Proof.
  unfold filename_field.
  apply bind_silent; [apply module_attr_silent|]. intros _.
  apply bind_silent; [destruct (numpy_has_int w); reflexivity|]. intros _.
  apply bind_silent; [apply module_attr_silent|]. intros _. reflexivity.
Qed.

Lemma filename_field_Ok (g : namespace) (w : World) (x : string) (a b z : Z) :
  outcome (filename_field g w x a b) = Ok z ->
  py_int (str_slice (basename x) (Some a) (Some b)) = Ok z.
Proof.
  unfold filename_field. intros H.
  step H. step H. step H. exact H.
Qed.

Lemma make_date_Ok (g : namespace) (y m d : Z) (dt : datetime) :
  outcome (module_attr g "datetime" datetime_module "datetime";;
           lift (datetime_date y m d)) = Ok dt ->
  datetime_date y m d = Ok dt.
Proof. intros H. step H. exact H. Qed.

Lemma make_date_silent (g : namespace) (y m d : Z) :
  trace (module_attr g "datetime" datetime_module "datetime";;
         lift (datetime_date y m d)) = [].
Proof. apply bind_silent; [apply module_attr_silent|]. reflexivity. Qed.

Lemma file_dates (g : namespace) (w : World) (files : list string)
    (yyyy mm dd : list Z) (dts : list datetime) :
  Forall2 (fun x y => outcome (filename_field g w x (-27) (-23)) = Ok y) files yyyy ->
  Forall2 (fun x y => outcome (filename_field g w x (-23) (-21)) = Ok y) files mm ->
  Forall2 (fun x y => outcome (filename_field g w x (-21) (-19)) = Ok y) files dd ->
  Forall2
    (fun (ymd : Z * (Z * Z)) dt =>
       outcome ((fun '(yyyy, (mm, dd)) =>
                   module_attr g "datetime" datetime_module "datetime";;
                   lift (datetime_date yyyy mm dd)) ymd) = Ok dt)
    (combine yyyy (combine mm dd)) dts ->
  Forall2 (fun x dt => file_date x = Ok dt) files dts.
Proof.
  intros Hy. revert mm dd dts.
  induction Hy as [|x y files yyyy Hxy _ IH]; intros mm dd dts Hm Hd Hdt.
  - inversion Hm; subst. inversion Hd; subst. inversion Hdt; subst. constructor.
  - inversion Hm as [|? m ? mm' Hxm Hm']; subst.
    inversion Hd as [|? d ? dd' Hxd Hd']; subst.
    simpl in Hdt. inversion Hdt as [|? dt ? dts' Hmk Hdt']; subst.
    constructor; [|eapply IH; eauto].
    unfold file_date.
    rewrite (filename_field_Ok _ _ _ _ _ _ Hxy), (filename_field_Ok _ _ _ _ _ _ Hxm),
      (filename_field_Ok _ _ _ _ _ _ Hxd).
    apply make_date_Ok in Hmk. exact Hmk.
Qed.

Lemma select_dated (dt_start dt_finis : datetime) (files : list string)
    (dts : list datetime) :
  Forall2 (fun x dt => file_date x = Ok dt) files dts ->
  select files (map (in_range dt_start dt_finis) dts)
    = List.filter (dated_in_range dt_start dt_finis) files /\
  Forall2 (fun x dt => file_date x = Ok dt)
    (select files (map (in_range dt_start dt_finis) dts))
    (select dts (map (in_range dt_start dt_finis) dts)).
Proof.
  induction 1 as [|x dt files dts Hx _ [IH1 IH2]]; simpl.
  - split; constructor.
  - unfold dated_in_range at 1. rewrite Hx.
    destruct (in_range dt_start dt_finis dt).
    + split; [f_equal; exact IH1|constructor; assumption].
    + split; assumption.
Qed.

Lemma read_2dvd_file_Ok (g : namespace) (w : World) (size i : nat)
    (file : string) (dt : datetime) (rows : list dvd_row) :
  outcome (read_2dvd_file g w size (i, (file, dt))) = Ok rows ->
  (exists recs, read_csv_2dvd w file = Ok recs /\
                map_result (dvd_derive dt) recs = Ok rows) /\
  List.filter is_read_csv (trace (read_2dvd_file g w size (i, (file, dt))))
    = [EvReadCsv file].
Proof.
  unfold read_2dvd_file. intros H.
  step H. rewrite module_attr_silent.
  step H. step H. step H. rewrite module_attr_silent.
  step H. rewrite module_attr_silent.
  step H. step H.
  split.
  - exists a1. split; [exact Hstep1|]. injection H as <-. exact Hstep4.
  - reflexivity.
Qed.

Lemma read_2dvd_loop_Ok (g : namespace) (w : World) (size : nat)
    (files : list string) (dts : list datetime) :
  Forall2 (fun x dt => file_date x = Ok dt) files dts ->
  forall (s : nat) (dflist : list (list dvd_row)),
    outcome (for_each (read_2dvd_file g w size)
               (combine (seq s (length files)) (combine files dts))) = Ok dflist ->
    Forall2 (file_rows w) files dflist /\
    List.filter is_read_csv
      (trace (for_each (read_2dvd_file g w size)
                (combine (seq s (length files)) (combine files dts))))
      = map EvReadCsv files.
Proof.
  induction 1 as [|x dt files dts Hx _ IH]; intros s dflist H;
    cbn [length seq combine for_each] in *.
  - injection H as <-. split; constructor.
  - step H. step H. injection H as <-.
    destruct (read_2dvd_file_Ok _ _ _ _ _ _ _ Hstep) as [(recs & Hr & Hd) Htr].
    destruct (IH _ _ Hstep0) as [IH1 IH2].
    split.
    + constructor; [|exact IH1]. exists dt, recs. auto.
    + rewrite !List.filter_app, Htr, IH2. cbn. rewrite ?app_nil_r. reflexivity.
Qed.

Lemma Forall2_In_l {A B} (R : A -> B -> Prop) (l : list A) (l' : list B) (x : A) :
  Forall2 R l l' -> In x l -> exists y, In y l' /\ R x y.
Proof.
  induction 1 as [|a b l l' Hab _ IH]; intros Hin; simpl in *; [tauto|].
  destruct Hin as [->|Hin].
  - exists b. auto.
  - destruct (IH Hin) as (y & Hy & HR). exists y. auto.
Qed.

Lemma in_read_events (file : string) (t : list event) (files : list string) :
  List.filter is_read_csv t = map EvReadCsv files ->
  In (EvReadCsv file) t <-> In file files.
Proof.
  intros H. split; intros Hin.
  - assert (Hf : In (EvReadCsv file) (List.filter is_read_csv t))
      by (apply filter_In; auto).
    rewrite H in Hf. apply in_map_iff in Hf as (x & [= ->] & Hx). exact Hx.
  - assert (Hf : In (EvReadCsv file) (List.filter is_read_csv t))
      by (rewrite H; apply in_map; exact Hin).
    apply filter_In in Hf as [Hf _]. exact Hf.
Qed.

(** A successful run with a two-element range and [date_range] true. *)
Lemma read_2dvd_rho_Ok (g : namespace) (w : World) (dt_start dt_finis : datetime)
    (datadir : string) (table : list dvd_row) :
  outcome (read_2dvd_rho g w (TimeSeq [dt_start; dt_finis]) datadir true) = Ok table ->
  exists dts parsed,
    Forall2 (fun x dt => file_date x = Ok dt)
      (np_sort (glob_glob w (dvd_pattern datadir) true)) dts /\
    Forall2 (file_rows w)
      (List.filter (dated_in_range dt_start dt_finis)
         (np_sort (glob_glob w (dvd_pattern datadir) true))) parsed /\
    table = List.concat parsed /\
    List.filter is_read_csv
      (trace (read_2dvd_rho g w (TimeSeq [dt_start; dt_finis]) datadir true))
      = map EvReadCsv
          (List.filter (dated_in_range dt_start dt_finis)
             (np_sort (glob_glob w (dvd_pattern datadir) true))).
Proof.
  unfold read_2dvd_rho. intros H.
  step H. step H. step H. rewrite !module_attr_silent.
  rewrite glob_run in *. step H. injection Hstep2 as <-.
  set (files := np_sort (glob_glob w (dvd_pattern datadir) true)) in *.
  step H. rename a2 into yyyy. apply for_each_Ok in Hstep2 as Hy.
  step H. rename a2 into mm. apply for_each_Ok in Hstep3 as Hm.
  step H. rename a2 into dd. apply for_each_Ok in Hstep4 as Hd.
  step H. step H. rename a3 into dts. apply for_each_Ok in Hstep6 as Hdt.
  pose proof (file_dates _ _ _ _ _ _ _ Hy Hm Hd Hdt) as Hdates.
  rewrite !for_each_silent by (intros; apply filename_field_silent).
  rewrite module_attr_silent.
  rewrite (for_each_silent _ (combine _ _))
    by (intros [y [m d]]; apply make_date_silent).
  change (py_len (TimeSeq [dt_start; dt_finis])) with (ret 2%nat : M nat) in *.
  rewrite (bind_ret_l 2%nat) in *. cbn [Nat.eqb andb] in *.
  change (py_item (TimeSeq [dt_start; dt_finis]) 0) with (ret dt_start : M datetime) in *.
  rewrite (bind_ret_l dt_start) in *.
  change (py_item (TimeSeq [dt_start; dt_finis]) 1) with (ret dt_finis : M datetime) in *.
  rewrite (bind_ret_l dt_finis) in *.
  rewrite (bind_ret_l (_, _)) in *.
  destruct (select_dated dt_start dt_finis files dts Hdates) as [Hsel Hseld].
  step H. rename a3 into dflist.
  destruct (read_2dvd_loop_Ok g w _ _ _ Hseld _ _ Hstep7) as [Hrows Htr].
  step H. rewrite module_attr_silent.
  exists dts, dflist. split; [exact Hdates|]. rewrite <- Hsel.
  split; [exact Hrows|]. split.
  - destruct dflist; [discriminate|]. injection H as <-. reflexivity.
  - rewrite !List.filter_app, Htr. cbn [List.filter is_read_csv app].
    destruct dflist; cbn; rewrite ?app_nil_r; reflexivity.
Qed.

(** C6. With a two-element range [[dt_start, dt_finis]] and [date_range]
    true, whenever [read_2dvd_rho] returns: every discovered file has a
    date d in its name; the file is parsed if and only if
    dt_start <= d < dt_finis; and the returned rows are the rows of the
    files in range, file after file in sorted order. *)
Theorem read_2dvd_rho_keeps_files_in_range (g : namespace) (w : World)
    (dt_start dt_finis : datetime) (datadir : string) (table : list dvd_row) :
  outcome (read_2dvd_rho g w (TimeSeq [dt_start; dt_finis]) datadir true) = Ok table ->
  let files := np_sort (glob_glob w (dvd_pattern datadir) true) in
  (forall file, In file files ->
     exists d, file_date file = Ok d /\
       (In (EvReadCsv file)
           (trace (read_2dvd_rho g w (TimeSeq [dt_start; dt_finis]) datadir true))
        <-> datetime_ge d dt_start = true /\ datetime_lt d dt_finis = true)) /\
  exists parsed,
    Forall2 (file_rows w)
      (List.filter (dated_in_range dt_start dt_finis) files) parsed /\
    table = List.concat parsed.
Proof.
  intros H files.
  destruct (read_2dvd_rho_Ok _ _ _ _ _ _ H) as (dts & parsed & Hdates & Hrows & Ht & Htr).
  fold files in Hdates, Hrows, Htr. split.
  - intros file Hin.
    destruct (Forall2_In_l _ _ _ _ Hdates Hin) as (d & _ & Hd).
    exists d. split; [exact Hd|].
    rewrite (in_read_events _ _ _ Htr), filter_In.
    unfold dated_in_range, in_range. rewrite Hd, andb_true_iff. tauto.
  - exists parsed. auto.
Qed.

(** *** The run does return *)

Lemma filename_field_complete (g : namespace) (w : World) (x : string) (a b z : Z) :
  io_globals ⊆ g -> g !! "os" = Some (PyModule os_module) ->
  numpy_has_int w = true ->
  py_int (str_slice (basename x) (Some a) (Some b)) = Ok z ->
  outcome (filename_field g w x a b) = Ok z.
Proof.
  intros Hg Hos Hint Hz. unfold filename_field.
  rewrite (module_attr_bound g "np" numpy) by (eapply io_globals_bound; [eassumption|reflexivity]).
  rewrite (bind_ret_l tt), Hint, (bind_ret_l tt).
  rewrite (module_attr_bound g "os" os_module) by exact Hos.
  rewrite (bind_ret_l tt). exact Hz.
Qed.

Lemma file_date_inv (x : string) (d : datetime) :
  file_date x = Ok d ->
  exists yyyy mm dd,
    py_int (str_slice (basename x) (Some (-27)) (Some (-23))) = Ok yyyy /\
    py_int (str_slice (basename x) (Some (-23)) (Some (-21))) = Ok mm /\
    py_int (str_slice (basename x) (Some (-21)) (Some (-19))) = Ok dd /\
    datetime_date yyyy mm dd = Ok d.
Proof.
  unfold file_date.
  destruct (py_int (str_slice (basename x) (Some (-27)) (Some (-23)))) as [y|]; [|discriminate].
  destruct (py_int (str_slice (basename x) (Some (-23)) (Some (-21)))) as [m|]; [|discriminate].
  destruct (py_int (str_slice (basename x) (Some (-21)) (Some (-19)))) as [dd|]; [|discriminate].
  intros H. exists y, m, dd. auto.
Qed.

Lemma read_2dvd_loop_complete (g : namespace) (w : World) (size : nat)
    (files : list string) (dts : list datetime) (parsed : list (list dvd_row)) :
  io_globals ⊆ g -> g !! "pd" = Some (PyModule pandas) ->
  Forall2 (fun x dt => file_date x = Ok dt) files dts ->
  Forall2 (file_rows w) files parsed ->
  forall s,
    outcome (for_each (read_2dvd_file g w size)
               (combine (seq s (length files)) (combine files dts))) = Ok parsed.
Proof.
  intros Hg Hpd Hdates. revert parsed.
  induction Hdates as [|x dt files dts Hx _ IH]; intros parsed Hrows s;
    inversion Hrows as [|? rows ? parsed' Hr Hrows']; subst;
    cbn [length seq combine for_each].
  - reflexivity.
  - assert (Hfile : outcome (read_2dvd_file g w size (s, (x, dt))) = Ok rows).
    { destruct Hr as (d & recs & Hd & Hrecs & Hderive).
      assert (d = dt) by congruence. subst d.
      unfold read_2dvd_file.
      rewrite !(module_attr_bound g "pd" pandas) by exact Hpd.
      rewrite (module_attr_bound g "np" numpy)
        by (eapply io_globals_bound; [eassumption|reflexivity]).
      rewrite (bind_ret_l tt). unfold emit.
      rewrite bind_unfold. cbn [fst snd outcome].
      rewrite Hrecs, lift_bind, !(bind_ret_l tt), Hderive, lift_bind.
      reflexivity. }
    rewrite (bind_outcome_step _ _ rows Hfile).
    rewrite (bind_outcome_step _ _ parsed' (IH parsed' Hrows' (S s))). reflexivity.
Qed.

(** With [os] and [pd] bound beside the module's own names and a numpy
    that still has [np.int]: if every discovered file name carries a date
    and every file in range parses, and there is at least one such file,
    the call returns the rows of the files in range. *)
Lemma read_2dvd_rho_returns (g : namespace) (w : World)
    (dt_start dt_finis : datetime) (datadir : string)
    (dts : list datetime) (parsed : list (list dvd_row)) :
  io_globals ⊆ g ->
  g !! "os" = Some (PyModule os_module) ->
  g !! "pd" = Some (PyModule pandas) ->
  numpy_has_int w = true ->
  let files := np_sort (glob_glob w (dvd_pattern datadir) true) in
  Forall2 (fun x dt => file_date x = Ok dt) files dts ->
  Forall2 (file_rows w) (List.filter (dated_in_range dt_start dt_finis) files) parsed ->
  parsed <> [] ->
  outcome (read_2dvd_rho g w (TimeSeq [dt_start; dt_finis]) datadir true)
    = Ok (List.concat parsed).
Proof.
  intros Hg Hos Hpd Hint files Hdates Hrows Hne.
  assert (Hnp : forall attr, module_attr g "np" numpy attr = ret tt).
  { intros attr. apply module_attr_bound.
    eapply io_globals_bound; [eassumption|reflexivity]. }
  unfold read_2dvd_rho.
  rewrite !Hnp, !(bind_ret_l tt).
  rewrite (module_attr_bound g "glob" glob_module)
    by (eapply io_globals_bound; [eassumption|reflexivity]).
  rewrite (bind_ret_l tt), glob_run, bind_unfold. unfold outcome. cbn [fst snd].
  fold files.
  assert (Hfield : forall a b (zs : list Z),
            Forall2 (fun x z => py_int (str_slice (basename x) (Some a) (Some b)) = Ok z)
              files zs ->
            outcome (for_each (fun x => filename_field g w x a b) files) = Ok zs).
  { intros a b zs Hzs. apply for_each_complete.
    eapply Forall2_impl; [exact Hzs|]. intros x z Hz.
    apply filename_field_complete; auto. }
  assert (Hparts : exists yyyy mm dd,
            Forall2 (fun x z => py_int (str_slice (basename x) (Some (-27)) (Some (-23))) = Ok z) files yyyy /\
            Forall2 (fun x z => py_int (str_slice (basename x) (Some (-23)) (Some (-21))) = Ok z) files mm /\
            Forall2 (fun x z => py_int (str_slice (basename x) (Some (-21)) (Some (-19))) = Ok z) files dd /\
            Forall2 (fun (ymd : Z * (Z * Z)) dt =>
                       datetime_date (fst ymd) (fst (snd ymd)) (snd (snd ymd)) = Ok dt)
              (combine yyyy (combine mm dd)) dts).
  { clear - Hdates. induction Hdates as [|x dt fs ds Hx _ (ys & ms & dds & Hy & Hm & Hd & Hc)].
    - exists [], [], []. repeat split; constructor.
    - apply file_date_inv in Hx as (y & m & d & Y & Mo & D & Hdate).
      exists (y :: ys), (m :: ms), (d :: dds).
      repeat split; constructor; auto. }
  destruct Hparts as (yyyy & mm & dd & Hy & Hm & Hd & Hc).
  change (snd ?c) with (outcome c).
  rewrite (bind_outcome_step _ _ yyyy (Hfield _ _ _ Hy)).
  rewrite (bind_outcome_step _ _ mm (Hfield _ _ _ Hm)).
  rewrite (bind_outcome_step _ _ dd (Hfield _ _ _ Hd)).
  rewrite (bind_ret_l tt).
  assert (Hmk : outcome (for_each
            (fun '(yyyy, (mm, dd)) =>
               module_attr g "datetime" datetime_module "datetime";;
               lift (datetime_date yyyy mm dd))
            (combine yyyy (combine mm dd))) = Ok dts).
  { apply for_each_complete. eapply Forall2_impl; [exact Hc|].
    intros [y [m d]] dt Hdt. cbn [fst snd] in Hdt.
    rewrite (module_attr_bound g "datetime" datetime_module)
      by (eapply io_globals_bound; [eassumption|reflexivity]).
    rewrite (bind_ret_l tt). exact Hdt. }
  rewrite (bind_outcome_step _ _ dts Hmk).
  change (py_len (TimeSeq [dt_start; dt_finis])) with (ret 2%nat : M nat).
  rewrite (bind_ret_l 2%nat). cbn [Nat.eqb andb].
  change (py_item (TimeSeq [dt_start; dt_finis]) 0) with (ret dt_start : M datetime).
  rewrite (bind_ret_l dt_start).
  change (py_item (TimeSeq [dt_start; dt_finis]) 1) with (ret dt_finis : M datetime).
  rewrite (bind_ret_l dt_finis), (bind_ret_l (_, _)).
  destruct (select_dated dt_start dt_finis files dts Hdates) as [Hsel Hseld].
  rewrite <- Hsel in Hrows.
  rewrite (bind_outcome_step _ _ parsed
             (read_2dvd_loop_complete g w _ _ _ _ Hg Hpd Hseld Hrows 0%nat)).
  rewrite (module_attr_bound g "pd" pandas) by exact Hpd.
  rewrite (bind_ret_l tt). destruct parsed; [congruence|reflexivity].
Qed.

(** ** arg-max along a gate *)

Lemma argmax_from_settled (m : float64) (bi i : nat) (l : list float64) :
  f64_isnan m = false ->
  (forall x, In x l -> f64_lt x m = true) ->
  argmax_from m bi i l = bi.
Proof.
  intros Hm. revert i. induction l as [|x l IH]; intros i Hl; simpl.
  - rewrite Hm. reflexivity.
  - rewrite Hm. rewrite (f64_lt_le x m) by (apply Hl; left; reflexivity).
    simpl. apply IH. intros y Hy. apply Hl. right. exact Hy.
Qed.

Lemma argmax_from_reaches (m : float64) (l : list float64) :
  forall (best : float64) (bi i p : nat),
    f64_lt best m = true ->
    nth_error l p = Some m ->
    (forall q x, q <> p -> nth_error l q = Some x -> f64_lt x m = true) ->
    argmax_from best bi i l = (i + p)%nat.
Proof.
  induction l as [|x l IH]; intros best bi i p Hbest Hp Hothers.
  - destruct p; discriminate.
  - destruct (f64_lt_not_nan _ _ Hbest) as [Hnb Hnm].
    simpl. rewrite Hnb. destruct p as [|p]; simpl in Hp.
    + injection Hp as ->. rewrite (f64_lt_not_ge _ _ Hbest). simpl.
      rewrite Nat.add_0_r. apply argmax_from_settled; [exact Hnm|].
      intros y Hy. apply In_nth_error in Hy as [q Hq].
      apply (Hothers (S q)); [discriminate|exact Hq].
    + assert (Hx : f64_lt x m = true) by (apply (Hothers 0%nat); [discriminate|reflexivity]).
      assert (Hrest : forall q y, q <> p -> nth_error l q = Some y -> f64_lt y m = true).
      { intros q y Hq Hy. apply (Hothers (S q)); [congruence|exact Hy]. }
      replace (i + S p)%nat with (S i + p)%nat by lia.
      destruct (f64_le x best); simpl;
        change (S (i + p))%nat with (S i + p)%nat; apply IH; auto.
Qed.

(** Where one layer is strictly larger than every other one, [np.argmax]
    returns its position. *)
Lemma argmax_unique_max (l : list float64) (k : nat) (m : float64) :
  nth_error l k = Some m ->
  (forall i x, i <> k -> nth_error l i = Some x -> f64_lt x m = true) ->
  argmax l = k.
Proof.
  intros Hk Hothers. destruct l as [|x l]; [destruct k; discriminate|].
  unfold argmax. destruct k as [|k]; simpl in Hk.
  - injection Hk as ->. destruct (f64_isnan m) eqn:Hm.
    + destruct l; simpl; rewrite Hm; reflexivity.
    + apply argmax_from_settled; [exact Hm|].
      intros y Hy. apply In_nth_error in Hy as [q Hq].
      apply (Hothers (S q)); [discriminate|exact Hq].
  - apply (argmax_from_reaches m l x 0%nat 1%nat k).
    + apply (Hothers 0%nat); [discriminate|reflexivity].
    + exact Hk.
    + intros q y Hq Hy. apply (Hothers (S q)); [congruence|exact Hy].
Qed.

(** ** Pieces of read_mxpol_rhi_with_hc *)

Tactic Notation "step_as" hyp(H) ident(x) ident(Hx) :=
  let H0 := fresh in
  pose proof H as H0;
  apply bind_outcome_Ok in H0 as (x & Hx & _);
  rewrite (bind_outcome_step _ _ x Hx) in H.

Lemma Dataset_Ok (g : namespace) (w : World) (path : string) (nc : ncfile) :
  outcome (Dataset g w path) = Ok nc -> open_dataset w path = Ok nc.
Proof.
  unfold Dataset. intros H. step_as H cls Hcls.
  destruct cls as [| |name| | |]; try discriminate.
  destruct (String.eqb_spec name "netCDF4.Dataset") as [->|Hne].
  - step H. exact H.
  - exfalso. clear Hcls.
    repeat (destruct name as [|[[] [] [] [] [] [] [] []] name]; try discriminate H;
            try (apply Hne; reflexivity)).
Qed.

Lemma bool_index_Ok {A} (a : list A) (mask : list bool) (r : list A) :
  outcome (bool_index a mask) = Ok r ->
  length a = length mask /\ r = select a mask.
Proof.
  unfold bool_index. destruct (Nat.eqb_spec (length a) (length mask)); [|discriminate].
  intros [= <-]. auto.
Qed.

Lemma rows_where_Ok (a : ndarray2 float64) (mask : list bool) (r : ndarray2 float64) :
  outcome (rows_where a mask) = Ok r ->
  shape0 a = length mask /\ data r = select (data a) mask /\
  shape0 r = length (select (data a) mask) /\ shape1 r = shape1 a.
Proof.
  unfold rows_where. destruct (Nat.eqb_spec (shape0 a) (length mask)); [|discriminate].
  intros [= <-]. auto.
Qed.

Lemma select_length {A B} (a : list A) (b : list B) (mask : list bool) :
  length a = length mask -> length b = length mask ->
  length (select a mask) = length (select b mask).
Proof.
  revert a b. induction mask as [|m mask IH]; intros [|x a] [|y b] Ha Hb;
    simpl in *; try discriminate; try reflexivity.
  destruct m; simpl; [f_equal|]; apply IH; lia.
Qed.

Lemma select_masked (El : list float64) :
  Forall (fun e => f64_gt e (f64_of_Z 5) = true /\ f64_lt e (f64_of_Z 175) = true)
    (select El (gate_mask El)).
Proof.
  induction El as [|e El IH]; simpl; [constructor|].
  destruct (f64_gt e (f64_of_Z 5) && f64_lt e (f64_of_Z 175)) eqn:E; [|exact IH].
  apply andb_true_iff in E. constructor; auto.
Qed.

Lemma transpose_rows {A} (a : ndarray2 A) : length (data (transpose a)) = shape1 a.
Proof. simpl. rewrite length_map, length_seq. reflexivity. Qed.

Lemma add_field_Ok (r r' : radar) (name : string) (dic : field) (b : bool) :
  add_field r name dic b = Ok r' ->
  fields r' = <[name := dic]> (fields r) /\
  nrays r' = nrays r /\ ngates r' = ngates r /\
  shape0 (field_data dic) = nrays r /\ shape1 (field_data dic) = ngates r.
Proof.
  unfold add_field.
  destruct (bool_decide _ && negb b); [discriminate|].
  destruct (Nat.eqb_spec (shape0 (field_data dic)) (nrays r)); [|discriminate].
  destruct (Nat.eqb_spec (shape1 (field_data dic)) (ngates r)); [|discriminate].
  intros [= <-]. auto.
Qed.

Lemma add_proportion_fields_Ok (b : mat_bundle) (names : list (string * string)) :
  forall (r r' : radar),
    outcome (add_proportion_fields b r names) = Ok r' ->
    nrays r' = nrays r /\ ngates r' = ngates r /\
    (forall k, ~ In k (map fst names) -> fields r' !! k = fields r !! k) /\
    (List.NoDup (map fst names) ->
     Forall (fun code =>
               exists f a, fields r' !! code = Some f /\
                           bundle_lookup code b = Some (MatArray a) /\
                           field_data f = a /\ shape0 a = nrays r)
       (map fst names)).
Proof.
  induction names as [|[code std] names IH]; intros r r' H;
    cbn [add_proportion_fields] in H.
  - injection H as <-. repeat split; auto.
  - unfold bundle_item in H.
    destruct (bundle_lookup code b) as [v|] eqn:Ev; [|discriminate].
    rewrite (bind_ret_l v) in H.
    destruct v as [a|]; [|discriminate]. cbn [array_shape as_array] in H.
    rewrite (bind_ret_l (shape0 a, shape1 a)), (bind_ret_l a), lift_bind in H.
    destruct (add_field r code _ true) as [r1|] eqn:E1; [|discriminate].
    apply add_field_Ok in E1 as (Hf & Hr & Hg & Hs0 & Hs1). simpl in Hs0, Hs1.
    destruct (IH r1 r' H) as (Hr' & Hg' & Hother & Hcodes).
    split; [congruence|]. split; [congruence|]. split.
    + intros k Hk. simpl in Hk. rewrite Hother by tauto. rewrite Hf.
      apply lookup_insert_ne. tauto.
    + intros Hnd. inversion Hnd as [|? ? Hnotin Hnd']; subst. constructor.
      * exists (mk_field a "-" ("Proportion of the " ++ code) (-9999) std), a.
        rewrite Hother by exact Hnotin. rewrite Hf, lookup_insert_eq. auto.
      * eapply List.Forall_impl; [|apply Hcodes; exact Hnd'].
        simpl. intros c (f & a' & H1 & H2 & H3 & H4). exists f, a'.
        repeat split; auto. congruence.
Qed.

(** Everything a successful run of [read_mxpol_rhi_with_hc] went through. *)
Lemma read_mxpol_Ok (g : namespace) (w : World) (rhi hc : string) (r : radar) :
  outcome (read_mxpol_rhi_with_hc g w rhi hc) = Ok r ->
  exists bundle nc ag layers HC r1 ZDR ZH KDP,
    loadmat w hc = Ok bundle /\ open_dataset w rhi = Ok nc /\
    bundle_lookup "AG" bundle = Some (MatArray ag) /\
    outcome (hc_stack_loop g bundle None (map fst bundle)) = Ok (Some layers) /\
    outcome (most_probable_habit layers) = Ok HC /\
    outcome (add_proportion_fields bundle
               (make_empty_rhi_radar (shape1 ag) (shape0 ag) 1)
               (combine list_str list_standard)) = Ok r1 /\
    outcome (rows_where (transpose (nc_Zdr nc)) (gate_mask (nc_Elevation nc))) = Ok ZDR /\
    outcome (rows_where (transpose (nc_Zh nc)) (gate_mask (nc_Elevation nc))) = Ok ZH /\
    outcome (rows_where (transpose (nc_Kdp nc)) (gate_mask (nc_Elevation nc))) = Ok KDP /\
    shape0 HC = nrays r1 /\ shape0 KDP = nrays r1 /\
    fields r =
      <["ZHH" := mk_field ZH "dBZ" "horizontal reflectivity" (-9999) "ZHH"]>
      (<["ZDR" := mk_field (map2d (fun v => f64_sub v zdr_offset) ZDR) "dB"
                    "differential reflectivity" (-9999) "ZDR"]>
      (<["KDP" := mk_field KDP "deg/km" "differential phase shift" (-9999) "KDP"]>
      (<["HC" := mk_field HC "-" hc_long_name (-9999) "Hydrometeor classification"]>
         (fields r1)))) /\
    nrays r = nrays r1 /\
    range_data r = nc_Range nc /\
    elevation_data r = select (nc_Elevation nc) (gate_mask (nc_Elevation nc)) /\
    length (nc_Azimuth nc) = length (nc_Elevation nc) /\
    (azimuth_data r = select (nc_Azimuth nc) (gate_mask (nc_Elevation nc)) \/
     azimuth_data r = map (fun a => f64_add a (f64_of_Z 360))
                        (select (nc_Azimuth nc) (gate_mask (nc_Elevation nc)))) /\
    fixed_angle_data r = azimuth_data r /\
    time_data r = nc_Time nc.
Proof.
  unfold read_mxpol_rhi_with_hc. intros H.
  step H. step H. step_as H bundle Hbundle. step_as H nc Hnc.
  apply Dataset_Ok in Hnc.
  step H. step_as H El HEl. apply bool_index_Ok in HEl as [_ ->].
  step H. step_as H agv Hag. step_as H shape Hshape.
  unfold bundle_item in Hag.
  destruct (bundle_lookup "AG" bundle) as [v|] eqn:Elook; [|discriminate].
  injection Hag as <-. destruct v as [ag|]; [|discriminate].
  injection Hshape as <-. cbn [fst snd] in H.
  step_as H stack Hstack. step H. step H. step H.
  step_as H layers Hlayers. destruct stack as [layers'|]; [|discriminate].
  injection Hlayers as <-.
  step_as H HC HHC. step_as H r1 Hr1. step_as H r2 Hr2.
  step_as H ZDR HZDR. step_as H ZH HZ. step_as H KDP HKDP.
  step_as H r3 Hr3. step_as H r4 Hr4. step_as H r5 Hr5.
  step H. step_as H az Haz. apply bool_index_Ok in Haz as [Hazlen ->].
  step_as H first Hfirst. step H. injection H as <-.
  apply add_field_Ok in Hr2 as (Hf2 & Hn2 & _ & Hs2 & _).
  apply add_field_Ok in Hr3 as (Hf3 & Hn3 & _ & Hs3 & _).
  apply add_field_Ok in Hr4 as (Hf4 & Hn4 & _ & _ & _).
  apply add_field_Ok in Hr5 as (Hf5 & Hn5 & _ & _ & _).
  cbn [field_data] in Hs2, Hs3.
  exists bundle, nc, ag, layers', HC, r1, ZDR, ZH, KDP.
  cbn [fields nrays range_data elevation_data azimuth_data fixed_angle_data time_data].
  rewrite Hf5, Hf4, Hf3, Hf2, Hn5, Hn4, Hn3, Hn2.
  repeat (split; [first [assumption | reflexivity | congruence]|]).
  split; [rewrite Hazlen; unfold gate_mask; apply length_map|].
  split; [|split; reflexivity].
  destruct (f64_lt first (f64_of_Z 0)); auto.
Qed.

(** ** The stacking loop *)

Lemma hc_stack_step_AG (g : namespace) (b : mat_bundle) (stack stack' : hc_stack) :
  outcome (hc_stack_step g b stack "AG") = Ok stack' ->
  exists a, bundle_lookup "AG" b = Some (MatArray a) /\ stack' = Some [a].
Proof.
  unfold hc_stack_step. change (str_in "_" "AG") with false.
  change (str_in "AG" "AG") with true. cbn iota. intros H.
  step H. step_as H v Hv. step_as H arr Ha. injection H as <-.
  unfold bundle_item in Hv. destruct (bundle_lookup "AG" b) as [v'|]; [|discriminate].
  injection Hv as ->. destruct v as [a'|]; [|discriminate]. injection Ha as ->.
  exists arr. auto.
Qed.

Lemma hc_stack_step_other (g : namespace) (b : mat_bundle) (k : string)
    (stack stack' : hc_stack) :
  In k (tl list_str) ->
  outcome (hc_stack_step g b stack k) = Ok stack' ->
  exists layers a,
    stack = Some layers /\ bundle_lookup k b = Some (MatArray a) /\
    forallb (fun l => same_shape l a) layers = true /\
    stack' = Some (layers ++ [a])%list.
Proof.
  intros Hk. unfold hc_stack_step.
  assert (Hres : str_in "_" k = false /\ str_in k "AG" = false).
  { simpl in Hk. repeat (destruct Hk as [<-|Hk]; [split; reflexivity|]). tauto. }
  destruct Hres as [-> ->]. intros H.
  step H. step_as H layers Hlayers. step_as H v Hv. step_as H arr Ha.
  step_as H stacked Hstacked. injection H as <-.
  destruct stack as [layers'|]; [|discriminate]. injection Hlayers as ->.
  unfold bundle_item in Hv. destruct (bundle_lookup k b) as [v'|]; [|discriminate].
  injection Hv as ->. destruct v as [a'|]; [|discriminate]. injection Ha as ->.
  unfold np_dstack in Hstacked.
  destruct (forallb _ layers) eqn:Hshape; [|discriminate]. injection Hstacked as <-.
  exists layers, arr. auto.
Qed.

Lemma hc_stack_loop_headed (g : namespace) (b : mat_bundle) (keys : list string) :
  Forall (fun k => str_in "_" k = true \/ In k list_str) keys ->
  forall stack stack',
    stack_headed b stack ->
    outcome (hc_stack_loop g b stack keys) = Ok stack' ->
    stack_headed b stack'.
Proof.
  induction 1 as [|k keys Hk _ IH]; intros stack stack' Hhead H;
    cbn [hc_stack_loop] in H.
  - injection H as <-. exact Hhead.
  - step_as H s1 Hs1. apply (IH s1 stack'); [|exact H].
    destruct (str_in "_" k) eqn:Hres.
    + unfold hc_stack_step in Hs1. rewrite Hres in Hs1. injection Hs1 as <-. exact Hhead.
    + destruct Hk as [Hk|Hk]; [discriminate|].
      destruct Hk as [<-|Hk].
      * apply hc_stack_step_AG in Hs1 as (a & Ha & ->). exists a, []. auto.
      * apply hc_stack_step_other in Hs1 as (layers & a & -> & _ & _ & ->); [|exact Hk].
        destruct Hhead as (ag & rest & -> & Hag). exists ag, (rest ++ [a])%list. auto.
Qed.

Lemma hc_stack_loop_skip (g : namespace) (b : mat_bundle) (keys : list string) :
  forall stack,
    hc_stack_loop g b stack keys =
    hc_stack_loop g b stack (List.filter (fun k => negb (str_in "_" k)) keys).
Proof.
  induction keys as [|k keys IH]; intros stack; cbn [hc_stack_loop List.filter].
  - reflexivity.
  - destruct (str_in "_" k) eqn:Hres; cbn [negb].
    + unfold hc_stack_step. rewrite Hres. rewrite (bind_ret_l stack). apply IH.
    + cbn [hc_stack_loop]. apply bind_ext. intros s. apply IH.
Qed.

(** With the eight codes in the documented order, the stack holds the
    eight arrays in that order, all of one shape. *)
Lemma hc_stack_loop_documented (g : namespace) (b : mat_bundle) (stack' : hc_stack) :
  outcome (hc_stack_loop g b None list_str) = Ok stack' ->
  exists layers, stack' = Some layers /\ documented_layers b layers /\
    forall first, hd_error layers = Some first ->
      Forall (fun l => same_shape first l = true) layers.
Proof.
  unfold list_str. cbn [hc_stack_loop]. intros H.
  step_as H s0 H0. apply hc_stack_step_AG in H0 as (a0 & L0 & ->).
  step_as H s1 H1. apply hc_stack_step_other in H1 as (? & a1 & [= <-] & L1 & S1 & ->);
    [|simpl; tauto].
  step_as H s2 H2. apply hc_stack_step_other in H2 as (? & a2 & [= <-] & L2 & S2 & ->);
    [|simpl; tauto].
  step_as H s3 H3. apply hc_stack_step_other in H3 as (? & a3 & [= <-] & L3 & S3 & ->);
    [|simpl; tauto].
  step_as H s4 H4. apply hc_stack_step_other in H4 as (? & a4 & [= <-] & L4 & S4 & ->);
    [|simpl; tauto].
  step_as H s5 H5. apply hc_stack_step_other in H5 as (? & a5 & [= <-] & L5 & S5 & ->);
    [|simpl; tauto].
  step_as H s6 H6. apply hc_stack_step_other in H6 as (? & a6 & [= <-] & L6 & S6 & ->);
    [|simpl; tauto].
  step_as H s7 H7. apply hc_stack_step_other in H7 as (? & a7 & [= <-] & L7 & S7 & ->);
    [|simpl; tauto].
  injection H as <-. cbn [app] in *.
  exists [a0; a1; a2; a3; a4; a5; a6; a7]. split; [reflexivity|]. split.
  - repeat constructor; assumption.
  - intros first [= <-]. cbn [forallb] in *.
    repeat match goal with
           | H : _ && _ = true |- _ => apply andb_true_iff in H as [? _]
           end.
    repeat constructor; try assumption.
    unfold same_shape. rewrite !Nat.eqb_refl. reflexivity.
Qed.

(** ** The most probable habit *)

Lemma get2_grid {A} (s0 s1 : nat) (F : nat -> nat -> A) (i j : nat) :
  (i < s0)%nat -> (j < s1)%nat ->
  get2 (mk_ndarray2 s0 s1
          (map (fun i => map (fun j => F i j) (seq 0 s1)) (seq 0 s0))) i j
  = Some (F i j).
Proof.
  intros Hi Hj. unfold get2. cbn [data].
  rewrite nth_error_map, nth_error_seq.
  destruct (Nat.ltb_spec i s0); [|lia]. cbn [option_map].
  rewrite nth_error_map, nth_error_seq.
  destruct (Nat.ltb_spec j s1); [|lia]. reflexivity.
Qed.

Lemma most_probable_habit_Ok (layers : list (ndarray2 float64))
    (HC : ndarray2 float64) :
  outcome (most_probable_habit layers) = Ok HC ->
  exists first rest,
    layers = first :: rest /\
    shape0 HC = shape0 first /\ shape1 HC = shape1 first /\
    forall i j v,
      wf_ndarray2 first -> get2 first i j = Some v ->
      get2 HC i j = Some (habit_at layers i j v).
Proof.
  unfold most_probable_habit.
  destruct layers as [|first [|second rest]]; try discriminate.
  intros [= <-]. exists first, (second :: rest).
  repeat split. intros i j v Hwf Hv.
  destruct (get2_lt _ _ _ _ Hwf Hv) as [Hi Hj].
  match goal with
  | |- get2 (mk_ndarray2 _ _ (map (fun i => map (fun j => @?F i j) _) _)) _ _ = _ =>
      rewrite (get2_grid _ _ F i j Hi Hj)
  end.
  cbv beta. unfold habit_at, gate_values. cbn [flat_map].
  rewrite !Hv. reflexivity.
Qed.

(** ** read_mxpol_rhi_with_hc *)

Lemma lookup_HC_field (m : gmap string field) (fZ fD fK fH : field) :
  (<["ZHH" := fZ]> (<["ZDR" := fD]> (<["KDP" := fK]> (<["HC" := fH]> m))))
    !! "HC" = Some fH.
Proof.
  rewrite !lookup_insert_ne by discriminate. apply lookup_insert_eq.
Qed.

Lemma bundle_lookup_In (k : string) (b : mat_bundle) (v : mat_value) :
  bundle_lookup k b = Some v -> In (k, v) b.
Proof.
  induction b as [|[k' v'] b IH]; simpl; [discriminate|].
  destruct (String.eqb_spec k' k) as [->|_].
  - intros [= ->]. left. reflexivity.
  - intros H. right. apply IH. exact H.
Qed.

Lemma bundle_lookup_wf (k : string) (b : mat_bundle) (a : ndarray2 float64) :
  wf_bundle b -> bundle_lookup k b = Some (MatArray a) -> wf_ndarray2 a.
Proof.
  intros Hwf H. apply bundle_lookup_In in H.
  unfold wf_bundle in Hwf. rewrite List.Forall_forall in Hwf.
  apply (Hwf _ H).
Qed.

(** C3. Whenever [read_mxpol_rhi_with_hc] returns a radar for a bundle
    whose keys are the habit codes and reserved keys, the 'HC' field is
    NaN at every gate where the 'AG' layer is NaN, whatever the other
    layers hold there. *)
Theorem read_mxpol_hc_nan_where_ag_nan (g : namespace) (w : World)
    (rhi hc : string) (r : radar) :
  outcome (read_mxpol_rhi_with_hc g w rhi hc) = Ok r ->
  exists bundle ag hcf,
    loadmat w hc = Ok bundle /\
    bundle_lookup "AG" bundle = Some (MatArray ag) /\
    fields r !! "HC" = Some hcf /\
    (wf_ndarray2 ag ->
     Forall (fun k => str_in "_" k = true \/ In k list_str) (map fst bundle) ->
     forall i j, get2 ag i j = Some f64_nan ->
                 get2 (field_data hcf) i j = Some f64_nan).
Proof.
  intros H.
  destruct (read_mxpol_Ok _ _ _ _ _ H)
    as (bundle & nc & ag & layers & HC & r1 & ZDR & ZH & KDP & Hb & _ & Hag & Hloop
        & HHC & _ & _ & _ & _ & _ & _ & Hf & _).
  exists bundle, ag, (mk_field HC "-" hc_long_name (-9999) "Hydrometeor classification").
  split; [exact Hb|]. split; [exact Hag|].
  split; [rewrite Hf; apply lookup_HC_field|].
  intros Hwf Hkeys i j Hnan. cbn [field_data].
  pose proof (hc_stack_loop_headed g bundle _ Hkeys None (Some layers) I Hloop) as Hhead.
  destruct Hhead as (ag' & rest & -> & Hag'). assert (ag' = ag) by congruence. subst ag'.
  destruct (most_probable_habit_Ok _ _ HHC) as (first & rest' & [= <- <-] & _ & _ & Hget).
  rewrite (Hget i j f64_nan Hwf Hnan). reflexivity.
Qed.

Lemma get2_total {A} (first l : ndarray2 A) (i j : nat) :
  wf_ndarray2 l ->
  shape0 first = shape0 l -> shape1 first = shape1 l ->
  (i < shape0 first)%nat -> (j < shape1 first)%nat ->
  exists x, get2 l i j = Some x.
Proof.
  intros [Hlen Hall] H0 H1 Hi Hj. unfold get2.
  destruct (nth_error (data l) i) as [row|] eqn:Er.
  - rewrite List.Forall_forall in Hall.
    pose proof (Hall row (nth_error_In _ _ Er)) as Hrow.
    destruct (nth_error row j) as [x|] eqn:Ex; [eauto|].
    apply nth_error_None in Ex. lia.
  - apply nth_error_None in Er. lia.
Qed.

Lemma same_shape_eq (a b : ndarray2 float64) :
  same_shape a b = true -> shape0 a = shape0 b /\ shape1 a = shape1 b.
Proof.
  unfold same_shape. intros H. apply andb_true_iff in H as [H0 H1].
  split; apply Nat.eqb_eq; assumption.
Qed.

Lemma documented_layers_inv (b : mat_bundle) (layers : list (ndarray2 float64)) :
  documented_layers b layers ->
  exists a0 a1 a2 a3 a4 a5 a6 a7,
    layers = [a0; a1; a2; a3; a4; a5; a6; a7] /\
    bundle_lookup "AG" b = Some (MatArray a0) /\
    bundle_lookup "CR" b = Some (MatArray a1) /\
    bundle_lookup "IH" b = Some (MatArray a2) /\
    bundle_lookup "LR" b = Some (MatArray a3) /\
    bundle_lookup "MH" b = Some (MatArray a4) /\
    bundle_lookup "RN" b = Some (MatArray a5) /\
    bundle_lookup "RP" b = Some (MatArray a6) /\
    bundle_lookup "WS" b = Some (MatArray a7).
Proof.
  unfold documented_layers, list_str. intros H.
  repeat match goal with
         | H : Forall2 _ (_ :: _) _ |- _ => inversion H; subst; clear H
         | H : Forall2 _ [] _ |- _ => inversion H; subst; clear H
         end.
  do 8 eexists. repeat split; eassumption.
Qed.

(** C2, amended. Whenever [read_mxpol_rhi_with_hc] returns a radar for a
    bundle whose habit layers are iterated in the documented order
    AG, CR, IH, LR, MH, RN, RP, WS, the 'HC' field holds, at every gate
    where the 'AG' layer is not NaN, the index that numpy's arg-max gives
    across the eight layers stacked in that order; in particular it is 5
    at a gate where the 'RN' layer is strictly larger than every other
    layer. *)
Theorem read_mxpol_hc_argmax_documented_order (g : namespace) (w : World)
    (rhi hc : string) (r : radar) :
  outcome (read_mxpol_rhi_with_hc g w rhi hc) = Ok r ->
  exists bundle hcf,
    loadmat w hc = Ok bundle /\
    fields r !! "HC" = Some hcf /\
    (habit_keys bundle = list_str -> wf_bundle bundle ->
     exists layers ag,
       documented_layers bundle layers /\ hd_error layers = Some ag /\
       forall i j v, get2 ag i j = Some v ->
         (f64_isnan v = false ->
          get2 (field_data hcf) i j
            = Some (f64_of_Z (Z.of_nat (argmax (gate_values layers i j))))) /\
         (forall rn m,
            bundle_lookup "RN" bundle = Some (MatArray rn) ->
            get2 rn i j = Some m ->
            (forall code a x,
               In code list_str -> code <> "RN" ->
               bundle_lookup code bundle = Some (MatArray a) ->
               get2 a i j = Some x -> f64_lt x m = true) ->
            get2 (field_data hcf) i j = Some (f64_of_Z 5))).
Proof.
  intros H.
  destruct (read_mxpol_Ok _ _ _ _ _ H)
    as (bundle & nc & ag & layers & HC & r1 & ZDR & ZH & KDP & Hb & _ & Hag & Hloop
        & HHC & _ & _ & _ & _ & _ & _ & Hf & _).
  exists bundle, (mk_field HC "-" hc_long_name (-9999) "Hydrometeor classification").
  split; [exact Hb|]. split; [rewrite Hf; apply lookup_HC_field|].
  intros Hkeys Hwf. cbn [field_data].
  rewrite hc_stack_loop_skip in Hloop. fold (habit_keys bundle) in Hloop.
  rewrite Hkeys in Hloop.
  apply hc_stack_loop_documented in Hloop as (layers' & [= <-] & Hdoc & Hshape).
  destruct (documented_layers_inv _ _ Hdoc)
    as (a0 & a1 & a2 & a3 & a4 & a5 & a6 & a7 & -> & L0 & L1 & L2 & L3 & L4 & L5 & L6 & L7).
  exists [a0; a1; a2; a3; a4; a5; a6; a7], a0.
  split; [exact Hdoc|]. split; [reflexivity|].
  destruct (most_probable_habit_Ok _ _ HHC) as (first & rest & [= <- <-] & _ & _ & Hget).
  assert (W0 : wf_ndarray2 a0) by (eapply bundle_lookup_wf; eauto).
  intros i j v Hv. specialize (Hget i j v W0 Hv). unfold habit_at in Hget.
  split.
  - intros Hnan. rewrite Hnan in Hget. exact Hget.
  - intros rn m Hrn Hm Hmax.
    assert (rn = a5) by congruence. subst rn.
    assert (Hv0 : f64_lt v m = true).
    { apply (Hmax "AG" a0 v); [simpl; tauto|discriminate|exact L0|exact Hv]. }
    destruct (f64_lt_not_nan _ _ Hv0) as [Hvn _]. rewrite Hvn in Hget.
    rewrite Hget. do 2 f_equal.
    destruct (get2_lt _ _ _ _ W0 Hv) as [Hi Hj].
    specialize (Hshape a0 eq_refl).
    repeat match goal with
           | H : Forall _ (_ :: _) |- _ => inversion H; subst; clear H
           end.
    repeat match goal with
           | H : same_shape a0 ?a = true |- _ =>
               apply same_shape_eq in H as [? ?]
           end.
    destruct (get2_total a0 a1 i j) as [x1 E1]; auto; [eapply bundle_lookup_wf; eauto|].
    destruct (get2_total a0 a2 i j) as [x2 E2]; auto; [eapply bundle_lookup_wf; eauto|].
    destruct (get2_total a0 a3 i j) as [x3 E3]; auto; [eapply bundle_lookup_wf; eauto|].
    destruct (get2_total a0 a4 i j) as [x4 E4]; auto; [eapply bundle_lookup_wf; eauto|].
    destruct (get2_total a0 a6 i j) as [x6 E6]; auto; [eapply bundle_lookup_wf; eauto|].
    destruct (get2_total a0 a7 i j) as [x7 E7]; auto; [eapply bundle_lookup_wf; eauto|].
    unfold gate_values. cbn [flat_map]. rewrite Hv, E1, E2, E3, E4, Hm, E6, E7.
    cbn [app].
    change 5%Z with (Z.of_nat 5). f_equal.
    apply (argmax_unique_max _ 5%nat m); [reflexivity|].
    intros k x Hk Hx.
    destruct k as [|[|[|[|[|[|[|[|k]]]]]]]]; cbn in Hx; try congruence;
      try (injection Hx as <-).
    + apply (Hmax "CR" a1); [simpl; tauto|discriminate|exact L1|exact E1].
    + apply (Hmax "IH" a2); [simpl; tauto|discriminate|exact L2|exact E2].
    + apply (Hmax "LR" a3); [simpl; tauto|discriminate|exact L3|exact E3].
    + apply (Hmax "MH" a4); [simpl; tauto|discriminate|exact L4|exact E4].
    + apply (Hmax "RP" a6); [simpl; tauto|discriminate|exact L6|exact E6].
    + apply (Hmax "WS" a7); [simpl; tauto|discriminate|exact L7|exact E7].
    + destruct k; discriminate.
Qed.

Lemma lookup_radar_variable (m : gmap string field) (fZ fD fK fH : field) :
  let fs := <["ZHH" := fZ]> (<["ZDR" := fD]> (<["KDP" := fK]> (<["HC" := fH]> m))) in
  fs !! "ZHH" = Some fZ /\ fs !! "ZDR" = Some fD /\ fs !! "KDP" = Some fK /\
  (forall code, In code list_str -> fs !! code = m !! code).
Proof.
  cbn zeta. split; [apply lookup_insert_eq|].
  split; [rewrite lookup_insert_ne by discriminate; apply lookup_insert_eq|].
  split; [rewrite !lookup_insert_ne by discriminate; apply lookup_insert_eq|].
  intros code Hcode. simpl in Hcode.
  repeat (destruct Hcode as [<-|Hcode];
          [rewrite !lookup_insert_ne by discriminate; reflexivity|]).
  contradiction.
Qed.

(** C1, amended. Whenever [read_mxpol_rhi_with_hc] returns a radar, the
    gate mask that selects the elevations strictly between 5 and 175
    degrees has been applied to the elevation, to the azimuth (stored also
    as fixed angle, and shifted by 360 as a whole when its first value is
    negative), and to the fields ZHH, ZDR (less the 4.5 dB offset) and
    KDP: they hold the selected rays and no others, and every returned
    elevation lies strictly between 5 and 175. The eight proportion fields
    are the arrays of the classification bundle as loaded, and 'HC' is
    derived from them; no mask is applied to them, and the call returns
    only if they have one row for each selected ray. *)
Theorem read_mxpol_masks_radar_variables (g : namespace) (w : World)
    (rhi hc : string) (r : radar) :
  outcome (read_mxpol_rhi_with_hc g w rhi hc) = Ok r ->
  exists nc bundle,
    open_dataset w rhi = Ok nc /\ loadmat w hc = Ok bundle /\
    let mask := gate_mask (nc_Elevation nc) in
    elevation_data r = select (nc_Elevation nc) mask /\
    Forall (fun e => f64_gt e (f64_of_Z 5) = true /\ f64_lt e (f64_of_Z 175) = true)
      (elevation_data r) /\
    (azimuth_data r = select (nc_Azimuth nc) mask \/
     azimuth_data r = map (fun a => f64_add a (f64_of_Z 360))
                        (select (nc_Azimuth nc) mask)) /\
    fixed_angle_data r = azimuth_data r /\
    length (azimuth_data r) = length (elevation_data r) /\
    (exists f, fields r !! "ZHH" = Some f /\
       data (field_data f) = select (data (transpose (nc_Zh nc))) mask) /\
    (exists f, fields r !! "ZDR" = Some f /\
       data (field_data f) =
         map (map (fun v => f64_sub v zdr_offset))
           (select (data (transpose (nc_Zdr nc))) mask)) /\
    (exists f, fields r !! "KDP" = Some f /\
       data (field_data f) = select (data (transpose (nc_Kdp nc))) mask /\
       shape0 (field_data f) = length (elevation_data r)) /\
    nrays r = length (elevation_data r) /\
    Forall (fun code =>
              exists f a, fields r !! code = Some f /\
                          bundle_lookup code bundle = Some (MatArray a) /\
                          field_data f = a /\
                          shape0 a = length (elevation_data r))
      list_str /\
    (exists f, fields r !! "HC" = Some f /\
               shape0 (field_data f) = length (elevation_data r)).
Proof.
  intros H.
  destruct (read_mxpol_Ok _ _ _ _ _ H)
    as (bundle & nc & ag & layers & HC & r1 & ZDR & ZH & KDP & Hb & Hnc & Hag & Hloop
        & HHC & Hr1 & HZDR & HZH & HKDP & HsHC & HsKDP & Hf & Hn & _ & HEl & Hazlen
        & Haz & Hfix & _).
  exists nc, bundle. split; [exact Hnc|]. split; [exact Hb|]. cbn zeta.
  apply rows_where_Ok in HZDR as (_ & DZDR & _ & _).
  apply rows_where_Ok in HZH as (_ & DZH & _ & _).
  apply rows_where_Ok in HKDP as (MK & DKDP & SK & _).
  set (mask := gate_mask (nc_Elevation nc)) in *.
  assert (Hmask : length (nc_Elevation nc) = length mask)
    by (unfold mask, gate_mask; rewrite length_map; reflexivity).
  assert (Hrays : nrays r1 = length (select (nc_Elevation nc) mask)).
  { rewrite <- HsKDP, SK. apply select_length; [|exact Hmask].
    rewrite transpose_rows. exact MK. }
  destruct (lookup_radar_variable (fields r1)
              (mk_field ZH "dBZ" "horizontal reflectivity" (-9999) "ZHH")
              (mk_field (map2d (fun v => f64_sub v zdr_offset) ZDR) "dB"
                 "differential reflectivity" (-9999) "ZDR")
              (mk_field KDP "deg/km" "differential phase shift" (-9999) "KDP")
              (mk_field HC "-" hc_long_name (-9999) "Hydrometeor classification"))
    as (FZ & FD & FK & Fcodes).
  rewrite <- Hf in FZ, FD, FK, Fcodes.
  rewrite HEl.
  split; [reflexivity|]. split; [apply select_masked|].
  split; [exact Haz|]. split; [exact Hfix|].
  split.
  { destruct Haz as [-> | ->]; rewrite ?length_map;
      apply select_length; congruence. }
  split; [eexists; split; [exact FZ|exact DZH]|].
  split; [eexists; split; [exact FD|cbn [field_data map2d data]; rewrite DZDR; reflexivity]|].
  split; [eexists; split; [exact FK|split; [exact DKDP|cbn [field_data]; congruence]]|].
  split; [congruence|].
  split.
  - apply add_proportion_fields_Ok in Hr1 as (Hn1 & _ & _ & Hcodes).
    assert (Hnd : List.NoDup (map fst (combine list_str list_standard))).
    { apply NoDup_ListNoDup. apply (proj1 (bool_decide_eq_true _)). reflexivity. }
    specialize (Hcodes Hnd).
    change (map fst (combine list_str list_standard)) with list_str in Hcodes.
    rewrite List.Forall_forall in Hcodes. apply List.Forall_forall.
    intros code Hcode. destruct (Hcodes code Hcode) as (f & a & F1 & F2 & F3 & F4).
    exists f, a. rewrite (Fcodes code Hcode). repeat split; auto. congruence.
  - eexists. split; [rewrite Hf; apply lookup_HC_field|].
    cbn [field_data]. congruence.
Qed.

(** ** Concrete runs *)

Example read_dem_example :
  read_dem io_globals dem_world (Some "dem.tif") "pyeongchang" =
  ([EvOpenRaster "dem.tif"],
   Ok (mk_ndarray2 3 2
         [[f64_nan; f64_of_Z 12]; [f64_nan; f64_nan]; [f64_of_Z 7; f64_of_Z 3]],
       [[f64_of_Z 128; f64_of_Z 129; f64_of_Z 130];
        [f64_of_Z 128; f64_of_Z 129; f64_of_Z 130]],
       [[f64_of_Z 38; f64_of_Z 38; f64_of_Z 38];
        [f64_of_Z 37; f64_of_Z 37; f64_of_Z 37]],
       "EPSG:4326")).
Proof. vm_compute. reflexivity. Qed.

Lemma read_dem_masks_and_transposes_witness :
  exists path r,
    open_raster dem_world path = Ok r /\
    (3%nat, 2%nat) = (snd (pixels_shape (raster_pixels r)),
                      fst (pixels_shape (raster_pixels r))) /\
    (wf_pixels (raster_pixels r) ->
     forall i j v, px_get (raster_pixels r) i j = Some v ->
       (px_nonpositive v ->
        get2 (fst (fst (fst (dem_of_raster dem_raster)))) j i = Some f64_nan) /\
       (px_positive v ->
        get2 (fst (fst (fst (dem_of_raster dem_raster)))) j i = Some (px_float v))).
Proof.
  apply (read_dem_masks_and_transposes dem_world (Some "dem.tif") "pyeongchang"
           (fst (fst (fst (dem_of_raster dem_raster))))
           (snd (fst (fst (dem_of_raster dem_raster))))
           (snd (fst (dem_of_raster dem_raster)))
           (snd (dem_of_raster dem_raster))).
  vm_compute. reflexivity.
Defined.

Lemma read_dem_unknown_area_fails_witness :
  read_dem io_globals dem_world None "seoul" =
    ([EvPrint invalid_area_message], Raise (UnboundLocalError "ds")).
Proof.
  apply (read_dem_unknown_area_fails dem_world "seoul").
  - apply str_in_false. reflexivity.
  - apply str_in_false. reflexivity.
Defined.

Lemma read_dem_preset_by_substring_witness :
  trace (read_dem io_globals dem_world None "chang") = [EvOpenRaster pyeongchang_tif]
  /\ trace (read_dem io_globals dem_world None "") = [EvOpenRaster pyeongchang_tif]
  /\ trace (read_dem io_globals dem_world None "o") = [EvOpenRaster pyeongchang_tif]
  /\ trace (read_dem io_globals dem_world None "kor") = [EvOpenRaster korea_tif]
  /\ In (EvPrint invalid_area_message)
        (trace (read_dem io_globals dem_world None "Korea")).
Proof.
  split; [|split; [|split; [|split]]].
  - apply (proj1 (read_dem_preset_by_substring dem_world "chang")).
    exists "pyeong", "". reflexivity.
  - apply (proj1 (read_dem_preset_by_substring dem_world "")).
    exists "", "pyeongchang". reflexivity.
  - apply (proj1 (read_dem_preset_by_substring dem_world "o")).
    exists "pye", "ngchang". reflexivity.
  - apply (proj1 (proj2 (read_dem_preset_by_substring dem_world "kor"))).
    + exists "", "ea". reflexivity.
    + apply str_in_false. reflexivity.
  - apply (proj2 (proj2 (read_dem_preset_by_substring dem_world "Korea"))).
    split; apply str_in_false; reflexivity.
Defined.

(** With the unbound names supplied, a listing of two files: one row per
    file, the first row of station 100, twelve columns divided by ten. *)
Example read_aws_example :
  read_aws aws_globals aws_world TimeNone "/disk/STORAGE/OBS/AWS/" true =
  ([EvGlob "/aws/201802/28/AWS_MIN_20180228*";
    EvReadCsv "/aws/201802/28/AWS_MIN_201802280600";
    EvReadCsv "/aws/201802/28/AWS_MIN_201802280601"],
   Ok (mk_DataFrame aws_names
         [CInt 201802280600 :: CInt 100
            :: (repeat (CFloat (f64_div (f64_of_Z 25) (f64_of_Z 10))) 12 ++ [CStr "="])%list;
          CInt 201802280600 :: CInt 100
            :: (repeat (CFloat (f64_div (f64_of_Z 40) (f64_of_Z 10))) 12 ++ [CStr "="])%list])).
Proof. vm_compute. reflexivity. Qed.

Lemma read_aws_rescales_twelve_fields_witness :
  exists df,
    outcome (read_aws aws_globals aws_world TimeNone "" true) = Ok df /\
    length aws_scaled_fields = 12%nat /\
    columns df = aws_names /\
    length (values df) = 2%nat.
Proof.
  eexists. split; [vm_compute; reflexivity|].
  destruct (read_aws_rescales_twelve_fields aws_globals aws_world TimeNone "" true _
              ltac:(vm_compute; reflexivity))
    as (Htwelve & _ & names & pattern & Hnames & _ & Hcols & Hrows).
  split; [exact Htwelve|]. split.
  - rewrite Hcols. vm_compute in Hnames. injection Hnames as <-. reflexivity.
  - reflexivity.
Defined.

(** The claim of exactly eleven rescaled fields fails: in the row returned
    for the first file, twelve columns differ from the parsed row. *)
Lemma read_aws_eleven_fields_counterexample :
  exists df out,
    outcome (read_aws aws_globals aws_world TimeNone "" true) = Ok df /\
    nth_error (values df) 0 = Some out /\
    changed_columns (columns df) (aws_row 100 25) out = aws_scaled_fields /\
    length (changed_columns (columns df) (aws_row 100 25) out) <> 11%nat.
Proof.
  eexists. eexists. split; [vm_compute; reflexivity|].
  split; [reflexivity|]. split; [vm_compute; reflexivity|].
  vm_compute. discriminate.
Qed.

Lemma read_aws_one_row_per_file_witness :
  exists df names pattern,
    outcome (read_aws aws_globals aws_world TimeNone "" true) = Ok df /\
    aws_globals !! "names" = Some (PyList names) /\
    outcome (aws_pattern aws_globals) = Ok pattern /\
    List.filter is_read_csv (trace (read_aws aws_globals aws_world TimeNone "" true))
      = map EvReadCsv (np_sort (glob_glob aws_world pattern false)) /\
    Forall2
      (fun file out =>
         exists rows raw i c,
           read_csv_hash aws_world file names = Ok rows /\ In raw rows /\
           aws_row_spec names raw out /\
           index_of "stn" names = Some i /\
           nth_error out i = Some c /\ cell_eq_int c 100 = true)
      (np_sort (glob_glob aws_world pattern false)) (values df).
Proof.
  eexists.
  assert (Hrun : outcome (read_aws aws_globals aws_world TimeNone "" true) = Ok _)
    by (vm_compute; reflexivity).
  destruct (read_aws_one_row_per_file aws_globals aws_world TimeNone "" true _ Hrun)
    as (names & pattern & H).
  exists names, pattern. split; [exact Hrun|exact H].
Defined.

(** The files dated 2017-12-24 and 2017-12-25 with the range
    [2017-12-24, 2017-12-25): only the rows of the first file. *)
Example read_2dvd_rho_example :
  read_2dvd_rho dvd_globals dvd_world
    (TimeSeq [day_2017_12_24; day_2017_12_25]) "/dvd" true =
  ([EvGlob "/dvd/**/2DVD_Dapp_v_rho_201*Deq.txt";
    EvReadCsv dvd_file_24;
    EvPrint ("1 1 " ++ dvd_file_24)],
   Ok [mk_dvd_row 25235130 (f64_of_Z 4) (f64_of_Z 2) (f64_of_Z 3) 25235130;
       mk_dvd_row 25235131 (f64_of_Z 5) (f64_of_Z 2) (f64_of_Z 3) 25235131]).
Proof. vm_compute. reflexivity. Qed.

Lemma read_2dvd_rho_keeps_files_in_range_witness :
  let run := read_2dvd_rho dvd_globals dvd_world
               (TimeSeq [day_2017_12_24; day_2017_12_25]) "/dvd" true in
  In (EvReadCsv dvd_file_24) (trace run) /\
  ~ In (EvReadCsv dvd_file_25) (trace run) /\
  exists table parsed,
    outcome run = Ok table /\
    Forall2 (file_rows dvd_world) [dvd_file_24] parsed /\
    table = List.concat parsed.
Proof.
  cbn zeta.
  assert (Hrun : outcome (read_2dvd_rho dvd_globals dvd_world
                            (TimeSeq [day_2017_12_24; day_2017_12_25]) "/dvd" true)
                 = Ok [mk_dvd_row 25235130 (f64_of_Z 4) (f64_of_Z 2) (f64_of_Z 3) 25235130;
                       mk_dvd_row 25235131 (f64_of_Z 5) (f64_of_Z 2) (f64_of_Z 3) 25235131])
    by (vm_compute; reflexivity).
  destruct (read_2dvd_rho_keeps_files_in_range dvd_globals dvd_world
              day_2017_12_24 day_2017_12_25 "/dvd" _ Hrun) as [Hfiles (parsed & Hrows & Ht)].
  split; [|split].
  - destruct (Hfiles dvd_file_24) as (d & Hd & Hiff).
    + vm_compute. auto.
    + apply (proj2 Hiff). vm_compute in Hd. injection Hd as <-. split; reflexivity.
  - destruct (Hfiles dvd_file_25) as (d & Hd & Hiff).
    + vm_compute. auto.
    + intros Hin. apply (proj1 Hiff) in Hin as [_ Hlt].
      vm_compute in Hd. injection Hd as <-. discriminate Hlt.
  - eexists. exists parsed. split; [exact Hrun|]. split; [exact Hrows|exact Ht].
Defined.

(** With [Dataset] supplied: two rays at 3 and 10 degrees, of which the
    mask keeps the second; a bundle of one ray and two gates. *)
Lemma mxpol_run :
  read_mxpol_rhi_with_hc mxpol_globals mxpol_world "rhi.nc" "hc.mat"
    = ([EvLoadMat "hc.mat"; EvOpenDataset "rhi.nc"], Ok mxpol_radar).
Proof. vm_compute. reflexivity. Qed.

Lemma mxpol_run_reordered :
  read_mxpol_rhi_with_hc mxpol_globals mxpol_world "rhi.nc" "hc_reordered.mat"
    = ([EvLoadMat "hc_reordered.mat"; EvOpenDataset "rhi.nc"],
       Ok mxpol_radar_reordered).
Proof. vm_compute. reflexivity. Qed.

Lemma mxpol_outcome :
  outcome (read_mxpol_rhi_with_hc mxpol_globals mxpol_world "rhi.nc" "hc.mat")
    = Ok mxpol_radar.
Proof. rewrite mxpol_run. reflexivity. Qed.

Example read_mxpol_example :
  exists hcf zdr,
    fields mxpol_radar !! "HC" = Some hcf /\
    data (field_data hcf) = [[f64_nan; f64_of_Z 5]] /\
    fields mxpol_radar !! "ZDR" = Some zdr /\
    data (field_data zdr) = [[f64_sub (f64_of_Z 2) zdr_offset;
                              f64_sub (f64_of_Z 4) zdr_offset]] /\
    elevation_data mxpol_radar = [f64_of_Z 10] /\
    azimuth_data mxpol_radar = [f64_of_Z 355] /\
    time_data mxpol_radar = [f64_of_Z 1000; f64_of_Z 1001].
Proof.
  do 2 eexists. split; [vm_compute; reflexivity|].
  split; [vm_compute; reflexivity|]. split; [vm_compute; reflexivity|].
  repeat split; vm_compute; reflexivity.
Qed.

Example read_mxpol_as_written :
  read_mxpol_rhi_with_hc io_globals mxpol_world "rhi.nc" "hc.mat"
    = ([EvLoadMat "hc.mat"], Raise (NameError "Dataset")).
Proof. vm_compute. reflexivity. Qed.

Lemma read_mxpol_masks_radar_variables_witness :
  elevation_data mxpol_radar = [f64_of_Z 10] /\
  nrays mxpol_radar = length (elevation_data mxpol_radar) /\
  Forall (fun e => f64_gt e (f64_of_Z 5) = true /\ f64_lt e (f64_of_Z 175) = true)
    (elevation_data mxpol_radar).
Proof.
  destruct (read_mxpol_masks_radar_variables mxpol_globals mxpol_world
              "rhi.nc" "hc.mat" mxpol_radar mxpol_outcome)
    as (nc & bundle & Hnc & _ & HEl & Hall & _ & _ & _ & _ & _ & _ & Hn & _).
  split; [vm_compute; reflexivity|]. split; [exact Hn|exact Hall].
Defined.

(** The mask does not reach every field: the returned time still has the
    entry of ray 0, whose elevation is 3 degrees, and a proportion field is
    the bundle's array, to which the mask of the volume does not even
    fit. *)
Lemma read_mxpol_mask_counterexample :
  exists rn,
    outcome (read_mxpol_rhi_with_hc mxpol_globals mxpol_world "rhi.nc" "hc.mat")
      = Ok mxpol_radar /\
    nth_error (nc_Elevation rhi_volume) 0 = Some (f64_of_Z 3) /\
    f64_le (f64_of_Z 3) (f64_of_Z 5) = true /\
    time_data mxpol_radar = nc_Time rhi_volume /\
    time_data mxpol_radar
      <> select (nc_Time rhi_volume) (gate_mask (nc_Elevation rhi_volume)) /\
    length (time_data mxpol_radar) <> length (elevation_data mxpol_radar) /\
    fields mxpol_radar !! "RN" = Some rn /\
    bundle_lookup "RN" hc_bundle = Some (MatArray (field_data rn)) /\
    outcome (rows_where (field_data rn) (gate_mask (nc_Elevation rhi_volume)))
      = Raise IndexError.
Proof.
  eexists. split; [exact mxpol_outcome|].
  split; [reflexivity|]. split; [reflexivity|]. split; [vm_compute; reflexivity|].
  split; [vm_compute; discriminate|]. split; [vm_compute; discriminate|].
  split; [vm_compute; reflexivity|]. split; vm_compute; reflexivity.
Qed.

Lemma hc_bundle_keys :
  Forall (fun k => str_in "_" k = true \/ In k list_str) (map fst hc_bundle).
Proof.
  change (map fst hc_bundle) with
    ["__header__"; "__version__"; "__globals__";
     "AG"; "CR"; "IH"; "LR"; "MH"; "RN"; "RP"; "WS"].
  repeat (apply List.Forall_cons;
          [first [left; reflexivity | right; simpl; tauto]|]).
  apply List.Forall_nil.
Qed.

Lemma hc_bundle_wf : wf_bundle hc_bundle.
Proof.
  unfold wf_bundle, hc_bundle, reserved_items, layer. cbn [app].
  repeat (apply List.Forall_cons;
          [first [exact I | split; [reflexivity|repeat constructor]]|]).
  apply List.Forall_nil.
Qed.

Lemma read_mxpol_hc_nan_where_ag_nan_witness :
  exists hcf,
    fields mxpol_radar !! "HC" = Some hcf /\
    get2 (field_data hcf) 0 0 = Some f64_nan.
Proof.
  destruct (read_mxpol_hc_nan_where_ag_nan mxpol_globals mxpol_world
              "rhi.nc" "hc.mat" mxpol_radar mxpol_outcome)
    as (bundle & ag & hcf & Hb & Hag & Hf & Hnan).
  exists hcf. split; [exact Hf|].
  vm_compute in Hb. injection Hb as <-.
  vm_compute in Hag. injection Hag as <-.
  apply Hnan.
  - split; [reflexivity|repeat constructor].
  - apply hc_bundle_keys.
  - reflexivity.
Defined.

Lemma read_mxpol_hc_argmax_documented_order_witness :
  exists hcf,
    fields mxpol_radar !! "HC" = Some hcf /\
    get2 (field_data hcf) 0 1 = Some (f64_of_Z 5).
Proof.
  destruct (read_mxpol_hc_argmax_documented_order mxpol_globals mxpol_world
              "rhi.nc" "hc.mat" mxpol_radar mxpol_outcome)
    as (bundle & hcf & Hb & Hf & Hmax).
  exists hcf. split; [exact Hf|].
  vm_compute in Hb. injection Hb as <-.
  destruct (Hmax eq_refl hc_bundle_wf) as (layers & ag & Hdoc & Hhd & Hgate).
  apply documented_layers_inv in Hdoc
    as (a0 & a1 & a2 & a3 & a4 & a5 & a6 & a7 & -> & L0 & _).
  injection Hhd as <-. vm_compute in L0. injection L0 as <-.
  destruct (Hgate 0%nat 1%nat (tenths 1) eq_refl) as [_ Hrn].
  apply (Hrn (mk_ndarray2 1 2 [[tenths 8; tenths 9]]) (tenths 9)); try reflexivity.
  intros code a x Hcode Hne Hlook Hx. simpl in Hcode.
  repeat (destruct Hcode as [<-|Hcode];
          [first [congruence
                 | vm_compute in Hlook; injection Hlook as <-;
                   vm_compute in Hx; injection Hx as <-; reflexivity]|]).
  contradiction.
Defined.

(** The claim fails at a gate where 'AG' is NaN, where 'HC' is NaN and no
    index; and for a bundle that iterates its layers in another order:
    with RN stored right after AG, the gate where RN is the largest
    proportion gets 1, not 5. *)
Lemma read_mxpol_hc_argmax_counterexample :
  (exists hcf,
     outcome (read_mxpol_rhi_with_hc mxpol_globals mxpol_world "rhi.nc" "hc.mat")
       = Ok mxpol_radar /\
     habit_keys hc_bundle = list_str /\
     fields mxpol_radar !! "HC" = Some hcf /\
     get2 (field_data hcf) 0 0 = Some f64_nan /\
     forall k : nat, f64_of_Z (Z.of_nat k) <> f64_nan) /\
  (exists hcf,
     outcome (read_mxpol_rhi_with_hc mxpol_globals mxpol_world "rhi.nc"
                "hc_reordered.mat") = Ok mxpol_radar_reordered /\
     fields mxpol_radar_reordered !! "HC" = Some hcf /\
     get2 (field_data hcf) 0 1 = Some (f64_of_Z 1) /\
     f64_of_Z 1 <> f64_of_Z 5 /\
     bundle_lookup "RN" hc_bundle_reordered
       = Some (MatArray (mk_ndarray2 1 2 [[tenths 8; tenths 9]])) /\
     forall code a x,
       In code list_str -> code <> "RN" ->
       bundle_lookup code hc_bundle_reordered = Some (MatArray a) ->
       get2 a 0 1 = Some x -> f64_lt x (tenths 9) = true).
Proof.
  split.
  - eexists. split; [exact mxpol_outcome|]. split; [reflexivity|].
    split; [vm_compute; reflexivity|]. split; [reflexivity|].
    intros k Hk. pose proof (f64_of_Z_not_nan (Z.of_nat k)) as Hn.
    rewrite Hk in Hn. discriminate.
  - eexists. split; [rewrite mxpol_run_reordered; reflexivity|].
    split; [vm_compute; reflexivity|]. split; [vm_compute; reflexivity|].
    split; [vm_compute; discriminate|]. split; [reflexivity|].
    intros code a x Hcode Hne Hlook Hx. simpl in Hcode.
    repeat (destruct Hcode as [<-|Hcode];
            [first [congruence
                   | vm_compute in Hlook; injection Hlook as <-;
                     vm_compute in Hx; injection Hx as <-; reflexivity]|]).
    contradiction.
Qed.
(** * Further properties of the readers *)

(** ** Traces and loops *)

Lemma bind_trace {A B} (c : M A) (k : A -> M B) :
  trace (c ≫= k)
  = (trace c ++ match outcome c with Ok a => trace (k a) | Raise _ => [] end)%list.
Proof.
  rewrite bind_unfold. destruct c as [t [a|e]]; cbn; [reflexivity|].
  rewrite app_nil_r. reflexivity.
Qed.

(** A trace in which no file is read. *)
Lemma bind_reads_nothing {A B} (c : M A) (k : A -> M B) :
  List.filter is_read_csv (trace c) = [] ->
  (forall a, List.filter is_read_csv (trace (k a)) = []) ->
  List.filter is_read_csv (trace (c ≫= k)) = [].
Proof.
  intros Hc Hk. rewrite bind_trace, List.filter_app, Hc.
  destruct (outcome c); [apply Hk|reflexivity].
Qed.

Lemma bind_reads_nothing_Ok {A B} (c : M A) (k : A -> M B) :
  List.filter is_read_csv (trace c) = [] ->
  (forall a, outcome c = Ok a -> List.filter is_read_csv (trace (k a)) = []) ->
  List.filter is_read_csv (trace (c ≫= k)) = [].
Proof.
  intros Hc Hk. rewrite bind_trace, List.filter_app, Hc.
  destruct (outcome c) as [a|]; [apply Hk; reflexivity|reflexivity].
Qed.

Lemma silent_reads_nothing {A} (c : M A) :
  trace c = [] -> List.filter is_read_csv (trace c) = [].
Proof. intros ->. reflexivity. Qed.

Lemma for_each_stops {A B} (f : A -> M B) (pre : list A) (x : A) (post : list A)
    (e : exn) :
  Forall (fun a => exists b, outcome (f a) = Ok b) pre ->
  outcome (f x) = Raise e ->
  outcome (for_each f (pre ++ x :: post)) = Raise e /\
  trace (for_each f (pre ++ x :: post))
  = (List.concat (map (fun a => trace (f a)) pre) ++ trace (f x))%list.
Proof.
  intros Hpre Hx. induction Hpre as [|a pre [b Ha] _ [IHo IHt]];
    cbn [app for_each map List.concat].
  - rewrite bind_trace, Hx, app_nil_r. split; [|reflexivity].
    rewrite bind_unfold. destruct (f x) as [t [v|e']]; cbn in *; congruence.
  - rewrite (bind_outcome_step _ _ b Ha), (bind_trace_Ok _ _ b Ha).
    rewrite bind_trace, IHo, app_nil_r, IHt, app_assoc. split; [|reflexivity].
    rewrite bind_unfold.
    destruct (for_each f (pre ++ x :: post)) as [t [v|e']]; cbn in *; congruence.
Qed.

(** ** Slices of a file name *)

Lemma string_append_assoc (a b c : string) : ((a ++ b) ++ c = a ++ b ++ c)%string.
Proof.
  induction a as [|x a IH]; [reflexivity|].
  change (String x ((a ++ b) ++ c) = String x (a ++ b ++ c)).
  rewrite IH. reflexivity.
Qed.

Lemma string_length_append (a b : string) :
  String.length (a ++ b) = (String.length a + String.length b)%nat.
Proof.
  induction a as [|x a IH]; [reflexivity|].
  change (S (String.length (a ++ b)) = S (String.length a + String.length b)).
  rewrite IH. reflexivity.
Qed.

Lemma substring_skip (pre s : string) (n : nat) :
  String.substring (String.length pre) n (pre ++ s) = String.substring 0 n s.
Proof. induction pre as [|x pre IH]; [reflexivity|exact IH]. Qed.

Lemma substring_take (mid suf : string) :
  String.substring 0 (String.length mid) (mid ++ suf) = mid.
Proof.
  induction mid as [|x mid IH]; [destruct suf; reflexivity|].
  change (String x (String.substring 0 (String.length mid) (mid ++ suf))
          = String x mid).
  rewrite IH. reflexivity.
Qed.

(** [s[-(m+k):-k]] is the part of length m that ends k characters before
    the end of [s], for k > 0. *)
Lemma str_slice_from_end (pre mid suf : string) :
  (0 < String.length suf)%nat ->
  str_slice (pre ++ mid ++ suf)
    (Some (- Z.of_nat (String.length mid + String.length suf)))
    (Some (- Z.of_nat (String.length suf)))
  = mid.
Proof.
  intros Hsuf. unfold str_slice, slice_range, slice_bound.
  rewrite !string_length_append.
  destruct (- Z.of_nat (String.length mid + String.length suf) <? 0) eqn:E1;
    [|apply Z.ltb_ge in E1; lia].
  destruct (- Z.of_nat (String.length suf) <? 0) eqn:E2;
    [|apply Z.ltb_ge in E2; lia].
  replace (Z.to_nat _) with (String.length pre) by lia.
  replace (Z.to_nat _) with (String.length mid) by lia.
  rewrite substring_skip. apply substring_take.
Qed.

(** [os.path.basename] of a directory, a slash and a name without
    slashes is the name. *)
Lemma basename_of_path (dir name : string) :
  str_in "/" name = false -> basename (dir ++ "/" ++ name) = name.
Proof.
  intros Hname. induction dir as [|c dir IH].
  - change (basename (String "/" name) = name).
    cbn [basename]. rewrite Hname. reflexivity.
  - change (basename (String c (dir ++ "/" ++ name)) = name).
    cbn [basename].
    assert (H : str_in "/" (dir ++ "/" ++ name) = true).
    { apply str_in_spec. exists dir, name. reflexivity. }
    rewrite H. exact IH.
Qed.

(** ** float64: the order of the numbers *)

Lemma SFcompare_None (a b : float64) :
  SFcompare a b = None -> f64_isnan a = true \/ f64_isnan b = true.
Proof.
  destruct a as [sa|sa| |sa ma ea], b as [sb|sb| |sb mb eb]; cbn; auto;
    discriminate.
Qed.

Lemma f64_not_le (a b : float64) :
  f64_le a b = false ->
  f64_isnan a = true \/ f64_isnan b = true \/ f64_lt b a = true.
Proof.
  unfold f64_le, f64_lt, SFleb, SFltb. rewrite (SFcompare_antisym a b).
  destruct (SFcompare a b) as [[| |]|] eqn:E; cbn; try discriminate; auto.
  intros _. apply SFcompare_None in E. tauto.
Qed.

(** ** float64: transitivity *)

Lemma lex_compare_refl (a : list Z) : lex_compare a a = Eq.
Proof.
  induction a as [|x a IH]; cbn [lex_compare]; [reflexivity|].
  rewrite Z.compare_refl. exact IH.
Qed.

Lemma lex_compare_eq (a : list Z) : forall b, lex_compare a b = Eq -> a = b.
Proof.
  induction a as [|x a IH]; intros [|y b]; cbn [lex_compare]; try discriminate;
    [reflexivity|].
  destruct (x ?= y) eqn:E; try discriminate.
  apply Z.compare_eq in E. subst y. intros H. f_equal. apply IH. exact H.
Qed.

Lemma lex_compare_lt_trans (a : list Z) :
  forall b c, lex_compare a b = Lt -> lex_compare b c = Lt -> lex_compare a c = Lt.
Proof.
  induction a as [|x a IH]; intros [|y b] [|z c]; cbn [lex_compare];
    try discriminate; try reflexivity.
  destruct (x ?= y) eqn:Exy; try discriminate;
    destruct (y ?= z) eqn:Eyz; try discriminate; intros Hab Hbc.
  - apply Z.compare_eq in Exy, Eyz. subst. rewrite Z.compare_refl.
    eapply IH; eassumption.
  - apply Z.compare_eq in Exy. subst. rewrite Eyz. reflexivity.
  - apply Z.compare_eq in Eyz. subst. rewrite Exy. reflexivity.
  - rewrite (Z.lt_trans x y z Exy Eyz : (x ?= z) = Lt). reflexivity.
Qed.

Lemma lex_compare3 (c x y x' y' : Z) :
  lex_compare [c; x; y] [c; x'; y']
  = match x ?= x' with Eq => y ?= y' | Lt => Lt | Gt => Gt end.
Proof.
  cbn [lex_compare]. rewrite Z.compare_refl.
  destruct (x ?= x'); try reflexivity. destruct (y ?= y'); reflexivity.
Qed.

Lemma SFcompare_key (a b : float64) :
  f64_isnan a = false -> f64_isnan b = false ->
  SFcompare a b = Some (lex_compare (f64_key a) (f64_key b)).
Proof.
  destruct a as [sa|sa| |sa ma ea], b as [sb|sb| |sb mb eb]; try discriminate;
    intros _ _; cbn [SFcompare f64_key];
    try (destruct sa; reflexivity); try (destruct sb; reflexivity);
    try (destruct sa, sb; reflexivity).
  destruct sa, sb; try reflexivity; f_equal; rewrite lex_compare3.
  - rewrite Z.compare_opp, (Z.compare_antisym ea eb).
    destruct (ea ?= eb); reflexivity.
  - destruct (ea ?= eb); reflexivity.
Qed.

Lemma f64_le_numbers (a b : float64) :
  f64_le a b = true -> f64_isnan a = false /\ f64_isnan b = false.
Proof.
  unfold f64_le, SFleb. destruct a, b; cbn; try discriminate; auto.
Qed.

Lemma f64_le_refl (a : float64) : f64_isnan a = false -> f64_le a a = true.
Proof.
  intros Ha. unfold f64_le, SFleb.
  rewrite (SFcompare_key a a Ha Ha), lex_compare_refl. reflexivity.
Qed.

Lemma f64_le_lt_trans (a b c : float64) :
  f64_le a b = true -> f64_lt b c = true -> f64_lt a c = true.
Proof.
  intros Hab Hbc.
  destruct (f64_le_numbers _ _ Hab) as [Ha Hb].
  destruct (f64_lt_not_nan _ _ Hbc) as [_ Hc].
  unfold f64_le, f64_lt, SFleb, SFltb in *.
  rewrite (SFcompare_key _ _ Ha Hb) in Hab.
  rewrite (SFcompare_key _ _ Hb Hc) in Hbc.
  rewrite (SFcompare_key _ _ Ha Hc).
  destruct (lex_compare (f64_key a) (f64_key b)) eqn:Eab; try discriminate;
    destruct (lex_compare (f64_key b) (f64_key c)) eqn:Ebc; try discriminate.
  - apply lex_compare_eq in Eab. rewrite Eab, Ebc. reflexivity.
  - rewrite (lex_compare_lt_trans _ _ _ Eab Ebc). reflexivity.
Qed.

(** ** arg-max: where it settles *)

Lemma argmax_from_spec (rest : list float64) :
  forall (p : list float64) (best : float64) (bi : nat),
    nth_error p bi = Some best ->
    (forall i x, (i < bi)%nat -> nth_error p i = Some x ->
       f64_isnan x = false /\ (f64_isnan best = false -> f64_lt x best = true)) ->
    (f64_isnan best = false -> forall x, In x p -> f64_le x best = true) ->
    is_argmax (p ++ rest) (argmax_from best bi (length p) rest).
Proof.
  induction rest as [|x rest IH]; intros p best bi Hbest Hbefore Hall.
  - rewrite app_nil_r. exists best.
    assert (argmax_from best bi (length p) [] = bi) as ->
      by (cbn; destruct (f64_isnan best); reflexivity).
    auto.
  - assert (Hbi : (bi < length p)%nat)
      by (apply nth_error_Some; rewrite Hbest; discriminate).
    cbn [argmax_from]. destruct (f64_isnan best) eqn:Enan.
    + exists best. split; [rewrite nth_error_app1 by exact Hbi; exact Hbest|].
      split; [|intros Hc; congruence].
      intros i y Hi Hy. rewrite nth_error_app1 in Hy by lia.
      destruct (Hbefore i y Hi Hy) as [Hn _].
      split; [exact Hn|intros Hc; congruence].
    + specialize (Hall eq_refl).
      replace (p ++ x :: rest)%list with ((p ++ [x]) ++ rest)%list
        by (rewrite <- app_assoc; reflexivity).
      replace (S (length p)) with (length (p ++ [x]))
        by (rewrite length_app; cbn; lia).
      destruct (f64_le x best) eqn:Ele; cbn [negb].
      * apply IH.
        -- rewrite nth_error_app1 by exact Hbi. exact Hbest.
        -- intros i y Hi Hy. rewrite nth_error_app1 in Hy by lia.
           destruct (Hbefore i y Hi Hy) as [Hn Hl].
           split; [exact Hn|intros _; apply Hl; reflexivity].
        -- intros _ y Hy. apply in_app_or in Hy as [Hy|[<-|[]]]; auto.
      * apply IH.
        -- rewrite nth_error_app2 by lia. rewrite Nat.sub_diag. reflexivity.
        -- intros i y Hi Hy. rewrite nth_error_app1 in Hy by exact Hi.
           apply nth_error_In in Hy. specialize (Hall y Hy).
           split; [apply (f64_le_numbers _ _ Hall)|].
           intros Hx. apply f64_not_le in Ele as [Ele|[Ele|Ele]]; try congruence.
           eapply f64_le_lt_trans; eassumption.
        -- intros Hx y Hy.
           apply f64_not_le in Ele as [Ele|[Ele|Ele]]; try congruence.
           apply in_app_or in Hy as [Hy|[<-|[]]].
           ++ apply f64_lt_le. eapply f64_le_lt_trans; [apply Hall; exact Hy|exact Ele].
           ++ apply f64_le_refl. exact Hx.
Qed.

(** [np.argmax] on a gate: the first NaN if there is one, else the first
    of the largest values. *)
Lemma argmax_spec (l : list float64) : l <> [] -> is_argmax l (argmax l).
Proof.
  destruct l as [|x rest]; [congruence|]. intros _. cbn [argmax].
  apply (argmax_from_spec rest [x] x 0).
  - reflexivity.
  - intros i y Hi. lia.
  - intros Hx y [<-|[]]. apply f64_le_refl. exact Hx.
Qed.

Lemma is_argmax_bound (l : list float64) (k : nat) :
  is_argmax l k -> (k < length l)%nat.
Proof.
  intros (m & Hk & _). apply nth_error_Some. rewrite Hk. discriminate.
Qed.
(** ** The row that read_aws keeps *)

Lemma filter_first {A} (f : A -> bool) (l : list A) (x : A) (rest : list A) :
  List.filter f l = x :: rest ->
  exists pre post, l = (pre ++ x :: post)%list /\
                   Forall (fun y => f y = false) pre /\ f x = true.
Proof.
  induction l as [|a l IH]; cbn [List.filter]; [discriminate|].
  destruct (f a) eqn:E.
  - intros [= -> _]. exists [], l. auto.
  - intros H. destruct (IH H) as (pre & post & -> & Hpre & Hx).
    exists (a :: pre), post. split; [reflexivity|]. split; [constructor; auto|exact Hx].
Qed.

Lemma divide_columns_names (fields : list string) (d : float64) :
  forall df df',
    divide_columns fields d df = Ok df' ->
    Forall (fun n => In n (columns df)) fields.
Proof.
  unfold divide_columns.
  induction fields as [|s rest IH]; intros df df' H; [constructor|].
  cbn [fold_left] in H.
  destruct (divide_column s d df) as [df1|e] eqn:E1;
    [|rewrite divide_columns_Raise in H; discriminate].
  unfold divide_column in E1.
  destruct (index_of s (columns df)) as [i|] eqn:Ei; [|discriminate].
  destruct (map_result _ _) as [rows|]; [|discriminate].
  injection E1 as <-. constructor.
  - apply index_of_Some in Ei. eapply nth_error_In. exact Ei.
  - exact (IH _ _ H).
Qed.

Lemma station_after_division (names : list string) (i : nat)
    (raw out : list cell) :
  index_of "stn" names = Some i ->
  row_divided names (fun n => existsb (String.eqb n) aws_scaled_fields) ten raw out ->
  at_station i out = at_station i raw.
Proof.
  intros Hi [Hlen Hcells]. unfold at_station.
  destruct (nth_error raw i) as [c|] eqn:Ec.
  - destruct (Hcells i "stn" c (index_of_Some _ _ _ Hi) Ec) as (c' & -> & Hc').
    cbn in Hc'. subst c'. reflexivity.
  - apply nth_error_None in Ec. rewrite <- Hlen in Ec.
    apply nth_error_None in Ec. rewrite Ec. reflexivity.
Qed.

Lemma aws_row_of_first (names : list string) (rows : list (list cell))
    (row : list cell) :
  List.NoDup names ->
  aws_row_of (mk_DataFrame names rows) = Ok row ->
  exists i pre raw post,
    index_of "stn" names = Some i /\
    rows = (pre ++ raw :: post)%list /\
    Forall (fun r => at_station i r = false) pre /\
    at_station i raw = true /\
    aws_row_spec names raw row /\
    Forall (fun n => In n names) aws_scaled_fields.
Proof.
  intros Hnd. unfold aws_row_of.
  destruct (divide_columns _ _ _) as [data|] eqn:Ediv; [|discriminate].
  pose proof (divide_columns_names _ _ _ _ Ediv) as Hfields.
  apply divide_columns_Ok in Ediv as [Hcols Hrows]; cbn [columns values] in *; auto.
  2:{ apply aws_scaled_fields_NoDup. }
  unfold rows_where_eq. rewrite Hcols.
  destruct (index_of "stn" names) as [i|] eqn:Ei; [|discriminate].
  fold (at_station i).
  assert (Hhead : forall r rest,
            List.filter (at_station i) (values data) = r :: rest ->
            exists pre raw post,
              rows = (pre ++ raw :: post)%list /\
              Forall (fun r => at_station i r = false) pre /\
              at_station i raw = true /\ aws_row_spec names raw r).
  { intros r rest Hf.
    destruct (filter_first _ _ _ _ Hf) as (pre' & post' & Hv & Hpre' & Hr).
    rewrite Hv in Hrows.
    apply Forall2_app_inv_r in Hrows as (pre & tail & Hpre & Htail & ->).
    inversion Htail as [|raw ? post ? Hraw Hpost]; subst.
    exists pre, raw, post. split; [reflexivity|]. split; [|split].
    - clear - Hpre Hpre' Ei. induction Hpre as [|a b l l' Hab _ IH]; constructor.
      + inversion Hpre'; subst.
        rewrite <- (station_after_division _ _ _ _ Ei Hab). assumption.
      + apply IH. inversion Hpre'; assumption.
    - rewrite <- (station_after_division _ _ _ _ Ei Hraw). exact Hr.
    - destruct Hraw as [Hlen Hcells]. split; [exact Hlen|]. split.
      + intros j n c Hn Hc. destruct (Hcells j n c Hn Hc) as (c' & Hc' & Hrel).
        exists c'. split; [exact Hc'|]. unfold aws_cell_rel, is_scaled.
        destruct (existsb (String.eqb n) aws_scaled_fields); auto.
      + unfold at_station in Hr.
        destruct (nth_error r i) as [c|] eqn:Ec; [|discriminate].
        exists i, c. auto. }
  unfold values_tolist. cbn [values].
  destruct (existsb (existsb is_str) (values data)).
  - destruct (List.filter (at_station i) (values data)) as [|r rest] eqn:Ef;
      [discriminate|].
    intros [= <-]. destruct (Hhead r rest eq_refl) as (pre & raw & post & ? & ? & ? & ?).
    exists i, pre, raw, post. auto 10.
  - destruct (List.filter (at_station i) (values data)) as [|r rest] eqn:Ef;
      [discriminate|].
    cbn [map]. intros [= <-].
    destruct (Hhead r rest eq_refl) as (pre & raw & post & ? & ? & ? & ?).
    exists i, pre, raw, post.
    do 4 (split; [auto|]). split; [|assumption].
    apply aws_row_spec_upcast. assumption.
Qed.

Lemma read_aws_file_first (g : namespace) (w : World) (file : string)
    (row : list cell) :
  outcome (read_aws_file g w file) = Ok row ->
  exists names i pre raw post,
    g !! "names" = Some (PyList names) /\
    List.NoDup names /\
    index_of "stn" names = Some i /\
    read_csv_hash w file names = Ok (pre ++ raw :: post)%list /\
    Forall (fun r => at_station i r = false) pre /\
    at_station i raw = true /\
    aws_row_spec names raw row /\
    Forall (fun n => In n names) aws_scaled_fields.
Proof.
  rewrite read_aws_file_eq. intros H. pose proof H as H0. bind_inv H0.
  destruct (pd_read_csv_hash_Ok _ _ _ _ Hbind)
    as (names & rows & Hnames & Hnd & Hrows & -> & Htr).
  cbn in H0.
  destruct (aws_row_of_first names rows row Hnd H0)
    as (i & pre & raw & post & Hi & -> & Hpre & Hraw & Hspec & Hf).
  exists names, i, pre, raw, post. auto 10.
Qed.

(** X2. Of the rows of a file, line 68 keeps the first one whose
    station is 100: in every returned row, the parsed row it comes from has
    station 100 and no earlier row of that file has. Later rows of station
    100 are dropped without notice. *)
Theorem read_aws_keeps_first_station_row (g : namespace) (w : World)
    (time : time_arg) (datadir : string) (date_range : bool) (df : DataFrame) :
  outcome (read_aws g w time datadir date_range) = Ok df ->
  exists names pattern,
    g !! "names" = Some (PyList names) /\
    outcome (aws_pattern g) = Ok pattern /\
    Forall2
      (fun file out =>
         exists i pre raw post,
           index_of "stn" names = Some i /\
           read_csv_hash w file names = Ok (pre ++ raw :: post)%list /\
           Forall (fun r => at_station i r = false) pre /\
           at_station i raw = true /\
           aws_row_spec names raw out)
      (np_sort (glob_glob w pattern false)) (values df).
Proof.
  intros H. apply read_aws_Ok in H as (names & pattern & rows & Hn & Hp & Hl & Hdf & _).
  exists names, pattern. split; [exact Hn|]. split; [exact Hp|].
  apply pd_DataFrame_Ok in Hdf as (_ & Hv & _). rewrite Hv.
  generalize rows at 1 as all. intros all. clear Hv.
  induction Hl as [|file row files rows' Hrow _ IH]; cbn [map]; constructor.
  - apply read_aws_file_first in Hrow
      as (names' & i & pre & raw & post & Hn' & _ & Hi & Hr & Hpre & Hraw & Hspec & _).
    assert (names' = names) by congruence. subst names'.
    exists i, pre, raw, post.
    do 4 (split; [assumption|]). apply aws_row_spec_infer. exact Hspec.
  - exact IH.
Qed.

(** X3. The frame that [read_aws] returns is rectangular: its columns
    are the list [names], and every row has one cell per column. If it has
    a row at all, the names are pairwise distinct, and 'stn' and each of
    the twelve divided columns is among them. *)
Theorem read_aws_frame_shape (g : namespace) (w : World)
    (time : time_arg) (datadir : string) (date_range : bool) (df : DataFrame) :
  outcome (read_aws g w time datadir date_range) = Ok df ->
  exists names,
    g !! "names" = Some (PyList names) /\
    columns df = names /\
    Forall (fun out => length out = length names) (values df) /\
    (values df <> [] ->
     List.NoDup names /\
     Forall (fun n => In n names) ("stn" :: aws_scaled_fields)).
Proof.
  intros H. apply read_aws_Ok in H as (names & pattern & rows & Hn & Hp & Hl & Hdf & _).
  exists names. split; [exact Hn|].
  apply pd_DataFrame_Ok in Hdf as (Hc & Hv & Hw). split; [exact Hc|]. split.
  - rewrite Hv. apply List.Forall_map.
    eapply List.Forall_impl; [|exact Hw]. intros r Hr.
    rewrite infer_row_length. exact Hr.
  - intros Hne. rewrite Hv in Hne.
    destruct Hl as [|file row files rows' Hrow _]; [contradiction Hne; reflexivity|].
    apply read_aws_file_first in Hrow
      as (names' & i & pre & raw & post & Hn' & Hnd & Hi & _ & _ & _ & _ & Hf).
    assert (names' = names) by congruence. subst names'.
    split; [exact Hnd|]. constructor; [|exact Hf].
    apply index_of_Some in Hi. eapply nth_error_In. exact Hi.
Qed.

(** X1. With the names that the module leaves unbound supplied: when no
    file matches, [read_aws] returns the empty frame over [names], without
    reading anything. The pattern is built from the globals [aws_dir] and
    [YYYYMMDD] alone, [aws_dir + YYYYMMDD[:6] + '/' + YYYYMMDD[6:8] +
    '/AWS_MIN_' + YYYYMMDD + '*']; the arguments [time] and [datadir] do
    not enter it. *)
Theorem read_aws_empty_listing (g : namespace) (w : World) (time : time_arg)
    (datadir : string) (date_range : bool) (d y : string) (names : list string) :
  io_globals ⊆ g ->
  g !! "aws_dir" = Some (PyStr d) ->
  g !! "YYYYMMDD" = Some (PyStr y) ->
  g !! "names" = Some (PyList names) ->
  g !! "pd" = Some (PyModule pandas) ->
  let pattern := (d ++ str_slice y None (Some 6) ++ "/"
                    ++ str_slice y (Some 6) (Some 8) ++ "/AWS_MIN_" ++ y ++ "*")%string in
  glob_glob w pattern false = [] ->
  read_aws g w time datadir date_range
  = ([EvGlob pattern], Ok (mk_DataFrame names [])).
Proof.
  intros Hg Hdir Hymd Hnames Hpd pattern Hempty.
  unfold read_aws.
  rewrite (module_attr_bound g "np" numpy)
    by (eapply io_globals_bound; [eassumption|reflexivity]).
  rewrite (bind_ret_l tt).
  rewrite (module_attr_bound g "glob" glob_module)
    by (eapply io_globals_bound; [eassumption|reflexivity]).
  rewrite (bind_ret_l tt).
  assert (Hpat : aws_pattern g = ret pattern).
  { unfold aws_pattern, load_global. rewrite Hdir, Hymd.
    rewrite (bind_ret_l (PyStr d)), (bind_ret_l (PyStr y)).
    cbn [py_slice]. rewrite (bind_ret_l (PyStr _)). cbn [py_add].
    repeat (rewrite (bind_ret_l (PyStr _)); cbn [py_slice py_add]).
    unfold pattern. rewrite !string_append_assoc. reflexivity. }
  rewrite Hpat, (bind_ret_l pattern), glob_run, Hempty.
  rewrite (module_attr_bound g "pd" pandas) by exact Hpd.
  unfold load_global. rewrite Hnames. reflexivity.
Qed.

(** ** A file without the station *)

Lemma index_of_In (name : string) (names : list string) :
  In name names -> exists i, index_of name names = Some i.
Proof.
  induction names as [|n names IH]; cbn [In index_of]; [contradiction|].
  intros Hin. destruct (String.eqb_spec n name) as [->|Hne]; [eauto|].
  destruct Hin as [->|Hin]; [contradiction Hne; reflexivity|].
  destruct (IH Hin) as [i ->]. eauto.
Qed.

Lemma map_result_total {A B} (f : A -> result B) (l : list A) :
  Forall (fun x => exists y, f x = Ok y) l -> exists ys, map_result f l = Ok ys.
Proof.
  induction 1 as [|x l [y Hy] _ [ys IH]]; cbn [map_result]; [eauto|].
  rewrite Hy, IH. eauto.
Qed.

Lemma divide_column_numeric (names : list string) (name : string) (df : DataFrame) :
  List.NoDup names -> columns df = names ->
  In name names -> is_scaled name = true ->
  numeric_rows names (values df) ->
  exists df', divide_column name ten df = Ok df' /\ columns df' = names /\
              numeric_rows names (values df').
Proof.
  intros Hnd Hcols Hin Hscaled Hnum.
  destruct (index_of_In _ _ Hin) as [i Hi].
  assert (Hname : nth_error names i = Some name) by (apply index_of_Some; exact Hi).
  assert (Htotal : exists rows,
            map_result (update_nth i (fun c => cell_div c ten)) (values df) = Ok rows).
  { apply map_result_total. eapply List.Forall_impl; [|exact Hnum].
    intros r Hr. unfold update_nth.
    destruct (nth_error r i) as [c|] eqn:Ec; [|eauto].
    pose proof (Hr i name c Hname Hscaled Ec) as Hc.
    destruct c; cbn in Hc |- *; try discriminate; eauto. }
  destruct Htotal as [rows Hrows].
  assert (Hdiv : divide_column name ten df = Ok (mk_DataFrame names rows)).
  { unfold divide_column. rewrite Hcols, Hi, Hrows. reflexivity. }
  exists (mk_DataFrame names rows). split; [exact Hdiv|]. split; [reflexivity|].
  rewrite <- Hcols in Hnd.
  destruct (divide_column_Ok _ _ _ _ Hnd Hdiv) as [_ Hrel].
  rewrite Hcols in Hrel. cbn [values] in *. unfold numeric_rows in *.
  clear Hrows Hdiv. induction Hrel as [|r r' l l' [Hlen Hcells] _ IH];
    [constructor|].
  inversion Hnum as [|? ? Hr Hl]; subst. constructor; [|apply IH; exact Hl].
  intros j n c' Hn Hs Hc'.
  destruct (nth_error r j) as [c|] eqn:Ec.
  - destruct (Hcells j n c Hn Ec) as (c'' & Hc'' & Hrel').
    assert (c'' = c') by congruence. subst c''.
    destruct (String.eqb name n).
    + destruct c; cbn in Hrel'; try discriminate; injection Hrel' as <-; reflexivity.
    + subst c'. eapply Hr; eassumption.
  - apply nth_error_None in Ec. rewrite <- Hlen in Ec.
    apply nth_error_None in Ec. congruence.
Qed.

Lemma divide_columns_numeric (names : list string) (fields : list string) :
  List.NoDup names ->
  Forall (fun n => In n names /\ is_scaled n = true) fields ->
  forall df, columns df = names -> numeric_rows names (values df) ->
  exists df', divide_columns fields ten df = Ok df' /\ columns df' = names.
Proof.
  intros Hnd Hfields. unfold divide_columns.
  induction Hfields as [|n fields [Hin Hs] _ IH]; intros df Hcols Hnum;
    cbn [fold_left].
  - eauto.
  - destruct (divide_column_numeric names n df Hnd Hcols Hin Hs Hnum)
      as (df1 & -> & Hc1 & Hn1).
    apply IH; assumption.
Qed.

Lemma aws_row_of_without_station (names : list string) (rows : list (list cell))
    (i : nat) :
  List.NoDup names ->
  Forall (fun n => In n names) aws_scaled_fields ->
  index_of "stn" names = Some i ->
  numeric_rows names rows ->
  Forall (fun r => at_station i r = false) rows ->
  aws_row_of (mk_DataFrame names rows) = Raise IndexError.
Proof.
  intros Hnd Hfields Hi Hnum Hnone. unfold aws_row_of.
  assert (Hall : Forall (fun n => In n names /\ is_scaled n = true) aws_scaled_fields).
  { rewrite List.Forall_forall in *. intros n Hn. split; [auto|].
    unfold is_scaled. apply existsb_exists. exists n. split; [exact Hn|].
    apply String.eqb_refl. }
  destruct (divide_columns_numeric names _ Hnd Hall (mk_DataFrame names rows)
              eq_refl Hnum) as (data & Hdiv & Hcols).
  rewrite Hdiv.
  apply divide_columns_Ok in Hdiv as [_ Hrows];
    [|apply aws_scaled_fields_NoDup|exact Hnd].
  cbn [columns values] in Hrows.
  unfold rows_where_eq. rewrite Hcols, Hi. fold (at_station i).
  assert (Hempty : List.filter (at_station i) (values data) = []).
  { clear - Hrows Hnone Hi. induction Hrows as [|r r' l l' Hr _ IH];
      [reflexivity|].
    inversion Hnone; subst. cbn [List.filter].
    rewrite (station_after_division _ _ _ _ Hi Hr).
    replace (at_station i r) with false by auto. apply IH. assumption. }
  unfold values_tolist. cbn [values]. rewrite Hempty.
  destruct (existsb _ _); reflexivity.
Qed.

(** X4. With the unbound names supplied: a listed file in which no row
    has station 100 ends the whole call with an IndexError (line 68 takes
    element 0 of an empty list). The files before it have been read, the
    files after it are not, and no partial frame is returned. The same
    holds for a file without rows. *)
Theorem read_aws_file_without_station (g : namespace) (w : World)
    (time : time_arg) (datadir : string) (date_range : bool)
    (d y : string) (names : list string) (i : nat)
    (pre : list string) (file : string) (post : list string)
    (rows : list (list cell)) :
  io_globals ⊆ g ->
  g !! "aws_dir" = Some (PyStr d) ->
  g !! "YYYYMMDD" = Some (PyStr y) ->
  g !! "names" = Some (PyList names) ->
  g !! "pd" = Some (PyModule pandas) ->
  List.NoDup names ->
  Forall (fun n => In n names) aws_scaled_fields ->
  index_of "stn" names = Some i ->
  let pattern := (d ++ str_slice y None (Some 6) ++ "/"
                    ++ str_slice y (Some 6) (Some 8) ++ "/AWS_MIN_" ++ y ++ "*")%string in
  np_sort (glob_glob w pattern false) = (pre ++ file :: post)%list ->
  Forall (fun f => exists row, outcome (read_aws_file g w f) = Ok row) pre ->
  read_csv_hash w file names = Ok rows ->
  numeric_rows names rows ->
  Forall (fun r => at_station i r = false) rows ->
  read_aws g w time datadir date_range
  = (EvGlob pattern :: map EvReadCsv (pre ++ [file]), Raise IndexError).
Proof.
  intros Hg Hdir Hymd Hnames Hpd Hnd Hfields Hi pattern Hfiles Hpre Hrows Hnum Hnone.
  unfold read_aws.
  rewrite (module_attr_bound g "np" numpy)
    by (eapply io_globals_bound; [eassumption|reflexivity]).
  rewrite (bind_ret_l tt).
  rewrite (module_attr_bound g "glob" glob_module)
    by (eapply io_globals_bound; [eassumption|reflexivity]).
  rewrite (bind_ret_l tt).
  assert (Hpat : aws_pattern g = ret pattern).
  { unfold aws_pattern, load_global. rewrite Hdir, Hymd.
    rewrite (bind_ret_l (PyStr d)), (bind_ret_l (PyStr y)).
    cbn [py_slice]. rewrite (bind_ret_l (PyStr _)). cbn [py_add].
    repeat (rewrite (bind_ret_l (PyStr _)); cbn [py_slice py_add]).
    unfold pattern. rewrite !string_append_assoc. reflexivity. }
  rewrite Hpat, (bind_ret_l pattern), glob_run, bind_unfold. cbn [fst snd].
  rewrite Hfiles.
  assert (Hfile : read_aws_file g w file = ([EvReadCsv file], Raise IndexError)).
  { rewrite read_aws_file_eq. unfold pd_read_csv_hash.
    rewrite (module_attr_bound g "pd" pandas) by exact Hpd.
    rewrite (bind_ret_l tt). unfold load_global. rewrite Hnames.
    rewrite (bind_ret_l (PyList names)).
    rewrite (bool_decide_eq_true_2 (NoDup names)) by (apply NoDup_ListNoDup; exact Hnd).
    unfold emit. rewrite !bind_unfold. cbn [fst snd].
    rewrite Hrows. cbn [lift fst snd app].
    change (ret (mk_DataFrame names rows) : M DataFrame)
      with (@nil event, Ok (mk_DataFrame names rows)).
    cbn [fst snd app].
    rewrite (aws_row_of_without_station names rows i Hnd Hfields Hi Hnum Hnone).
    reflexivity. }
  destruct (for_each_stops (read_aws_file g w) pre file post IndexError Hpre)
    as [Hout Htr]; [rewrite Hfile; reflexivity|].
  rewrite bind_unfold.
  destruct (for_each (read_aws_file g w) (pre ++ file :: post)) as [t [v|e]] eqn:E;
    cbn [outcome trace fst snd] in Hout, Htr; [discriminate|].
  injection Hout as ->. cbn [fst snd]. f_equal. f_equal.
  rewrite Htr, Hfile. cbn [trace fst]. rewrite map_app. f_equal.
  clear - Hpre. induction Hpre as [|a pre [row Ha] _ IH]; [reflexivity|].
  cbn [map List.concat].
  apply read_aws_file_Ok in Ha as (? & ? & ? & _ & _ & _ & _ & ->).
  rewrite IH. reflexivity.
Qed.
(** ** The order of file names *)

Lemma ascii_compare_refl (a : ascii) : Ascii.compare a a = Eq.
Proof. unfold Ascii.compare. apply N.compare_refl. Qed.

Lemma ascii_compare_lt_trans (a b c : ascii) :
  Ascii.compare a b = Lt -> Ascii.compare b c = Lt -> Ascii.compare a c = Lt.
Proof.
  unfold Ascii.compare. rewrite !N.compare_lt_iff. apply N.lt_trans.
Qed.

Lemma string_compare_lt_trans (a : string) :
  forall b c, String.compare a b = Lt -> String.compare b c = Lt ->
              String.compare a c = Lt.
Proof.
  induction a as [|x a IH]; intros [|y b] [|z c]; cbn; try congruence.
  destruct (Ascii.compare x y) eqn:Exy; try discriminate;
    destruct (Ascii.compare y z) eqn:Eyz; try discriminate; intros Hab Hbc.
  - apply Ascii.compare_eq_iff in Exy, Eyz. subst.
    rewrite ascii_compare_refl. eapply IH; eassumption.
  - apply Ascii.compare_eq_iff in Exy. subst. rewrite Eyz. reflexivity.
  - apply Ascii.compare_eq_iff in Eyz. subst. rewrite Exy. reflexivity.
  - rewrite (ascii_compare_lt_trans _ _ _ Exy Eyz). reflexivity.
Qed.

Lemma string_leb_trans (a b c : string) :
  String.leb a b = true -> String.leb b c = true -> String.leb a c = true.
Proof.
  unfold String.leb.
  destruct (String.compare a b) eqn:Eab; try discriminate;
    destruct (String.compare b c) eqn:Ebc; try discriminate; intros _ _.
  - apply String.compare_eq_iff in Eab. subst. rewrite Ebc. reflexivity.
  - apply String.compare_eq_iff in Eab. subst. rewrite Ebc. reflexivity.
  - apply String.compare_eq_iff in Ebc. subst. rewrite Eab. reflexivity.
  - rewrite (string_compare_lt_trans _ _ _ Eab Ebc). reflexivity.
Qed.

Lemma string_leb_false (a b : string) :
  String.leb a b = false -> String.leb b a = true.
Proof.
  intros H. destruct (String.leb_total a b) as [H'|H']; congruence.
Qed.

Lemma insert_sorted_comm (x y : string) (l : list string) :
  insert_sorted x (insert_sorted y l) = insert_sorted y (insert_sorted x l).
Proof.
  induction l as [|a l IH]; cbn [insert_sorted].
  - destruct (String.leb x y) eqn:Exy, (String.leb y x) eqn:Eyx; try reflexivity.
    + rewrite (String.leb_antisym _ _ Exy Eyx). reflexivity.
    + apply string_leb_false in Exy. congruence.
  - destruct (String.leb y a) eqn:Eya, (String.leb x a) eqn:Exa;
      cbn [insert_sorted]; rewrite ?Eya, ?Exa.
    + destruct (String.leb x y) eqn:Exy, (String.leb y x) eqn:Eyx;
        rewrite ?Exa, ?Eya; try reflexivity.
      * rewrite (String.leb_antisym _ _ Exy Eyx). reflexivity.
      * apply string_leb_false in Exy. congruence.
    + destruct (String.leb x y) eqn:Exy.
      * rewrite (string_leb_trans _ _ _ Exy Eya) in Exa. discriminate.
      * rewrite ?Exa. reflexivity.
    + destruct (String.leb y x) eqn:Eyx.
      * rewrite (string_leb_trans _ _ _ Eyx Exa) in Eya. discriminate.
      * rewrite ?Eya. reflexivity.
    + rewrite IH. reflexivity.
Qed.

(** [np.sort] does not depend on the order of its input. *)
Lemma np_sort_permutation (l l' : list string) :
  Permutation l l' -> np_sort l = np_sort l'.
Proof.
  unfold np_sort. induction 1 as [|x l l' _ IH|x y l|l l' l'' _ IH1 _ IH2];
    cbn [fold_right].
  - reflexivity.
  - rewrite IH. reflexivity.
  - apply insert_sorted_comm.
  - congruence.
Qed.

Lemma insert_sorted_permutation (x : string) (l : list string) :
  Permutation (insert_sorted x l) (x :: l).
Proof.
  induction l as [|a l IH]; cbn [insert_sorted]; [reflexivity|].
  destruct (String.leb x a); [reflexivity|].
  rewrite IH. apply perm_swap.
Qed.

Lemma np_sort_is_permutation (l : list string) : Permutation (np_sort l) l.
Proof.
  unfold np_sort. induction l as [|x l IH]; cbn [fold_right]; [reflexivity|].
  rewrite insert_sorted_permutation, IH. reflexivity.
Qed.

Lemma insert_sorted_ascending (x : string) (l : list string) :
  ascending l = true -> ascending (insert_sorted x l) = true.
Proof.
  induction l as [|a l IH]; [reflexivity|].
  intros Hl. cbn [insert_sorted]. destruct (String.leb x a) eqn:E.
  - change (String.leb x a && ascending (a :: l) = true). rewrite E. exact Hl.
  - apply string_leb_false in E. destruct l as [|b l].
    + cbn [insert_sorted ascending]. rewrite E. reflexivity.
    + change (String.leb a b && ascending (b :: l) = true) in Hl.
      apply andb_true_iff in Hl as [Hab Hl]. specialize (IH Hl).
      cbn [insert_sorted] in IH |- *. destruct (String.leb x b) eqn:Exb.
      * change (String.leb a x && ascending (x :: b :: l) = true).
        rewrite E. exact IH.
      * change (String.leb a b && ascending (b :: insert_sorted x l) = true).
        rewrite Hab. exact IH.
Qed.

Lemma np_sort_ascending (l : list string) : ascending (np_sort l) = true.
Proof.
  unfold np_sort. induction l as [|x l IH]; cbn [fold_right]; [reflexivity|].
  apply insert_sorted_ascending, IH.
Qed.

(** X5. Both directory readers sort the listing before they use it
    (lines 53 and 105), so nothing depends on the order in which [glob]
    reports the files: with the same files listed in another order,
    [read_aws] and [read_2dvd_rho] show the same events and end in the same
    result or the same exception. The sorted list holds the listed names,
    each as often as listed, in ascending order. *)
Theorem readers_ignore_listing_order (g : namespace) (w : World)
    (listing : string -> bool -> list string) (time : time_arg)
    (datadir : string) (date_range : bool) :
  (forall pattern recursive,
     Permutation (listing pattern recursive) (glob_glob w pattern recursive)) ->
  read_aws g (with_listing w listing) time datadir date_range
    = read_aws g w time datadir date_range /\
  read_2dvd_rho g (with_listing w listing) time datadir date_range
    = read_2dvd_rho g w time datadir date_range /\
  (forall pattern recursive,
     let files := np_sort (glob_glob w pattern recursive) in
     Permutation files (glob_glob w pattern recursive) /\
     ascending files = true).
Proof.
  intros Hperm. split; [|split].
  - unfold read_aws.
    apply bind_ext; intros _. apply bind_ext; intros _.
    apply bind_ext; intros pattern.
    rewrite !glob_run, !bind_unfold. cbn [glob_glob with_listing].
    rewrite (np_sort_permutation _ _ (Hperm pattern false)). reflexivity.
  - unfold read_2dvd_rho.
    apply bind_ext; intros _. apply bind_ext; intros _.
    apply bind_ext; intros _.
    rewrite !glob_run, !bind_unfold. cbn [glob_glob with_listing].
    rewrite (np_sort_permutation _ _ (Hperm (dvd_pattern datadir) true)).
    reflexivity.
  - intros pattern recursive files. split.
    + apply np_sort_is_permutation.
    + apply np_sort_ascending.
Qed.
(** ** read_2dvd_rho: every way through the function *)

Lemma filename_field_as_written (w : World) (x : string) (a b : Z) :
  filename_field io_globals w x a b =
  raise (if numpy_has_int w then NameError "os" else AttributeError "int").
Proof.
  unfold filename_field.
  rewrite (module_attr_bound io_globals "np" numpy) by reflexivity.
  rewrite bind_ret_l. destruct (numpy_has_int w); reflexivity.
Qed.

(** X6. As the module stands, [read_2dvd_rho] never returns a table and
    never reads a file: it lists the directory and then fails. If any file
    is found, line 106 fails on the first of them, with a NameError for
    [os], which the module does not import (or with an AttributeError
    where numpy has no [np.int] any more). If none is found, the call
    fails at [len(time)] when [time] is no sequence, and otherwise with a
    NameError for [pd] on line 138. *)
Theorem read_2dvd_rho_as_written (w : World) (time : time_arg)
    (datadir : string) (date_range : bool) :
  trace (read_2dvd_rho io_globals w time datadir date_range)
  = [EvGlob (dvd_pattern datadir)] /\
  outcome (read_2dvd_rho io_globals w time datadir date_range)
  = match np_sort (glob_glob w (dvd_pattern datadir) true) with
    | _ :: _ =>
        Raise (if numpy_has_int w then NameError "os" else AttributeError "int")
    | [] =>
        match time with
        | TimeSeq _ => Raise (NameError "pd")
        | _ => Raise TypeError
        end
    end.
Proof.
  unfold read_2dvd_rho.
  rewrite !(module_attr_bound io_globals "np" numpy) by reflexivity.
  rewrite (module_attr_bound io_globals "glob" glob_module) by reflexivity.
  rewrite !bind_ret_l, glob_run.
  rewrite bind_unfold. cbn [fst snd].
  destruct (np_sort (glob_glob w (dvd_pattern datadir) true)) as [|x files].
  - cbn [for_each]. rewrite !bind_ret_l. cbn [combine for_each].
    rewrite !bind_ret_l.
    destruct time as [| t | l]; try (split; reflexivity).
    cbn [py_len]. rewrite bind_ret_l.
    destruct (Nat.eqb (length l) 2 && date_range) eqn:E.
    + apply andb_true_iff in E as [E _]. apply Nat.eqb_eq in E.
      destruct l as [|t0 [|t1 [|]]]; try discriminate. split; reflexivity.
    + split; reflexivity.
  - rewrite (for_each_all_raise (fun y => filename_field io_globals w y (-27) (-23)) _
               (x :: files) (fun y => filename_field_as_written w y _ _)).
    split; reflexivity.
Qed.

Lemma read_2dvd_file_trace (g : namespace) (w : World) (size i : nat)
    (file : string) (dt : datetime) (rows : list dvd_row) :
  outcome (read_2dvd_file g w size (i, (file, dt))) = Ok rows ->
  trace (read_2dvd_file g w size (i, (file, dt))) = file_events size (i, file).
Proof.
  unfold read_2dvd_file. intros H.
  step H. rewrite module_attr_silent.
  step H. step H. step H. rewrite module_attr_silent.
  step H. rewrite module_attr_silent.
  step H. step H. reflexivity.
Qed.

Lemma read_2dvd_loop_trace (g : namespace) (w : World) (size : nat)
    (files : list string) (dts : list datetime) :
  length files = length dts ->
  forall (s : nat) (dflist : list (list dvd_row)),
    outcome (for_each (read_2dvd_file g w size)
               (combine (seq s (length files)) (combine files dts))) = Ok dflist ->
    trace (for_each (read_2dvd_file g w size)
             (combine (seq s (length files)) (combine files dts)))
    = flat_map (file_events size) (combine (seq s (length files)) files).
Proof.
  revert dts. induction files as [|x files IH]; intros [|dt dts] Hlen s dflist H;
    try discriminate; cbn [length seq combine for_each flat_map] in *.
  - reflexivity.
  - step H. step H.
    rewrite (read_2dvd_file_trace _ _ _ _ _ _ _ Hstep).
    rewrite (IH dts ltac:(lia) _ _ Hstep0).
    unfold file_events at 2. cbn [app fst snd]. rewrite app_nil_r. reflexivity.
Qed.

(** Everything a successful run of [read_2dvd_rho] went through. *)
Lemma read_2dvd_rho_inv (g : namespace) (w : World) (time : time_arg)
    (datadir : string) (date_range : bool) (table : list dvd_row) :
  outcome (read_2dvd_rho g w time datadir date_range) = Ok table ->
  exists l dts parsed,
    time = TimeSeq l /\
    Forall2 (fun x dt => file_date x = Ok dt)
      (np_sort (glob_glob w (dvd_pattern datadir) true)) dts /\
    Forall2 (file_rows w)
      (selected_files l date_range (np_sort (glob_glob w (dvd_pattern datadir) true)))
      parsed /\
    parsed <> [] /\
    table = List.concat parsed /\
    trace (read_2dvd_rho g w time datadir date_range)
    = EvGlob (dvd_pattern datadir)
      :: flat_map
           (file_events
              (length (selected_files l date_range
                         (np_sort (glob_glob w (dvd_pattern datadir) true)))))
           (combine
              (seq 0 (length (selected_files l date_range
                         (np_sort (glob_glob w (dvd_pattern datadir) true)))))
              (selected_files l date_range
                 (np_sort (glob_glob w (dvd_pattern datadir) true)))).
Proof.
  unfold read_2dvd_rho. intros H.
  step H. step H. step H. rewrite !module_attr_silent.
  rewrite glob_run in *. step H. injection Hstep2 as <-.
  set (files := np_sort (glob_glob w (dvd_pattern datadir) true)) in *.
  step H. rename a2 into yyyy. apply for_each_Ok in Hstep2 as Hy.
  step H. rename a2 into mm. apply for_each_Ok in Hstep3 as Hm.
  step H. rename a2 into dd. apply for_each_Ok in Hstep4 as Hd.
  step H. step H. rename a3 into dts. apply for_each_Ok in Hstep6 as Hdt.
  pose proof (file_dates _ _ _ _ _ _ _ Hy Hm Hd Hdt) as Hdates.
  rewrite !for_each_silent by (intros; apply filename_field_silent).
  rewrite module_attr_silent.
  rewrite (for_each_silent _ (combine _ _))
    by (intros [y [m d]]; apply make_date_silent).
  destruct time as [| t | l]; try discriminate.
  exists l, dts.
  change (py_len (TimeSeq l)) with (ret (length l) : M nat) in *.
  rewrite (bind_ret_l (length l)) in *.
  assert (Hsel : exists sel_dts,
    Forall2 (fun x dt => file_date x = Ok dt) (selected_files l date_range files) sel_dts /\
    (if (length l =? 2)%nat && date_range
     then dt_start ← py_item (TimeSeq l) 0;
          dt_finis ← py_item (TimeSeq l) 1;
          ret (select files (map (in_range dt_start dt_finis) dts),
               select dts (map (in_range dt_start dt_finis) dts))
     else ret (files, dts))
    = ret (selected_files l date_range files, sel_dts)).
  { destruct ((length l =? 2)%nat && date_range) eqn:E.
    - apply andb_true_iff in E as [E ->]. apply Nat.eqb_eq in E.
      destruct l as [|t0 [|t1 [|]]]; try discriminate.
      destruct (select_dated t0 t1 files dts Hdates) as [Hs Hsd].
      eexists. split; [|cbn [py_item nth_error]; rewrite !bind_ret_l, Hs; reflexivity].
      cbn [selected_files]. rewrite <- Hs. exact Hsd.
    - assert (Hall : selected_files l date_range files = files).
      { apply andb_false_iff in E as [E| ->].
        - apply Nat.eqb_neq in E.
          destruct l as [|t0 [|t1 [|]]]; try reflexivity. contradiction E; reflexivity.
        - destruct l as [|t0 [|t1 [|]]]; reflexivity. }
      exists dts. rewrite Hall. split; [exact Hdates|reflexivity]. }
  destruct Hsel as (sel_dts & Hseld & Heq). rewrite Heq in *. clear Heq.
  rewrite (bind_ret_l (_, _)) in *.
  set (sel := selected_files l date_range files) in *.
  step H. rename a3 into dflist.
  destruct (read_2dvd_loop_Ok g w _ _ _ Hseld _ _ Hstep7) as [Hrows _].
  rewrite (read_2dvd_loop_trace g w _ _ _ (Forall2_length _ _ _ Hseld) _ _ Hstep7).
  step H. rewrite module_attr_silent.
  exists dflist. split; [reflexivity|]. split; [exact Hdates|].
  split; [exact Hrows|].
  destruct dflist as [|d0 dflist]; [discriminate|].
  split; [discriminate|]. split; [injection H as <-; reflexivity|].
  cbn. rewrite ?app_nil_r. reflexivity.
Qed.

Lemma read_2dvd_rho_no_sequence (g : namespace) (w : World) (time : time_arg)
    (datadir : string) (date_range : bool) :
  py_len time = raise TypeError ->
  (exists e, outcome (read_2dvd_rho g w time datadir date_range) = Raise e) /\
  List.filter is_read_csv (trace (read_2dvd_rho g w time datadir date_range)) = [].
Proof.
  intros Hlen. split.
  - destruct (outcome (read_2dvd_rho g w time datadir date_range)) as [table|e] eqn:E;
      [|eauto].
    apply read_2dvd_rho_inv in E as (l & _ & _ & -> & _). discriminate.
  - unfold read_2dvd_rho. rewrite Hlen.
    do 3 (apply bind_reads_nothing;
          [apply silent_reads_nothing, module_attr_silent|intros _]).
    apply bind_reads_nothing; [rewrite glob_run; reflexivity|intros files].
    do 3 (apply bind_reads_nothing;
          [apply silent_reads_nothing, for_each_silent;
           intros; apply filename_field_silent|intros ?]).
    apply bind_reads_nothing;
      [apply silent_reads_nothing, module_attr_silent|intros _].
    apply bind_reads_nothing.
    + apply silent_reads_nothing, for_each_silent.
      intros [y [m d]]. apply make_date_silent.
    + intros dts. reflexivity.
Qed.

(** X7. [len(time)] on line 112 needs a sequence: with the default
    [time=None], and with a single datetime, [read_2dvd_rho] lists the
    directory and works out the file dates, but then fails; it never reads
    a file and never returns a table, whatever the namespace, the
    directory and [date_range]. *)
Theorem read_2dvd_rho_default_time_fails (g : namespace) (w : World)
    (datadir : string) (date_range : bool) :
  ((exists e, outcome (read_2dvd_rho g w TimeNone datadir date_range) = Raise e) /\
   List.filter is_read_csv (trace (read_2dvd_rho g w TimeNone datadir date_range)) = [])
  /\
  (forall t,
     (exists e, outcome (read_2dvd_rho g w (TimeScalar t) datadir date_range) = Raise e) /\
     List.filter is_read_csv
       (trace (read_2dvd_rho g w (TimeScalar t) datadir date_range)) = []).
Proof.
  split; [|intros t]; apply read_2dvd_rho_no_sequence; reflexivity.
Qed.

(** X8. Without a range the reader takes every file: when [time] does
    not have exactly two elements, or [date_range] is false, a returning
    call has read every discovered file, in sorted order, and returns the
    rows of all of them; the dates in [time] are not looked at. *)
Theorem read_2dvd_rho_reads_all_without_range (g : namespace) (w : World)
    (l : list datetime) (datadir : string) (date_range : bool)
    (table : list dvd_row) :
  length l <> 2%nat \/ date_range = false ->
  outcome (read_2dvd_rho g w (TimeSeq l) datadir date_range) = Ok table ->
  let files := np_sort (glob_glob w (dvd_pattern datadir) true) in
  List.filter is_read_csv (trace (read_2dvd_rho g w (TimeSeq l) datadir date_range))
    = map EvReadCsv files /\
  exists parsed, Forall2 (file_rows w) files parsed /\ table = List.concat parsed.
Proof.
  intros Hno H files.
  destruct (read_2dvd_rho_inv _ _ _ _ _ _ H)
    as (l' & dts & parsed & [= <-] & _ & Hrows & _ & Ht & Htr).
  fold files in Hrows, Htr.
  assert (Hall : selected_files l date_range files = files).
  { destruct Hno as [Hlen| ->].
    - destruct l as [|t0 [|t1 [|]]]; try reflexivity. contradiction Hlen; reflexivity.
    - destruct l as [|t0 [|t1 [|]]]; reflexivity. }
  rewrite Hall in *. split; [|exists parsed; auto].
  rewrite Htr. cbn [List.filter is_read_csv].
  generalize (length files) at 1. generalize 0%nat. clear.
  induction files as [|x files IH]; intros s n; [destruct (seq s _); reflexivity|].
  destruct (length (x :: files)) eqn:E; [discriminate|]. injection E as E.
  cbn [seq combine flat_map file_events fst snd app List.filter is_read_csv map].
  f_equal. rewrite <- E. apply IH.
Qed.

(** X9. [pd.concat] on line 138 refuses an empty list: a call of
    [read_2dvd_rho] that returns has read at least one of the discovered
    files, and with [pd] supplied an empty listing ends in a ValueError,
    not in an empty table. *)
Theorem read_2dvd_rho_needs_a_file (g : namespace) (w : World)
    (time : time_arg) (datadir : string) (date_range : bool) :
  (forall table,
     outcome (read_2dvd_rho g w time datadir date_range) = Ok table ->
     exists file,
       In file (np_sort (glob_glob w (dvd_pattern datadir) true)) /\
       In (EvReadCsv file) (trace (read_2dvd_rho g w time datadir date_range))) /\
  (forall l,
     io_globals ⊆ g -> g !! "pd" = Some (PyModule pandas) ->
     glob_glob w (dvd_pattern datadir) true = [] ->
     read_2dvd_rho g w (TimeSeq l) datadir date_range
     = ([EvGlob (dvd_pattern datadir)], Raise ValueError)).
Proof.
  split.
  - intros table H.
    destruct (read_2dvd_rho_inv _ _ _ _ _ _ H)
      as (l & dts & parsed & -> & _ & Hrows & Hne & _ & Htr).
    set (files := np_sort (glob_glob w (dvd_pattern datadir) true)) in *.
    destruct (selected_files l date_range files) as [|file sel] eqn:E.
    + inversion Hrows; subst. contradiction Hne; reflexivity.
    + exists file. split.
      * assert (Hin : In file (selected_files l date_range files))
          by (rewrite E; left; reflexivity).
        revert Hin. clear. unfold selected_files.
        destruct l as [|t0 [|t1 [|]]]; try tauto.
        destruct date_range; [|tauto]. intros Hin.
        apply filter_In in Hin. tauto.
      * rewrite Htr. right. left. reflexivity.
  - intros l Hg Hpd Hempty.
    assert (Hnp : forall attr, module_attr g "np" numpy attr = ret tt).
    { intros attr. apply module_attr_bound.
      eapply io_globals_bound; [eassumption|reflexivity]. }
    unfold read_2dvd_rho.
    rewrite !Hnp, !(bind_ret_l tt).
    rewrite (module_attr_bound g "glob" glob_module)
      by (eapply io_globals_bound; [eassumption|reflexivity]).
    rewrite (bind_ret_l tt), glob_run, Hempty.
    rewrite (module_attr_bound g "pd" pandas) by exact Hpd.
    rewrite bind_unfold. cbn [fst snd].
    unfold np_sort. cbn [fold_right for_each].
    rewrite !bind_ret_l. cbn [combine for_each]. rewrite !bind_ret_l.
    cbn [py_len]. rewrite bind_ret_l.
    destruct (Nat.eqb (length l) 2 && date_range) eqn:E.
    + apply andb_true_iff in E as [E _]. apply Nat.eqb_eq in E.
      destruct l as [|t0 [|t1 [|]]]; try discriminate. reflexivity.
    + reflexivity.
Qed.

(** X10. What a returning call of [read_2dvd_rho] shows: one directory
    listing with the recursive pattern under [datadir], and then, for each
    selected file in sorted order, the read of the file followed by the
    progress line ['k n file'], k counting from 1 and n being the number
    of selected files. Nothing else is read or printed. *)
Theorem read_2dvd_rho_progress_lines (g : namespace) (w : World)
    (time : time_arg) (datadir : string) (date_range : bool)
    (table : list dvd_row) :
  outcome (read_2dvd_rho g w time datadir date_range) = Ok table ->
  exists l,
    time = TimeSeq l /\
    let selected :=
      selected_files l date_range
        (np_sort (glob_glob w (datadir ++ "/**/2DVD_Dapp_v_rho_201*Deq.txt") true)) in
    trace (read_2dvd_rho g w time datadir date_range)
    = EvGlob (datadir ++ "/**/2DVD_Dapp_v_rho_201*Deq.txt")
      :: flat_map
           (fun '(i, file) =>
              [EvReadCsv file;
               EvPrint (string_of_nat (i + 1) ++ " "
                        ++ string_of_nat (length selected) ++ " " ++ file)])
           (combine (seq 0 (length selected)) selected).
Proof.
  intros H.
  destruct (read_2dvd_rho_inv _ _ _ _ _ _ H)
    as (l & dts & parsed & -> & _ & _ & _ & _ & Htr).
  exists l. split; [reflexivity|]. cbn zeta. rewrite Htr.
  unfold dvd_pattern. f_equal. apply flat_map_ext. intros [i file]. reflexivity.
Qed.

(** X11. Lines 106-108 read the date at fixed places counted from the
    end of the base name: for a path whose last component ends in four
    characters, two characters, two characters and then nineteen more
    characters (as in [..._YYYYMMDD_0000_2359__Deq.txt]), the file date is
    [datetime(int(yyyy), int(mm), int(dd))], whatever the directory and
    whatever precedes the date in the name. *)
Theorem read_2dvd_rho_file_date (dir pre yyyy mm dd suf : string) :
  str_in "/" (pre ++ yyyy ++ mm ++ dd ++ suf) = false ->
  String.length yyyy = 4%nat -> String.length mm = 2%nat ->
  String.length dd = 2%nat -> String.length suf = 19%nat ->
  file_date (dir ++ "/" ++ pre ++ yyyy ++ mm ++ dd ++ suf)
  = match py_int yyyy with
    | Raise e => Raise e
    | Ok y =>
        match py_int mm with
        | Raise e => Raise e
        | Ok m =>
            match py_int dd with
            | Raise e => Raise e
            | Ok d => datetime_date y m d
            end
        end
    end.
Proof.
  intros Hname Hy Hm Hd Hs. unfold file_date.
  rewrite (basename_of_path _ _ Hname).
  assert (E1 : str_slice (pre ++ yyyy ++ mm ++ dd ++ suf) (Some (-27)) (Some (-23)) = yyyy).
  { pose proof (str_slice_from_end pre yyyy (mm ++ dd ++ suf)) as H.
    rewrite !string_length_append, Hy, Hm, Hd, Hs in H. apply H. cbn. lia. }
  assert (E2 : str_slice (pre ++ yyyy ++ mm ++ dd ++ suf) (Some (-23)) (Some (-21)) = mm).
  { pose proof (str_slice_from_end (pre ++ yyyy) mm (dd ++ suf)) as H.
    rewrite !string_length_append, Hm, Hd, Hs, string_append_assoc in H.
    apply H. cbn. lia. }
  assert (E3 : str_slice (pre ++ yyyy ++ mm ++ dd ++ suf) (Some (-21)) (Some (-19)) = dd).
  { pose proof (str_slice_from_end (pre ++ yyyy ++ mm) dd suf) as H.
    rewrite Hd, Hs, !string_append_assoc in H.
    apply H. lia. }
  rewrite E1, E2, E3. reflexivity.
Qed.

(** ** Dates and times of the 2DVD files *)

(** The count of days follows the calendar: it is zero at the epoch, and
    the first of a month follows the last day of the month before. *)
Lemma days_from_civil_epoch : days_from_civil 1970 1 1 = 0.
Proof. reflexivity. Qed.

Lemma days_from_civil_next_day (y m d : Z) :
  days_from_civil y m (d + 1) = days_from_civil y m d + 1.
Proof. unfold days_from_civil. lia. Qed.

Lemma days_from_civil_next_month (y m : Z) :
  1 <= m <= 12 ->
  days_from_civil (if m =? 12 then y + 1 else y) (if m =? 12 then 1 else m + 1) 1
  = days_from_civil y m (days_in_month y m) + 1.
Proof.
  intros Hm.
  assert (Hcases : m = 1 \/ m = 2 \/ m = 3 \/ m = 4 \/ m = 5 \/ m = 6 \/ m = 7
                   \/ m = 8 \/ m = 9 \/ m = 10 \/ m = 11 \/ m = 12) by lia.
  unfold days_from_civil, days_in_month, is_leap.
  repeat destruct Hcases as [->|Hcases]; try subst m;
    cbn -[Z.div Z.modulo Z.mul Z.add Z.sub];
    repeat match goal with
           | |- context [Zpos ?a + Zpos ?b] =>
               let v := eval vm_compute in (Zpos a + Zpos b) in
               change (Zpos a + Zpos b) with v
           end;
    cbn -[Z.div Z.modulo Z.mul Z.add Z.sub];
    try (Z.to_euclidean_division_equations; lia).
  destruct (Z.eqb_spec (y mod 4) 0), (Z.eqb_spec (y mod 100) 0),
    (Z.eqb_spec (y mod 400) 0); cbn [andb orb negb];
    Z.to_euclidean_division_equations; lia.
Qed.

Lemma date_bounds (y m d : Z) :
  1678 <= y <= 2261 -> 1 <= m <= 12 -> 1 <= d <= 31 ->
  -106700 <= days_from_civil y m d <= 106700.
Proof.
  intros Hy Hm Hd. unfold days_from_civil.
  destruct (m <=? 2) eqn:E; [apply Z.leb_le in E | apply Z.leb_gt in E];
  Z.to_euclidean_division_equations; lia.
Qed.

Lemma hhmm_hour_check :
  forallb (fun h => f64_trunc (f64_div (f64_of_Z h) (f64_of_Z 100)) =? h / 100)
    (map Z.of_nat (seq 0 (Z.to_nat 10000))) = true.
Proof. vm_compute. reflexivity. Qed.

(** [np.int_(hhmm / 100)] is the integer quotient for every four-digit
    value. *)
Lemma hhmm_hour (h : Z) :
  0 <= h < 10000 ->
  f64_trunc (f64_div (f64_of_Z h) (f64_of_Z 100)) = h / 100.
Proof.
  intros Hh. apply Z.eqb_eq.
  apply (proj1 (forallb_forall _ _) hhmm_hour_check).
  apply in_map_iff. exists (Z.to_nat h). split; [lia|].
  apply in_seq. lia.
Qed.

Lemma days_in_month_bound (y m : Z) : days_in_month y m <= 31.
Proof.
  unfold days_in_month.
  repeat match goal with
         | |- context [match ?x with _ => _ end] => destruct x
         end; lia.
Qed.

(** X12. The time stamp of a row (lines 126-131). For a file dated
    [datetime(y, m, d)] with y between 1678 and 2261, and a row whose
    [hhmm] lies between 0 and 9999, [jultime] is midnight of the file date
    plus [hhmm // 100] hours plus [hhmm % 100] minutes; [jultime_minute] is
    the same value, and VEL, AREA and Deq are the row's own. Nothing
    checks that the minutes stay below 60 or the hours below 24: such rows
    carry over into the next hour or day. *)
Theorem read_2dvd_rho_timestamp (y m d : Z) (dt : datetime) (r : dvd_record) :
  datetime_date y m d = Ok dt ->
  1678 <= y <= 2261 ->
  0 <= rec_hhmm r < 10000 ->
  let midnight := days_from_civil y m d * 1440 in
  let jultime := midnight + rec_hhmm r / 100 * 60 + rec_hhmm r mod 100 in
  dvd_derive dt r
  = Ok (mk_dvd_row jultime (rec_VEL r) (rec_AREA r) (rec_Deq r) jultime).
Proof.
  intros Hdt Hy Hh midnight jultime. unfold datetime_date in Hdt.
  destruct ((1 <=? y) && (y <=? 9999) && (1 <=? m) && (m <=? 12)
            && (1 <=? d) && (d <=? days_in_month y m)) eqn:Evalid; [|discriminate].
  injection Hdt as <-.
  rewrite !andb_true_iff, !Z.leb_le in Evalid.
  pose proof (days_in_month_bound y m) as Hdim.
  assert (Hm : 1 <= m <= 12) by lia. assert (Hd : 1 <= d <= 31) by lia.
  unfold dvd_derive. cbn [dt_year dt_month dt_day].
  rewrite (hhmm_hour _ Hh). unfold to_datetime. fold midnight. fold jultime.
  pose proof (date_bounds _ _ _ Hy Hm Hd) as Hb.
  assert (Hq : 0 <= rec_hhmm r / 100 < 100)
    by (Z.to_euclidean_division_equations; lia).
  assert (Hr : 0 <= rec_hhmm r mod 100 < 100)
    by (apply Z.mod_pos_bound; lia).
  assert (Hall : in_int64 (midnight * ns_per_minute)
                 && in_int64 (rec_hhmm r / 100 * 60 * ns_per_minute)
                 && in_int64 (rec_hhmm r mod 100 * ns_per_minute)
                 && in_int64 ((midnight + rec_hhmm r / 100 * 60) * ns_per_minute)
                 && in_int64 (jultime * ns_per_minute) = true).
  { unfold in_int64, ns_per_minute, jultime, midnight.
    change (2 ^ 63) with 9223372036854775808.
    rewrite !andb_true_iff, !Z.ltb_lt. lia. }
  rewrite Hall. reflexivity.
Qed.

(** X24. The dates of all discovered files are worked out before the
    first file is read, and before the range is looked at (lines 106-109):
    a single discovered file whose name does not carry a date at the
    expected place makes the whole call fail without reading any file,
    also when [time] would have left that file out. *)
Theorem read_2dvd_rho_malformed_name (g : namespace) (w : World)
    (time : time_arg) (datadir : string) (date_range : bool)
    (file : string) (e : exn) :
  In file (np_sort (glob_glob w (dvd_pattern datadir) true)) ->
  file_date file = Raise e ->
  (exists e', outcome (read_2dvd_rho g w time datadir date_range) = Raise e') /\
  List.filter is_read_csv (trace (read_2dvd_rho g w time datadir date_range)) = [].
Proof.
  intros Hin Hdate. split.
  - destruct (outcome (read_2dvd_rho g w time datadir date_range)) as [table|e'] eqn:E;
      [|eauto].
    apply read_2dvd_rho_inv in E as (l & dts & parsed & _ & Hdates & _).
    destruct (Forall2_In_l _ _ _ _ Hdates Hin) as (d & _ & Hd). congruence.
  - unfold read_2dvd_rho.
    do 3 (apply bind_reads_nothing;
          [apply silent_reads_nothing, module_attr_silent|intros _]).
    apply bind_reads_nothing_Ok; [rewrite glob_run; reflexivity|].
    intros files Hfiles. rewrite glob_run in Hfiles. injection Hfiles as <-.
    apply bind_reads_nothing_Ok;
      [apply silent_reads_nothing, for_each_silent; intros; apply filename_field_silent|].
    intros yyyy Hy. apply for_each_Ok in Hy.
    apply bind_reads_nothing_Ok;
      [apply silent_reads_nothing, for_each_silent; intros; apply filename_field_silent|].
    intros mm Hm. apply for_each_Ok in Hm.
    apply bind_reads_nothing_Ok;
      [apply silent_reads_nothing, for_each_silent; intros; apply filename_field_silent|].
    intros dd Hd. apply for_each_Ok in Hd.
    apply bind_reads_nothing;
      [apply silent_reads_nothing, module_attr_silent|intros _].
    apply bind_reads_nothing_Ok.
    + apply silent_reads_nothing, for_each_silent.
      intros [y [m d]]. apply make_date_silent.
    + intros dts Hdts. apply for_each_Ok in Hdts.
      pose proof (file_dates _ _ _ _ _ _ _ Hy Hm Hd Hdts) as Hdates.
      destruct (Forall2_In_l _ _ _ _ Hdates Hin) as (d & _ & Hok). congruence.
Qed.

Lemma dvd_derive_Ok (dt : datetime) (r : dvd_record) (row : dvd_row) :
  dvd_derive dt r = Ok row ->
  row_VEL row = rec_VEL r /\ row_AREA row = rec_AREA r /\
  row_Deq row = rec_Deq r /\ row_jultime_minute row = row_jultime row.
Proof.
  unfold dvd_derive. destruct (to_datetime _ _ _ _ _); [|discriminate].
  intros [= <-]. auto.
Qed.

Lemma file_rows_records (w : World) (files : list string)
    (parsed : list (list dvd_row)) :
  Forall2 (file_rows w) files parsed ->
  exists records,
    Forall2 (fun file recs => read_csv_2dvd w file = Ok recs) files records /\
    Forall2 (fun r row =>
               row_VEL row = rec_VEL r /\ row_AREA row = rec_AREA r /\
               row_Deq row = rec_Deq r /\
               row_jultime_minute row = row_jultime row)
      (List.concat records) (List.concat parsed).
Proof.
  induction 1 as [|file rows files parsed Hfile _ IH].
  - exists []. split; constructor.
  - destruct IH as (records & Hr & Ht).
    destruct Hfile as (d & recs & _ & Hrecs & Hderive).
    exists (recs :: records).
    split; [constructor; assumption|]. cbn [List.concat].
    apply Forall2_app; [|exact Ht].
    apply map_result_Ok in Hderive.
    eapply Forall2_impl; [exact Hderive|].
    intros r row Hrow. eapply dvd_derive_Ok. exact Hrow.
Qed.

(** X25. The table that [read_2dvd_rho] returns has one row for every
    record of every selected file, in the order of the sorted files and of
    the records in them; each row keeps the record's VEL, AREA and Deq, and
    its two time columns hold the same value. No record is dropped and no
    sorting across files takes place. *)
Theorem read_2dvd_rho_rows_follow_records (g : namespace) (w : World)
    (time : time_arg) (datadir : string) (date_range : bool)
    (table : list dvd_row) :
  outcome (read_2dvd_rho g w time datadir date_range) = Ok table ->
  exists l records,
    time = TimeSeq l /\
    Forall2 (fun file recs => read_csv_2dvd w file = Ok recs)
      (selected_files l date_range
         (np_sort (glob_glob w (dvd_pattern datadir) true)))
      records /\
    Forall2 (fun r row =>
               row_VEL row = rec_VEL r /\ row_AREA row = rec_AREA r /\
               row_Deq row = rec_Deq r /\
               row_jultime_minute row = row_jultime row)
      (List.concat records) table.
Proof.
  intros H.
  destruct (read_2dvd_rho_inv _ _ _ _ _ _ H)
    as (l & dts & parsed & -> & _ & Hrows & _ & -> & _).
  exists l.
  destruct (file_rows_records _ _ _ Hrows) as (records & Hr & Ht).
  exists records. auto.
Qed.

(** ** The events of read_mxpol_rhi_with_hc *)

Lemma bool_index_silent {A} (a : list A) (mask : list bool) :
  trace (bool_index a mask) = [].
Proof. unfold bool_index. destruct (Nat.eqb _ _); reflexivity. Qed.

Lemma bundle_item_silent (b : mat_bundle) (key : string) :
  trace (bundle_item b key) = [].
Proof. unfold bundle_item. destruct (bundle_lookup key b); reflexivity. Qed.

Lemma array_shape_silent (v : mat_value) : trace (array_shape v) = [].
Proof. destruct v; reflexivity. Qed.

Lemma as_array_silent (v : mat_value) : trace (as_array v) = [].
Proof. destruct v; reflexivity. Qed.

Lemma load_local_silent {A} (name : string) (v : option A) :
  trace (load_local name v) = [].
Proof. destruct v; reflexivity. Qed.

Lemma np_dstack_silent (layers : list (ndarray2 float64)) (a : ndarray2 float64) :
  trace (np_dstack layers a) = [].
Proof. unfold np_dstack. destruct (forallb _ _); reflexivity. Qed.

Lemma rows_where_silent (a : ndarray2 float64) (mask : list bool) :
  trace (rows_where a mask) = [].
Proof. unfold rows_where. destruct (Nat.eqb _ _); reflexivity. Qed.

Lemma most_probable_habit_silent (layers : list (ndarray2 float64)) :
  trace (most_probable_habit layers) = [].
Proof. destruct layers as [|a [|b rest]]; reflexivity. Qed.

Ltac silent :=
  repeat first
    [ reflexivity
    | apply module_attr_silent
    | apply load_global_silent
    | apply lift_silent
    | apply bool_index_silent
    | apply bundle_item_silent
    | apply array_shape_silent
    | apply as_array_silent
    | apply load_local_silent
    | apply np_dstack_silent
    | apply rows_where_silent
    | apply most_probable_habit_silent
    | apply bind_silent; [|intros ?] ].

Lemma hc_stack_step_silent (g : namespace) (b : mat_bundle) (stack : hc_stack)
    (i : string) :
  trace (hc_stack_step g b stack i) = [].
Proof.
  unfold hc_stack_step.
  destruct (str_in "_" i); [reflexivity|]. destruct (str_in i "AG"); silent.
Qed.

Lemma hc_stack_loop_silent (g : namespace) (b : mat_bundle) (keys : list string) :
  forall stack, trace (hc_stack_loop g b stack keys) = [].
Proof.
  induction keys as [|k keys IH]; intros stack; cbn [hc_stack_loop]; [reflexivity|].
  apply bind_silent; [apply hc_stack_step_silent|]. intros s. apply IH.
Qed.

Lemma add_proportion_fields_silent (b : mat_bundle) (names : list (string * string)) :
  forall r, trace (add_proportion_fields b r names) = [].
Proof.
  induction names as [|[code std] names IH]; intros r;
    cbn [add_proportion_fields]; [reflexivity|].
  apply bind_silent; [apply bundle_item_silent|]. intros v.
  apply bind_silent; [apply array_shape_silent|]. intros s.
  apply bind_silent; [apply as_array_silent|]. intros a.
  apply bind_silent; [apply lift_silent|]. intros r'. apply IH.
Qed.

Lemma Dataset_trace (g : namespace) (w : World) (path : string) :
  trace (Dataset g w path) = [] \/ trace (Dataset g w path) = [EvOpenDataset path].
Proof.
  unfold Dataset, load_global. destruct (g !! "Dataset") as [cls|]; [|left; reflexivity].
  rewrite bind_ret_l.
  destruct cls as [| |name| | |]; try (left; reflexivity).
  destruct (String.eqb_spec name "netCDF4.Dataset") as [->|Hne].
  - right. rewrite bind_trace. cbn. destruct (open_dataset w path); reflexivity.
  - left.
    repeat (destruct name as [|[[] [] [] [] [] [] [] []] name]; try reflexivity;
            try (exfalso; apply Hne; reflexivity)).
Qed.

Lemma Dataset_Ok_trace (g : namespace) (w : World) (path : string) (nc : ncfile) :
  outcome (Dataset g w path) = Ok nc -> trace (Dataset g w path) = [EvOpenDataset path].
Proof.
  unfold Dataset, load_global. destruct (g !! "Dataset") as [cls|]; [|discriminate].
  rewrite bind_ret_l.
  destruct cls as [| |name| | |]; try discriminate.
  destruct (String.eqb_spec name "netCDF4.Dataset") as [->|Hne].
  - intros _. rewrite bind_trace. cbn. destruct (open_dataset w path); reflexivity.
  - intros H. exfalso.
    repeat (destruct name as [|[[] [] [] [] [] [] [] []] name]; try discriminate H;
            try (apply Hne; reflexivity)).
Qed.

(** After the two files are open nothing more is read or printed. *)
Lemma read_mxpol_trace (g : namespace) (w : World) (rhi hc : string) :
  trace (read_mxpol_rhi_with_hc g w rhi hc)
  = match outcome (module_attr g "scipy" scipy "io") with
    | Raise _ => []
    | Ok _ =>
        EvLoadMat hc ::
        match loadmat w hc with
        | Raise _ => []
        | Ok _ => trace (Dataset g w rhi)
        end
    end.
Proof.
  unfold read_mxpol_rhi_with_hc.
  rewrite bind_trace, module_attr_silent. cbn [app].
  destruct (outcome (module_attr g "scipy" scipy "io")); [|reflexivity].
  rewrite bind_trace. cbn [emit trace outcome fst snd app]. f_equal.
  rewrite bind_trace, lift_silent. cbn [app lift outcome snd].
  destruct (loadmat w hc) as [bundle|]; [|reflexivity].
  rewrite bind_trace.
  match goal with
  | |- (_ ++ ?t)%list = _ => assert (Hrest : t = []); [|rewrite Hrest; apply app_nil_r]
  end.
  destruct (outcome (Dataset g w rhi)) as [nc|]; [|reflexivity].
  apply bind_silent; [apply module_attr_silent|]. intros _.
  apply bind_silent; [apply bool_index_silent|]. intros El.
  apply bind_silent; [apply module_attr_silent|]. intros _.
  apply bind_silent; [apply bundle_item_silent|]. intros ag.
  apply bind_silent; [apply array_shape_silent|]. intros shape.
  apply bind_silent; [apply hc_stack_loop_silent|]. intros stack.
  apply bind_silent; [apply module_attr_silent|]. intros _.
  apply bind_silent; [destruct (numpy_has_float_ w); reflexivity|]. intros _.
  apply bind_silent; [apply module_attr_silent|]. intros _.
  apply bind_silent; [apply load_local_silent|]. intros layers.
  apply bind_silent; [apply most_probable_habit_silent|]. intros HC.
  apply bind_silent; [apply add_proportion_fields_silent|]. intros r1.
  apply bind_silent; [apply lift_silent|]. intros r2.
  apply bind_silent; [apply rows_where_silent|]. intros ZDR.
  apply bind_silent; [apply rows_where_silent|]. intros Z.
  apply bind_silent; [apply rows_where_silent|]. intros KDP.
  apply bind_silent; [apply lift_silent|]. intros r3.
  apply bind_silent; [apply lift_silent|]. intros r4.
  apply bind_silent; [apply lift_silent|]. intros r5.
  apply bind_silent; [apply module_attr_silent|]. intros _.
  apply bind_silent; [apply bool_index_silent|]. intros az.
  apply bind_silent; [destruct az; reflexivity|]. intros first.
  apply bind_silent; [apply module_attr_silent|]. intros _.
  reflexivity.
Qed.

(** X14. [read_mxpol_rhi_with_hc] touches the classification file first
    and the RHI file second, each at most once, and nothing else: it never
    prints, lists a directory or reads another file, whether it returns or
    fails. When it returns it has opened both. *)
Theorem read_mxpol_reads_two_files (g : namespace) (w : World)
    (rhi hc : string) :
  let run := read_mxpol_rhi_with_hc g w rhi hc in
  (trace run = [] \/ trace run = [EvLoadMat hc]
   \/ trace run = [EvLoadMat hc; EvOpenDataset rhi]) /\
  (forall r, outcome run = Ok r -> trace run = [EvLoadMat hc; EvOpenDataset rhi]).
Proof.
  cbn zeta. split.
  - rewrite read_mxpol_trace.
    destruct (outcome (module_attr g "scipy" scipy "io")); [|auto].
    destruct (loadmat w hc); [|auto].
    destruct (Dataset_trace g w rhi) as [-> | ->]; auto.
  - intros r H. rewrite read_mxpol_trace.
    unfold read_mxpol_rhi_with_hc in H.
    step_as H u Hu. rewrite Hu. step H. step_as H bundle Hb.
    cbn [lift outcome snd] in Hb. rewrite Hb.
    step_as H nc Hnc. rewrite (Dataset_Ok_trace _ _ _ _ Hnc). reflexivity.
Qed.

(** X13. As the module stands, [read_mxpol_rhi_with_hc] never returns a
    radar: [Dataset] is not imported, so after the classification file is
    loaded line 169 raises a NameError, and the RHI file is never opened.
    A classification file that fails to load fails the call with its own
    exception. *)
Theorem read_mxpol_name_error (w : World) (rhi hc : string) :
  read_mxpol_rhi_with_hc io_globals w rhi hc
  = ([EvLoadMat hc],
     match loadmat w hc with
     | Ok _ => Raise (NameError "Dataset")
     | Raise e => Raise e
     end).
Proof.
  unfold read_mxpol_rhi_with_hc.
  rewrite (module_attr_bound io_globals "scipy" scipy) by reflexivity.
  rewrite (bind_ret_l tt). unfold emit. rewrite bind_unfold. cbn [fst snd].
  destruct (loadmat w hc) as [bundle|e]; reflexivity.
Qed.

(** ** The radar object that read_mxpol_rhi_with_hc builds *)

(** A second account of a successful run, with the shapes, the azimuth
    and the metadata. *)
Lemma read_mxpol_inv (g : namespace) (w : World) (rhi hc : string) (r : radar) :
  outcome (read_mxpol_rhi_with_hc g w rhi hc) = Ok r ->
  exists bundle nc ag layers HC r1 ZDR ZH KDP first rest,
    loadmat w hc = Ok bundle /\ open_dataset w rhi = Ok nc /\
    bundle_lookup "AG" bundle = Some (MatArray ag) /\
    outcome (hc_stack_loop g bundle None (map fst bundle)) = Ok (Some layers) /\
    outcome (most_probable_habit layers) = Ok HC /\
    outcome (add_proportion_fields bundle
               (make_empty_rhi_radar (shape1 ag) (shape0 ag) 1)
               (combine list_str list_standard)) = Ok r1 /\
    outcome (rows_where (transpose (nc_Zdr nc)) (gate_mask (nc_Elevation nc))) = Ok ZDR /\
    outcome (rows_where (transpose (nc_Zh nc)) (gate_mask (nc_Elevation nc))) = Ok ZH /\
    outcome (rows_where (transpose (nc_Kdp nc)) (gate_mask (nc_Elevation nc))) = Ok KDP /\
    fields r =
      <["ZHH" := mk_field ZH "dBZ" "horizontal reflectivity" (-9999) "ZHH"]>
      (<["ZDR" := mk_field (map2d (fun v => f64_sub v zdr_offset) ZDR) "dB"
                    "differential reflectivity" (-9999) "ZDR"]>
      (<["KDP" := mk_field KDP "deg/km" "differential phase shift" (-9999) "KDP"]>
      (<["HC" := mk_field HC "-" hc_long_name (-9999) "Hydrometeor classification"]>
         (fields r1)))) /\
    nrays r = shape0 ag /\ ngates r = shape1 ag /\
    (shape0 HC, shape1 HC) = (shape0 ag, shape1 ag) /\
    (shape0 KDP, shape1 KDP) = (shape0 ag, shape1 ag) /\
    (shape0 ZDR, shape1 ZDR) = (shape0 ag, shape1 ag) /\
    (shape0 ZH, shape1 ZH) = (shape0 ag, shape1 ag) /\
    length (nc_Azimuth nc) = length (nc_Elevation nc) /\
    select (nc_Azimuth nc) (gate_mask (nc_Elevation nc)) = first :: rest /\
    elevation_data r = select (nc_Elevation nc) (gate_mask (nc_Elevation nc)) /\
    azimuth_data r =
      (if f64_lt first (f64_of_Z 0)
       then map (fun a => f64_add a (f64_of_Z 360)) (first :: rest)
       else first :: rest) /\
    fixed_angle_data r = azimuth_data r /\
    range_data r = nc_Range nc /\
    time_data r = nc_Time nc /\
    time_units r = "seconds since 1970-01-01T00:00:00Z" /\
    longitude_data r = [nc_Longitude nc] /\
    latitude_data r = [nc_Latitude nc] /\
    altitude_data r = [nc_Altitude nc] /\
    instrument_name r = "MXPol".
Proof.
  unfold read_mxpol_rhi_with_hc. intros H.
  step H. step H. step_as H bundle Hbundle. step_as H nc Hnc.
  apply Dataset_Ok in Hnc.
  step H. step_as H El HEl. apply bool_index_Ok in HEl as [_ ->].
  step H. step_as H agv Hag. step_as H shape Hshape.
  unfold bundle_item in Hag.
  destruct (bundle_lookup "AG" bundle) as [v|] eqn:Elook; [|discriminate].
  injection Hag as <-. destruct v as [ag|]; [|discriminate].
  injection Hshape as <-. cbn [fst snd] in H.
  step_as H stack Hstack. step H. step H. step H.
  step_as H layers Hlayers. destruct stack as [layers'|]; [|discriminate].
  injection Hlayers as <-.
  step_as H HC HHC. step_as H r1 Hr1. step_as H r2 Hr2.
  step_as H ZDR HZDR. step_as H ZH HZ. step_as H KDP HKDP.
  step_as H r3 Hr3. step_as H r4 Hr4. step_as H r5 Hr5.
  step H. step_as H az Haz. apply bool_index_Ok in Haz as [Hazlen ->].
  step_as H first Hfirst. step H. injection H as <-.
  destruct (select (nc_Azimuth nc) (gate_mask (nc_Elevation nc)))
    as [|az0 rest] eqn:Eaz; [discriminate|].
  injection Hfirst as <-.
  destruct (add_proportion_fields_Ok _ _ _ _ Hr1) as (Hn1 & Hg1 & _ & _).
  cbn [make_empty_rhi_radar nrays ngates] in Hn1, Hg1.
  rewrite Nat.mul_1_r in Hn1.
  apply add_field_Ok in Hr2 as (Hf2 & Hn2 & Hg2 & Hs2 & Ht2).
  apply add_field_Ok in Hr3 as (Hf3 & Hn3 & Hg3 & Hs3 & Ht3).
  apply add_field_Ok in Hr4 as (Hf4 & Hn4 & Hg4 & Hs4 & Ht4).
  apply add_field_Ok in Hr5 as (Hf5 & Hn5 & Hg5 & Hs5 & Ht5).
  cbn [field_data map2d shape0 shape1] in Hs2, Hs3, Hs4, Hs5, Ht2, Ht3, Ht4, Ht5.
  exists bundle, nc, ag, layers', HC, r1, ZDR, ZH, KDP, az0, rest.
  cbn [fields nrays ngates range_data elevation_data azimuth_data
       fixed_angle_data time_data time_units longitude_data latitude_data
       altitude_data instrument_name].
  rewrite Hf5, Hf4, Hf3, Hf2.
  repeat (split; [first [assumption | reflexivity | congruence]|]).
  split; [rewrite Hazlen; unfold gate_mask; apply length_map|].
  repeat (split; [first [assumption | reflexivity | congruence]|]).
  reflexivity.
Qed.

Lemma add_proportion_fields_shapes (b : mat_bundle) (names : list (string * string)) :
  forall (r r' : radar) (k : string) (f : field),
    outcome (add_proportion_fields b r names) = Ok r' ->
    fields r' !! k = Some f ->
    fields r !! k = Some f \/
    (In k (map fst names) /\
     bundle_lookup k b = Some (MatArray (field_data f)) /\
     shape0 (field_data f) = nrays r /\ shape1 (field_data f) = ngates r).
Proof.
  induction names as [|[code std] names IH]; intros r r' k f H Hk;
    cbn [add_proportion_fields] in H.
  - injection H as <-. left. exact Hk.
  - unfold bundle_item in H.
    destruct (bundle_lookup code b) as [v|] eqn:Ev; [|discriminate].
    rewrite (bind_ret_l v) in H.
    destruct v as [a|]; [|discriminate]. cbn [array_shape as_array] in H.
    rewrite (bind_ret_l (shape0 a, shape1 a)), (bind_ret_l a), lift_bind in H.
    destruct (add_field r code _ true) as [r1|] eqn:E1; [|discriminate].
    apply add_field_Ok in E1 as (Hf & Hr & Hg & Hs0 & Hs1).
    cbn [field_data] in Hs0, Hs1.
    destruct (IH r1 r' k f H Hk) as [Hold|(Hin & Hb & H0 & H1)].
    + rewrite Hf in Hold. destruct (String.eqb_spec code k) as [->|Hne].
      * rewrite lookup_insert_eq in Hold. injection Hold as <-.
        right. cbn [map fst field_data].
        split; [left; reflexivity|]. split; [exact Ev|]. split; assumption.
      * rewrite lookup_insert_ne in Hold by exact Hne. left. exact Hold.
    + right. cbn [map fst]. split; [right; exact Hin|].
      split; [exact Hb|]. split; congruence.
Qed.

(** X20. The azimuth is corrected as a whole, by the sign of its first
    selected value alone (line 241): if that value is negative, 360 is
    added to every selected azimuth, also to those that are not negative;
    if it is not, nothing is added, also not to later negative values. The
    fixed angle is the same array. *)
Theorem read_mxpol_azimuth_shift (g : namespace) (w : World)
    (rhi hc : string) (r : radar) :
  outcome (read_mxpol_rhi_with_hc g w rhi hc) = Ok r ->
  exists nc first rest,
    open_dataset w rhi = Ok nc /\
    select (nc_Azimuth nc) (gate_mask (nc_Elevation nc)) = first :: rest /\
    (f64_lt first (f64_of_Z 0) = true ->
     azimuth_data r = map (fun a => f64_add a (f64_of_Z 360)) (first :: rest)) /\
    (f64_lt first (f64_of_Z 0) = false -> azimuth_data r = first :: rest) /\
    fixed_angle_data r = azimuth_data r.
Proof.
  intros H.
  destruct (read_mxpol_inv _ _ _ _ _ H)
    as (bundle & nc & ag & layers & HC & r1 & ZDR & ZH & KDP & first & rest
        & _ & Hnc & _ & _ & _ & _ & _ & _ & _ & _ & _ & _ & _ & _ & _ & _ & _
        & Hsel & _ & Haz & Hfix & _).
  exists nc, first, rest. split; [exact Hnc|]. split; [exact Hsel|].
  rewrite Haz. split; [intros ->; reflexivity|].
  split; [intros ->; reflexivity|]. rewrite Hfix, Haz. reflexivity.
Qed.

(** X19. A volume without a ray between 5 and 175 degrees is refused:
    [azimuth[0]] on line 241 needs a selected ray. Whenever the call
    returns, the volume has an elevation strictly between 5 and 175
    degrees and the radar object has at least one ray. *)
Theorem read_mxpol_needs_a_ray (g : namespace) (w : World)
    (rhi hc : string) (r : radar) :
  outcome (read_mxpol_rhi_with_hc g w rhi hc) = Ok r ->
  exists nc e,
    open_dataset w rhi = Ok nc /\
    In e (nc_Elevation nc) /\
    f64_gt e (f64_of_Z 5) = true /\ f64_lt e (f64_of_Z 175) = true /\
    In e (elevation_data r) /\ (0 < nrays r)%nat.
Proof.
  intros H.
  destruct (read_mxpol_inv _ _ _ _ _ H)
    as (bundle & nc & ag & layers & HC & r1 & ZDR & ZH & KDP & first & rest
        & _ & Hnc & _ & _ & _ & _ & _ & _ & HKDP & _ & Hn & _ & _ & HsK & _ & _
        & Hlen & Hsel & HEl & _).
  assert (Hne : length (select (nc_Elevation nc) (gate_mask (nc_Elevation nc)))
                = S (length rest)).
  { rewrite (select_length _ (nc_Azimuth nc) (gate_mask (nc_Elevation nc))).
    - rewrite Hsel. reflexivity.
    - unfold gate_mask. rewrite length_map. reflexivity.
    - rewrite Hlen. unfold gate_mask. rewrite length_map. reflexivity. }
  destruct (select (nc_Elevation nc) (gate_mask (nc_Elevation nc)))
    as [|e els] eqn:Esel; [discriminate|].
  exists nc, e. split; [exact Hnc|].
  pose proof (select_masked (nc_Elevation nc)) as Hmask. rewrite Esel in Hmask.
  inversion Hmask as [|? ? [Hgt Hlt] _]; subst.
  assert (Hin : In e (nc_Elevation nc)).
  { assert (Hsub : forall (l : list float64) (m : list bool) x,
              In x (select l m) -> In x l).
    { induction l as [|y l IH]; intros [|b m] x Hx; cbn in Hx; try contradiction.
      destruct b; [destruct Hx as [->|Hx]; [left; reflexivity|]|];
        right; eapply IH; exact Hx. }
    apply (Hsub _ (gate_mask (nc_Elevation nc))). rewrite Esel. left. reflexivity. }
  split; [exact Hin|]. split; [exact Hgt|]. split; [exact Hlt|].
  split; [rewrite HEl; left; reflexivity|].
  apply rows_where_Ok in HKDP as (_ & _ & Hs0 & _).
  injection HsK as HsK0 _. rewrite Hn, <- HsK0, Hs0.
  assert (Hk : length (select (data (transpose (nc_Kdp nc))) (gate_mask (nc_Elevation nc)))
               = length (select (nc_Elevation nc) (gate_mask (nc_Elevation nc)))).
  { apply select_length; [|unfold gate_mask; rewrite length_map; reflexivity].
    pose proof H as H'. apply read_mxpol_Ok in H'
      as (? & nc' & ? & ? & ? & ? & ? & ? & KDP' & _ & Hnc' & _ & _ & _ & _ & _ & _ & HK' & _).
    assert (nc' = nc) by congruence. subst nc'.
    apply rows_where_Ok in HK' as (Hshape & _). cbn [transpose shape0] in Hshape.
    rewrite transpose_rows. exact Hshape. }
  rewrite Hk, Esel. cbn. lia.
Qed.

(** X21. The place, the range and the labels of the radar object
    (lines 238-249): the range is the file's [Range] as it is, without the
    ray mask; longitude, latitude and altitude are one-element arrays
    holding the file's global attributes; the time unit is the epoch
    string and the instrument name is 'MXPol'. *)
Theorem read_mxpol_metadata (g : namespace) (w : World)
    (rhi hc : string) (r : radar) :
  outcome (read_mxpol_rhi_with_hc g w rhi hc) = Ok r ->
  exists nc,
    open_dataset w rhi = Ok nc /\
    range_data r = nc_Range nc /\
    longitude_data r = [nc_Longitude nc] /\
    latitude_data r = [nc_Latitude nc] /\
    altitude_data r = [nc_Altitude nc] /\
    time_units r = "seconds since 1970-01-01T00:00:00Z" /\
    instrument_name r = "MXPol".
Proof.
  intros H.
  destruct (read_mxpol_inv _ _ _ _ _ H)
    as (bundle & nc & ag & layers & HC & r1 & ZDR & ZH & KDP & first & rest
        & _ & Hnc & _ & _ & _ & _ & _ & _ & _ & _ & _ & _ & _ & _ & _ & _ & _
        & _ & _ & _ & _ & Hrange & _ & Hunits & Hlon & Hlat & Halt & Hname).
  exists nc. auto 10.
Qed.

(** X18. The fields of the returned radar object are exactly twelve:
    the eight proportions, 'HC', 'KDP', 'ZDR' and 'ZHH'. Each of them has
    the declared shape of the radar, one row per ray and one column per
    gate, and that shape is the shape of the 'AG' array of the bundle: the
    call returns only if the classification was made for exactly the rays
    that the mask selects and for the gates of the volume. *)
Theorem read_mxpol_fields (g : namespace) (w : World)
    (rhi hc : string) (r : radar) :
  outcome (read_mxpol_rhi_with_hc g w rhi hc) = Ok r ->
  (forall k, is_Some (fields r !! k)
             <-> In k (list_str ++ ["HC"; "KDP"; "ZDR"; "ZHH"])%list) /\
  (forall k f, fields r !! k = Some f ->
     shape0 (field_data f) = nrays r /\ shape1 (field_data f) = ngates r) /\
  exists bundle nc ag,
    loadmat w hc = Ok bundle /\ open_dataset w rhi = Ok nc /\
    bundle_lookup "AG" bundle = Some (MatArray ag) /\
    nrays r = shape0 ag /\ ngates r = shape1 ag /\
    nrays r = length (elevation_data r) /\
    ngates r = shape0 (nc_Zdr nc) /\ ngates r = shape0 (nc_Zh nc) /\
    ngates r = shape0 (nc_Kdp nc).
Proof.
  intros H.
  destruct (read_mxpol_inv _ _ _ _ _ H)
    as (bundle & nc & ag & layers & HC & r1 & ZDR & ZH & KDP & first & rest
        & Hb & Hnc & Hag & _ & _ & Hr1 & HZDR & HZH & HKDP & Hf & Hn & Hg
        & HsH & HsK & HsD & HsZ & Hlen & Hsel & HEl & _).
  injection HsH as HsH0 HsH1. injection HsK as HsK0 HsK1.
  injection HsD as HsD0 HsD1. injection HsZ as HsZ0 HsZ1.
  pose proof (add_proportion_fields_Ok _ _ _ _ Hr1) as (_ & _ & Hother & Hcodes).
  assert (Hnd : List.NoDup (map fst (combine list_str list_standard))).
  { cbn. repeat constructor; cbn; intuition discriminate. }
  specialize (Hcodes Hnd).
  change (map fst (combine list_str list_standard)) with list_str in Hother, Hcodes.
  split; [|split].
  - intros k. rewrite Hf. split.
    + intros [f Hk].
      destruct (String.eqb_spec k "ZHH") as [->|N1]; [cbn; tauto|].
      destruct (String.eqb_spec k "ZDR") as [->|N2]; [cbn; tauto|].
      destruct (String.eqb_spec k "KDP") as [->|N3]; [cbn; tauto|].
      destruct (String.eqb_spec k "HC") as [->|N4]; [cbn; tauto|].
      rewrite !lookup_insert_ne in Hk by congruence.
      apply in_or_app. left.
      destruct (in_dec String.string_dec k list_str) as [Hin|Hnot]; [exact Hin|].
      rewrite (Hother k Hnot) in Hk. cbn in Hk. rewrite lookup_empty in Hk.
      discriminate.
    + intros Hin. apply in_app_or in Hin as [Hin|Hin].
      * rewrite List.Forall_forall in Hcodes.
        destruct (Hcodes k Hin) as (f & a & Hk & _).
        rewrite !lookup_insert_ne
          by (intros <-; cbn in Hin; intuition discriminate).
        eauto.
      * cbn in Hin.
        destruct Hin as [<-|[<-|[<-|[<-|[]]]]];
          rewrite ?lookup_insert_eq, ?(lookup_insert_ne _ _ _ _) by discriminate;
          rewrite ?lookup_insert_eq; eauto.
  - intros k f Hk. rewrite Hf in Hk. rewrite Hn, Hg.
    destruct (String.eqb_spec k "ZHH") as [->|N1].
    { rewrite lookup_insert_eq in Hk. injection Hk as <-. cbn [field_data]. auto. }
    rewrite lookup_insert_ne in Hk by congruence.
    destruct (String.eqb_spec k "ZDR") as [->|N2].
    { rewrite lookup_insert_eq in Hk. injection Hk as <-.
      cbn [field_data map2d shape0 shape1]. auto. }
    rewrite lookup_insert_ne in Hk by congruence.
    destruct (String.eqb_spec k "KDP") as [->|N3].
    { rewrite lookup_insert_eq in Hk. injection Hk as <-. cbn [field_data]. auto. }
    rewrite lookup_insert_ne in Hk by congruence.
    destruct (String.eqb_spec k "HC") as [->|N4].
    { rewrite lookup_insert_eq in Hk. injection Hk as <-. cbn [field_data]. auto. }
    rewrite lookup_insert_ne in Hk by congruence.
    destruct (add_proportion_fields_shapes _ _ _ _ k f Hr1 Hk)
      as [Hold|(_ & _ & H0 & H1)].
    + cbn in Hold. rewrite lookup_empty in Hold. discriminate.
    + cbn [make_empty_rhi_radar nrays ngates] in H0, H1.
      rewrite Nat.mul_1_r in H0. auto.
  - exists bundle, nc, ag. repeat (split; [assumption|]).
    apply rows_where_Ok in HZDR as (_ & _ & _ & HD1).
    apply rows_where_Ok in HZH as (_ & _ & _ & HZ1).
    apply rows_where_Ok in HKDP as (HK & HKd & HK0 & HK1).
    cbn [transpose shape0 shape1] in HD1, HZ1, HK1, HK.
    split; [|split; [congruence|split; congruence]].
    rewrite Hn, <- HsK0, HK0, HEl.
    apply select_length; [|unfold gate_mask; rewrite length_map; reflexivity].
    rewrite transpose_rows. exact HK.
Qed.

(** ** The bundle that read_mxpol_rhi_with_hc accepts *)

Lemma hc_stack_step_size (g : namespace) (b : mat_bundle) (stack stack' : hc_stack)
    (k : string) :
  outcome (hc_stack_step g b stack k) = Ok stack' ->
  (stack_size stack' <= stack_size stack + (if str_in "_" k then 0 else 1))%nat.
Proof.
  unfold hc_stack_step. destruct (str_in "_" k).
  - intros [= <-]. lia.
  - destruct (str_in k "AG").
    + intros H. step H. step_as H v Hv. step_as H arr Ha. injection H as <-.
      cbn. lia.
    + intros H. step H. step_as H layers Hl. step_as H v Hv. step_as H arr Ha.
      step_as H stacked Hs. injection H as <-.
      destruct stack as [layers'|]; [|discriminate]. injection Hl as ->.
      unfold np_dstack in Hs. destruct (forallb _ _); [|discriminate].
      injection Hs as <-. cbn. rewrite length_app. cbn. lia.
Qed.

Lemma hc_stack_loop_size (g : namespace) (b : mat_bundle) (keys : list string) :
  forall stack stack',
    outcome (hc_stack_loop g b stack keys) = Ok stack' ->
    (stack_size stack' <= stack_size stack
       + length (List.filter (fun k => negb (str_in "_" k)) keys))%nat.
Proof.
  induction keys as [|k keys IH]; intros stack stack' H; cbn [hc_stack_loop] in H.
  - injection H as <-. cbn. lia.
  - step_as H s1 Hs1. apply hc_stack_step_size in Hs1. apply IH in H.
    cbn [List.filter]. destruct (str_in "_" k); cbn [negb length] in *; lia.
Qed.

Lemma hc_stack_loop_first (g : namespace) (b : mat_bundle) (k : string)
    (keys : list string) (stack' : hc_stack) :
  str_in "_" k = false ->
  outcome (hc_stack_loop g b None (k :: keys)) = Ok stack' ->
  str_in k "AG" = true.
Proof.
  intros Hk H. cbn [hc_stack_loop] in H. step_as H s1 Hs1.
  unfold hc_stack_step in Hs1. rewrite Hk in Hs1.
  destruct (str_in k "AG"); [reflexivity|].
  step Hs1. step_as Hs1 layers Hl. discriminate.
Qed.

Lemma habit_keys_plain (b : mat_bundle) :
  Forall (fun k => str_in "_" k = false) (habit_keys b).
Proof.
  unfold habit_keys. apply List.Forall_forall. intros k Hk.
  apply filter_In in Hk as [_ Hk]. apply negb_true_iff in Hk. exact Hk.
Qed.

Lemma documented_habit_keys (b : mat_bundle) :
  Forall (fun k => str_in "_" k = true \/ In k list_str) (map fst b) ->
  List.NoDup (map fst b) ->
  Forall (fun code => exists v, bundle_lookup code b = Some v) list_str ->
  Permutation (habit_keys b) list_str.
Proof.
  intros Hkeys Hnd Hcodes.
  apply Permutation.NoDup_Permutation.
  - unfold habit_keys. apply List.NoDup_filter. exact Hnd.
  - repeat constructor; cbn; intuition discriminate.
  - intros k. unfold habit_keys. rewrite filter_In. split.
    + intros [Hin Hplain]. apply negb_true_iff in Hplain.
      rewrite List.Forall_forall in Hkeys.
      destruct (Hkeys k Hin) as [Hu|Hc]; [congruence|exact Hc].
    + intros Hin. rewrite List.Forall_forall in Hcodes.
      destruct (Hcodes k Hin) as (v & Hv). split.
      * apply bundle_lookup_In in Hv.
        change k with (fst (k, v)). apply in_map. exact Hv.
      * cbn in Hin. intuition (subst; reflexivity).
Qed.

Lemma code_in_AG (k : string) :
  In k list_str -> str_in k "AG" = true -> k = "AG".
Proof.
  cbn. intros Hin Hk.
  intuition (subst; try reflexivity; vm_compute in Hk; discriminate).
Qed.

(** X15. What the classification bundle has to look like for the call
    to return: it holds an array under each of the eight codes, each of
    the radar's shape (a missing code is a KeyError on line 200, not a
    silently shorter stack). If moreover the keys of the bundle are the
    habit codes and reserved keys, each once, then 'AG' is the first of the
    codes in the bundle's order and the other seven follow it in some
    order: with another code first, line 185 uses [HC3d_proportion] before
    it is assigned. *)
Theorem read_mxpol_bundle_requirements (g : namespace) (w : World)
    (rhi hc : string) (r : radar) :
  outcome (read_mxpol_rhi_with_hc g w rhi hc) = Ok r ->
  exists bundle,
    loadmat w hc = Ok bundle /\
    Forall (fun code =>
              exists a, bundle_lookup code bundle = Some (MatArray a) /\
                        shape0 a = nrays r /\ shape1 a = ngates r)
      list_str /\
    (Forall (fun k => str_in "_" k = true \/ In k list_str) (map fst bundle) ->
     List.NoDup (map fst bundle) ->
     exists rest,
       habit_keys bundle = "AG" :: rest /\
       Permutation rest ["CR"; "IH"; "LR"; "MH"; "RN"; "RP"; "WS"]).
Proof.
  intros H.
  destruct (read_mxpol_inv _ _ _ _ _ H)
    as (bundle & nc & ag & layers & HC & r1 & ZDR & ZH & KDP & first & rest
        & Hb & _ & Hag & Hloop & HHC & Hr1 & _ & _ & _ & _ & Hn & Hg & _).
  exists bundle. split; [exact Hb|].
  assert (Hcodes :
    Forall (fun code =>
              exists a, bundle_lookup code bundle = Some (MatArray a) /\
                        shape0 a = nrays r /\ shape1 a = ngates r)
      list_str).
  { pose proof (add_proportion_fields_Ok _ _ _ _ Hr1) as (_ & _ & _ & Hcodes).
    assert (Hnd : List.NoDup (map fst (combine list_str list_standard))).
    { cbn. repeat constructor; cbn; intuition discriminate. }
    specialize (Hcodes Hnd).
    change (map fst (combine list_str list_standard)) with list_str in Hcodes.
    eapply List.Forall_impl; [|exact Hcodes].
    intros code (f & a & Hf & Ha & Hfa & _). exists a. split; [exact Ha|].
    destruct (add_proportion_fields_shapes _ _ _ _ code f Hr1 Hf)
      as [Hold|(_ & _ & H0 & H1)].
    + cbn in Hold. rewrite lookup_empty in Hold. discriminate.
    + cbn [make_empty_rhi_radar nrays ngates] in H0, H1.
      rewrite Nat.mul_1_r in H0. subst a. split; congruence. }
  split; [exact Hcodes|].
  intros Hkeys Hnd.
  assert (Hperm : Permutation (habit_keys bundle) list_str).
  { apply documented_habit_keys; [exact Hkeys|exact Hnd|].
    eapply List.Forall_impl; [|exact Hcodes].
    intros code (a & Ha & _). exists (MatArray a). exact Ha. }
  rewrite hc_stack_loop_skip in Hloop. fold (habit_keys bundle) in Hloop.
  pose proof (habit_keys_plain bundle) as Hplain.
  destruct (habit_keys bundle) as [|k0 keys] eqn:Ekeys.
  { apply Permutation_length in Hperm. discriminate. }
  inversion Hplain as [|? ? Hk0 _]; subst.
  pose proof (hc_stack_loop_first _ _ _ _ _ Hk0 Hloop) as Hfirst.
  assert (k0 = "AG") as ->.
  { apply code_in_AG; [|exact Hfirst].
    apply (Permutation_in _ Hperm). left. reflexivity. }
  exists keys. split; [reflexivity|].
  apply (Permutation_cons_inv (a := "AG")). exact Hperm.
Qed.

Lemma gate_values_length (layers : list (ndarray2 float64)) (i j : nat) :
  (length (gate_values layers i j) <= length layers)%nat.
Proof.
  unfold gate_values. induction layers as [|l layers IH]; cbn [flat_map length];
    [lia|].
  rewrite length_app. destruct (get2 l i j); cbn [length]; lia.
Qed.

Lemma most_probable_habit_data (layers : list (ndarray2 float64))
    (HC : ndarray2 float64) :
  outcome (most_probable_habit layers) = Ok HC ->
  exists first,
    hd_error layers = Some first /\
    data HC
    = map (fun i =>
             map (fun j =>
                    match get2 first i j with
                    | Some v => habit_at layers i j v
                    | None => f64_nan
                    end)
               (seq 0 (shape1 first)))
        (seq 0 (shape0 first)).
Proof.
  unfold most_probable_habit.
  destruct layers as [|l0 [|l1 ls]]; try discriminate.
  intros [= <-]. exists l0. split; reflexivity.
Qed.

(** X16. For a bundle whose keys are the habit codes and reserved keys,
    each once, every value of the 'HC' field is either NaN or one of the
    whole numbers 0, 1, ..., 7. *)
Theorem read_mxpol_hc_values (g : namespace) (w : World)
    (rhi hc : string) (r : radar) :
  outcome (read_mxpol_rhi_with_hc g w rhi hc) = Ok r ->
  exists bundle hcf,
    loadmat w hc = Ok bundle /\
    fields r !! "HC" = Some hcf /\
    (Forall (fun k => str_in "_" k = true \/ In k list_str) (map fst bundle) ->
     List.NoDup (map fst bundle) ->
     Forall
       (Forall (fun v =>
                  f64_isnan v = true \/
                  exists k, (k < 8)%nat /\ v = f64_of_Z (Z.of_nat k)))
       (data (field_data hcf))).
Proof.
  intros H.
  destruct (read_mxpol_inv _ _ _ _ _ H)
    as (bundle & nc & ag & layers & HC & r1 & ZDR & ZH & KDP & first & rest
        & Hb & _ & Hag & Hloop & HHC & Hr1 & _ & _ & _ & Hf & _).
  exists bundle, (mk_field HC "-" hc_long_name (-9999) "Hydrometeor classification").
  split; [exact Hb|]. split; [rewrite Hf; apply lookup_HC_field|].
  intros Hkeys Hnd. cbn [field_data].
  assert (Hperm : Permutation (habit_keys bundle) list_str).
  { apply documented_habit_keys; [exact Hkeys|exact Hnd|].
    pose proof (add_proportion_fields_Ok _ _ _ _ Hr1) as (_ & _ & _ & Hcodes).
    assert (Hnd' : List.NoDup (map fst (combine list_str list_standard))).
    { cbn. repeat constructor; cbn; intuition discriminate. }
    specialize (Hcodes Hnd').
    change (map fst (combine list_str list_standard)) with list_str in Hcodes.
    eapply List.Forall_impl; [|exact Hcodes].
    intros code (f & a & _ & Ha & _). exists (MatArray a). exact Ha. }
  apply Permutation_length in Hperm.
  change (length list_str) with 8%nat in Hperm.
  apply hc_stack_loop_size in Hloop. cbn [stack_size] in Hloop.
  destruct (most_probable_habit_data _ _ HHC) as (l0 & Hhd & ->).
  apply List.Forall_forall. intros row Hrow.
  apply in_map_iff in Hrow as (i & <- & _).
  apply List.Forall_forall. intros v Hv.
  apply in_map_iff in Hv as (j & <- & _).
  destruct (get2 l0 i j) as [x|] eqn:Ex; [|left; reflexivity].
  unfold habit_at. destruct (f64_isnan x); [left; reflexivity|]. right.
  exists (argmax (gate_values layers i j)). split; [|reflexivity].
  assert (Hne : gate_values layers i j <> []).
  { destruct layers as [|l layers]; [discriminate|]. injection Hhd as ->.
    unfold gate_values. cbn [flat_map]. rewrite Ex. discriminate. }
  pose proof (is_argmax_bound _ _ (argmax_spec _ Hne)) as Hk.
  pose proof (gate_values_length layers i j) as Hlen.
  unfold habit_keys in Hperm. lia.
Qed.

(** X17. Which index 'HC' holds at a gate, for a bundle with the eight
    codes in the documented order: at every gate where 'AG' is a number,
    'HC' is the place k, among the eight proportions of the gate in that
    order, of the first NaN if one of them is NaN, and otherwise of the
    first of the largest values. So equal largest proportions give the
    lowest of their indices (a gate of eight equal values gets 0, the code
    of 'AG'), and a NaN in a later layer wins over every number. *)
Theorem read_mxpol_hc_first_maximum (g : namespace) (w : World)
    (rhi hc : string) (r : radar) :
  outcome (read_mxpol_rhi_with_hc g w rhi hc) = Ok r ->
  exists bundle hcf,
    loadmat w hc = Ok bundle /\
    fields r !! "HC" = Some hcf /\
    (habit_keys bundle = list_str -> wf_bundle bundle ->
     forall ag i j v,
       bundle_lookup "AG" bundle = Some (MatArray ag) ->
       get2 ag i j = Some v ->
       exists values,
         hd_error values = Some v /\
         Forall2 (fun code x =>
                    exists a, bundle_lookup code bundle = Some (MatArray a) /\
                              get2 a i j = Some x)
           list_str values /\
         (f64_isnan v = false ->
          exists k,
            get2 (field_data hcf) i j = Some (f64_of_Z (Z.of_nat k)) /\
            is_argmax values k)).
Proof.
  intros H.
  destruct (read_mxpol_inv _ _ _ _ _ H)
    as (bundle & nc & ag0 & layers & HC & r1 & ZDR & ZH & KDP & first & rest
        & Hb & _ & Hag & Hloop & HHC & _ & _ & _ & _ & Hf & _).
  exists bundle, (mk_field HC "-" hc_long_name (-9999) "Hydrometeor classification").
  split; [exact Hb|]. split; [rewrite Hf; apply lookup_HC_field|].
  intros Hkeys Hwf ag i j v Hag' Hv. cbn [field_data].
  assert (ag = ag0) by congruence. subst ag0.
  rewrite hc_stack_loop_skip in Hloop. fold (habit_keys bundle) in Hloop.
  rewrite Hkeys in Hloop.
  apply hc_stack_loop_documented in Hloop as (layers' & [= <-] & Hdoc & Hshape).
  destruct (documented_layers_inv _ _ Hdoc)
    as (a0 & a1 & a2 & a3 & a4 & a5 & a6 & a7 & -> & L0 & L1 & L2 & L3 & L4 & L5 & L6 & L7).
  assert (a0 = ag) by congruence. subst a0.
  destruct (most_probable_habit_Ok _ _ HHC) as (first' & rest' & [= <- <-] & _ & _ & Hget).
  assert (W0 : wf_ndarray2 ag) by (eapply bundle_lookup_wf; eauto).
  specialize (Hget i j v W0 Hv). unfold habit_at in Hget.
  destruct (get2_lt _ _ _ _ W0 Hv) as [Hi Hj].
  specialize (Hshape ag eq_refl).
  repeat match goal with
         | H : Forall _ (_ :: _) |- _ => inversion H; subst; clear H
         end.
  repeat match goal with
         | H : same_shape ag ?a = true |- _ =>
             apply same_shape_eq in H as [? ?]
         end.
  destruct (get2_total ag a1 i j) as [x1 E1]; auto; [eapply bundle_lookup_wf; eauto|].
  destruct (get2_total ag a2 i j) as [x2 E2]; auto; [eapply bundle_lookup_wf; eauto|].
  destruct (get2_total ag a3 i j) as [x3 E3]; auto; [eapply bundle_lookup_wf; eauto|].
  destruct (get2_total ag a4 i j) as [x4 E4]; auto; [eapply bundle_lookup_wf; eauto|].
  destruct (get2_total ag a5 i j) as [x5 E5]; auto; [eapply bundle_lookup_wf; eauto|].
  destruct (get2_total ag a6 i j) as [x6 E6]; auto; [eapply bundle_lookup_wf; eauto|].
  destruct (get2_total ag a7 i j) as [x7 E7]; auto; [eapply bundle_lookup_wf; eauto|].
  assert (Hvals : gate_values [ag; a1; a2; a3; a4; a5; a6; a7] i j
                  = [v; x1; x2; x3; x4; x5; x6; x7]).
  { unfold gate_values. cbn [flat_map]. rewrite Hv, E1, E2, E3, E4, E5, E6, E7.
    reflexivity. }
  exists [v; x1; x2; x3; x4; x5; x6; x7]. split; [reflexivity|]. split.
  - unfold list_str. repeat constructor; eexists; split; eassumption.
  - intros Hnan. rewrite Hnan, Hvals in Hget.
    exists (argmax [v; x1; x2; x3; x4; x5; x6; x7]). split; [exact Hget|].
    apply argmax_spec. discriminate.
Qed.

(** ** What read_dem returns beside the elevations *)

Lemma column_In {A} (rows : list (list A)) (j : nat) (v : A) :
  In v (column rows j) -> exists row, In row rows /\ In v row.
Proof.
  unfold column. rewrite in_flat_map. intros (row & Hrow & Hv).
  exists row. split; [exact Hrow|].
  destruct (nth_error row j) as [x|] eqn:E; [|contradiction].
  destruct Hv as [<-|[]]. eapply nth_error_In. exact E.
Qed.

Lemma transpose_In {A} (a : ndarray2 A) (row : list A) (v : A) :
  In row (data (transpose a)) -> In v row ->
  exists row', In row' (data a) /\ In v row'.
Proof.
  unfold transpose. cbn [data]. rewrite in_map_iff.
  intros (j & <- & _) Hv. eapply column_In. exact Hv.
Qed.

Lemma grid_get_map {A B} (f : A -> B) (grid : list (list A)) (i j : nat) :
  grid_get (map (map f) grid) i j = option_map f (grid_get grid i j).
Proof.
  unfold grid_get. rewrite nth_error_map.
  destruct (nth_error grid i) as [row|]; cbn; [|reflexivity].
  apply nth_error_map.
Qed.

(** X22. The elevation grid that [read_dem] returns holds no zero and
    no negative value: every entry is NaN or greater than zero, whatever
    the raster holds (integers or floats, NaN, infinities, negative zero
    included). *)
Theorem read_dem_elevations_positive_or_nan (w : World) (file : option string)
    (area : string) (dem : ndarray2 float64) (lon lat : list (list float64))
    (proj : string) :
  outcome (read_dem io_globals w file area) = Ok (dem, lon, lat, proj) ->
  Forall (Forall (fun v => f64_isnan v = true \/ f64_gt v (f64_of_Z 0) = true))
    (data dem).
Proof.
  intros H.
  destruct (read_dem_returns_inv _ _ _ _ H) as (path & r & _ & Hres & _).
  unfold dem_of_raster in Hres. injection Hres as -> _ _ _.
  apply List.Forall_forall. intros row Hrow.
  apply List.Forall_forall. intros v Hv.
  destruct (transpose_In _ _ _ Hrow Hv) as (row' & Hrow' & Hv').
  unfold mask_nonpositive, map2d in Hrow'. cbn [data] in Hrow'.
  apply in_map_iff in Hrow' as (raw & <- & _).
  apply in_map_iff in Hv' as (x & <- & _).
  destruct (f64_le x (f64_of_Z 0)) eqn:E; [left; reflexivity|].
  apply f64_not_le in E as [E|[E|E]]; auto.
  rewrite f64_of_Z_not_nan in E. discriminate.
Qed.

(** X23. Only the elevations are transposed. The two coordinate grids
    are the two layers of the raster's coordinate array as extracted, and
    the projection is passed on: for a raster of h rows and w columns the
    elevation grid has shape (w, h) while [lon_dem] and [lat_dem] have h
    rows of w entries, and the coordinates of the pixel whose elevation is
    at [dem[j][i]] are [lon_dem[i][j]] and [lat_dem[i][j]]. *)
Theorem read_dem_coordinates_not_transposed (w : World) (file : option string)
    (area : string) (dem : ndarray2 float64) (lon lat : list (list float64))
    (proj : string) :
  outcome (read_dem io_globals w file area) = Ok (dem, lon, lat, proj) ->
  exists path r,
    open_raster w path = Ok r /\
    proj = raster_proj r /\
    (forall i j, grid_get lon i j = option_map fst (grid_get (raster_coord r) i j)) /\
    (forall i j, grid_get lat i j = option_map snd (grid_get (raster_coord r) i j)) /\
    (wf_raster r ->
     let '(h, wd) := pixels_shape (raster_pixels r) in
     (shape0 dem, shape1 dem) = (wd, h) /\
     length lon = h /\ Forall (fun row => length row = wd) lon /\
     length lat = h /\ Forall (fun row => length row = wd) lat /\
     forall i j v,
       px_get (raster_pixels r) i j = Some v ->
       exists elevation x y,
         get2 dem j i = Some elevation /\
         grid_get (raster_coord r) i j = Some (x, y) /\
         grid_get lon i j = Some x /\ grid_get lat i j = Some y).
Proof.
  intros H.
  destruct (read_dem_returns_inv _ _ _ _ H) as (path & r & Hopen & Hres & _).
  exists path, r. split; [exact Hopen|].
  unfold dem_of_raster in Hres. injection Hres as -> -> -> ->.
  split; [reflexivity|].
  split; [intros i j; apply grid_get_map|].
  split; [intros i j; apply grid_get_map|].
  intros (Hwf & Hrows & Hcols).
  destruct (pixels_shape (raster_pixels r)) as [h wd] eqn:Eshape.
  cbn [fst snd] in Hrows, Hcols.
  assert (Hshape : (shape0 (astype_float (raster_pixels r)),
                    shape1 (astype_float (raster_pixels r))) = (h, wd)).
  { rewrite <- Eshape. destruct (raster_pixels r); reflexivity. }
  injection Hshape as Hs0 Hs1.
  split; [cbn [transpose mask_nonpositive map2d shape0 shape1]; congruence|].
  split; [rewrite length_map; exact Hrows|].
  split.
  { apply List.Forall_map. eapply List.Forall_impl; [|exact Hcols].
    intros row Hr. rewrite length_map. exact Hr. }
  split; [rewrite length_map; exact Hrows|].
  split.
  { apply List.Forall_map. eapply List.Forall_impl; [|exact Hcols].
    intros row Hr. rewrite length_map. exact Hr. }
  intros i j v Hv.
  pose proof (dem_of_raster_pixel r i j v Hwf Hv) as Hdem.
  unfold dem_of_raster in Hdem. cbn [fst] in Hdem.
  assert (Hij : (i < h)%nat /\ (j < wd)%nat).
  { destruct (raster_pixels r) as [a|a]; cbn in Hv, Hwf, Eshape;
      injection Eshape as <- <-.
    - destruct (get2 a i j) as [z|] eqn:E; [|discriminate].
      eapply get2_lt; eassumption.
    - destruct (get2 a i j) as [z|] eqn:E; [|discriminate].
      eapply get2_lt; eassumption. }
  destruct Hij as [Hi Hj].
  assert (Hxy : exists x y, grid_get (raster_coord r) i j = Some (x, y)).
  { unfold grid_get.
    destruct (nth_error (raster_coord r) i) as [row|] eqn:Erow.
    - pose proof (proj1 (List.Forall_forall _ _) Hcols row (nth_error_In _ _ Erow)) as Hlen.
      cbn beta in Hlen.
      destruct (nth_error row j) as [[x y]|] eqn:Exy; [eauto|].
      apply nth_error_None in Exy. lia.
    - apply nth_error_None in Erow. lia. }
  destruct Hxy as (x & y & Hxy).
  eexists _, x, y. split; [exact Hdem|]. split; [exact Hxy|].
  rewrite !grid_get_map, Hxy. split; reflexivity.
Qed.
(** ** Concrete runs for the further properties *)

Lemma aws_globals_extends : io_globals ⊆ aws_globals.
Proof.
  unfold aws_globals.
  do 4 (etrans; [|apply insert_subseteq; vm_compute; reflexivity]).
  reflexivity.
Qed.

Lemma dvd_globals_extends : io_globals ⊆ dvd_globals.
Proof.
  unfold dvd_globals.
  do 2 (etrans; [|apply insert_subseteq; vm_compute; reflexivity]).
  reflexivity.
Qed.

Lemma aws_outcome :
  outcome (read_aws aws_globals aws_world TimeNone "/disk/STORAGE/OBS/AWS/" true)
  = Ok aws_frame.
Proof. vm_compute. reflexivity. Qed.

Lemma dvd_outcome :
  outcome (read_2dvd_rho dvd_globals dvd_world
             (TimeSeq [day_2017_12_24; day_2017_12_25]) "/dvd" true)
  = Ok dvd_table.
Proof. vm_compute. reflexivity. Qed.

Lemma dvd_outcome_unfiltered :
  outcome (read_2dvd_rho dvd_globals dvd_world
             (TimeSeq [day_2017_12_24; day_2017_12_25]) "/dvd" false)
  = Ok dvd_table_unfiltered.
Proof. vm_compute. reflexivity. Qed.

Lemma dem_outcome :
  outcome (read_dem io_globals dem_world (Some "dem.tif") "pyeongchang")
  = Ok (transpose (mask_nonpositive (astype_float (raster_pixels dem_raster))),
        map (map fst) (raster_coord dem_raster),
        map (map snd) (raster_coord dem_raster),
        raster_proj dem_raster).
Proof. rewrite read_dem_file. reflexivity. Qed.

(** *** read_aws *)

Lemma read_aws_empty_listing_witness :
  read_aws aws_globals no_files TimeNone "/disk/STORAGE/OBS/AWS/" true
  = ([EvGlob "/aws/201802/28/AWS_MIN_20180228*"], Ok (mk_DataFrame aws_names [])).
Proof.
  apply (read_aws_empty_listing aws_globals no_files TimeNone
           "/disk/STORAGE/OBS/AWS/" true "/aws/" "20180228" aws_names);
    first [apply aws_globals_extends | reflexivity].
Defined.

Lemma read_aws_keeps_first_station_row_witness :
  exists names pattern,
    aws_globals !! "names" = Some (PyList names) /\
    outcome (aws_pattern aws_globals) = Ok pattern /\
    Forall2
      (fun file out =>
         exists i pre raw post,
           index_of "stn" names = Some i /\
           read_csv_hash aws_world file names = Ok (pre ++ raw :: post)%list /\
           Forall (fun r => at_station i r = false) pre /\
           at_station i raw = true /\
           aws_row_spec names raw out)
      (np_sort (glob_glob aws_world pattern false)) (values aws_frame).
Proof.
  exact (read_aws_keeps_first_station_row aws_globals aws_world TimeNone
           "/disk/STORAGE/OBS/AWS/" true aws_frame aws_outcome).
Defined.

Lemma read_aws_frame_shape_witness :
  columns aws_frame = aws_names /\
  Forall (fun out => length out = 15%nat) (values aws_frame) /\
  List.NoDup aws_names /\
  Forall (fun n => In n aws_names) ("stn" :: aws_scaled_fields).
Proof.
  destruct (read_aws_frame_shape aws_globals aws_world TimeNone
              "/disk/STORAGE/OBS/AWS/" true aws_frame aws_outcome)
    as (names & Hnames & Hcols & Hwidth & Hfilled).
  assert (names = aws_names) as ->
    by (vm_compute in Hnames; injection Hnames as <-; reflexivity).
  split; [exact Hcols|]. split; [exact Hwidth|].
  apply Hfilled. vm_compute. discriminate.
Defined.

Lemma read_aws_file_without_station_witness :
  read_aws aws_globals aws_world_without_station TimeNone
    "/disk/STORAGE/OBS/AWS/" true
  = ([EvGlob "/aws/201802/28/AWS_MIN_20180228*";
      EvReadCsv "/aws/201802/28/AWS_MIN_201802280600";
      EvReadCsv "/aws/201802/28/AWS_MIN_201802280601"],
     Raise IndexError).
Proof.
  apply (read_aws_file_without_station aws_globals aws_world_without_station
           TimeNone "/disk/STORAGE/OBS/AWS/" true "/aws/" "20180228" aws_names 1
           ["/aws/201802/28/AWS_MIN_201802280600"]
           "/aws/201802/28/AWS_MIN_201802280601" [] [aws_row 95 50]).
  - apply aws_globals_extends.
  - reflexivity.
  - reflexivity.
  - reflexivity.
  - reflexivity.
  - apply NoDup_ListNoDup.
    apply (bool_decide_eq_true_1 (NoDup aws_names)). vm_compute. reflexivity.
  - unfold aws_scaled_fields, aws_names.
    repeat (apply List.Forall_cons; [cbn; tauto|]). apply List.Forall_nil.
  - reflexivity.
  - reflexivity.
  - apply List.Forall_cons; [|apply List.Forall_nil].
    eexists. vm_compute. reflexivity.
  - reflexivity.
  - apply List.Forall_cons; [|apply List.Forall_nil].
    intros j n c Hn Hs Hc.
    do 15 (destruct j as [|j];
           [injection Hn as <-; injection Hc as <-;
            first [discriminate Hs | reflexivity]|]).
    destruct j; discriminate Hn.
  - apply List.Forall_cons; [reflexivity|apply List.Forall_nil].
Defined.

Lemma readers_ignore_listing_order_witness :
  read_aws aws_globals aws_world_reversed TimeNone "/disk/STORAGE/OBS/AWS/" true
  = read_aws aws_globals aws_world TimeNone "/disk/STORAGE/OBS/AWS/" true.
Proof.
  apply (readers_ignore_listing_order aws_globals aws_world
           (fun pattern recursive => rev (glob_glob aws_world pattern recursive))
           TimeNone "/disk/STORAGE/OBS/AWS/" true).
  intros pattern recursive. symmetry. apply Permutation_rev.
Defined.

(** *** read_2dvd_rho *)

Lemma read_2dvd_rho_reads_all_without_range_witness :
  List.filter is_read_csv
    (trace (read_2dvd_rho dvd_globals dvd_world
              (TimeSeq [day_2017_12_24; day_2017_12_25]) "/dvd" false))
  = [EvReadCsv dvd_file_24; EvReadCsv dvd_file_25] /\
  exists parsed,
    Forall2 (file_rows dvd_world) [dvd_file_24; dvd_file_25] parsed /\
    dvd_table_unfiltered = List.concat parsed.
Proof.
  exact (read_2dvd_rho_reads_all_without_range dvd_globals dvd_world
           [day_2017_12_24; day_2017_12_25] "/dvd" false dvd_table_unfiltered
           (or_intror eq_refl) dvd_outcome_unfiltered).
Defined.

Lemma read_2dvd_rho_needs_a_file_witness :
  (exists file,
     In file [dvd_file_24; dvd_file_25] /\
     In (EvReadCsv file)
        (trace (read_2dvd_rho dvd_globals dvd_world
                  (TimeSeq [day_2017_12_24; day_2017_12_25]) "/dvd" true))) /\
  read_2dvd_rho dvd_globals no_files
    (TimeSeq [day_2017_12_24; day_2017_12_25]) "/dvd" true
  = ([EvGlob "/dvd/**/2DVD_Dapp_v_rho_201*Deq.txt"], Raise ValueError).
Proof.
  split.
  - exact (proj1 (read_2dvd_rho_needs_a_file dvd_globals dvd_world
                    (TimeSeq [day_2017_12_24; day_2017_12_25]) "/dvd" true)
             dvd_table dvd_outcome).
  - apply (proj2 (read_2dvd_rho_needs_a_file dvd_globals no_files
                    (TimeSeq [day_2017_12_24; day_2017_12_25]) "/dvd" true)).
    + apply dvd_globals_extends.
    + reflexivity.
    + reflexivity.
Defined.

Lemma read_2dvd_rho_progress_lines_witness :
  trace (read_2dvd_rho dvd_globals dvd_world
           (TimeSeq [day_2017_12_24; day_2017_12_25]) "/dvd" false)
  = [EvGlob "/dvd/**/2DVD_Dapp_v_rho_201*Deq.txt";
     EvReadCsv dvd_file_24; EvPrint ("1 2 " ++ dvd_file_24);
     EvReadCsv dvd_file_25; EvPrint ("2 2 " ++ dvd_file_25)].
Proof.
  destruct (read_2dvd_rho_progress_lines dvd_globals dvd_world
              (TimeSeq [day_2017_12_24; day_2017_12_25]) "/dvd" false
              dvd_table_unfiltered dvd_outcome_unfiltered)
    as (l & Hl & Htrace).
  injection Hl as <-. exact Htrace.
Defined.

Lemma read_2dvd_rho_file_date_witness :
  file_date dvd_file_24 = Ok day_2017_12_24.
Proof.
  exact (read_2dvd_rho_file_date "/dvd/2017" "2DVD_Dapp_v_rho_" "2017" "12" "24"
           "_0000_2359__Deq.txt" eq_refl eq_refl eq_refl eq_refl eq_refl).
Defined.

Lemma read_2dvd_rho_timestamp_witness :
  dvd_derive (mk_datetime 2018 2 28 0 0 0 0) (dvd_rec 930 4)
  = Ok (mk_dvd_row (days_from_civil 2018 2 28 * 1440 + 9 * 60 + 30)
          (f64_of_Z 4) (f64_of_Z 2) (f64_of_Z 3)
          (days_from_civil 2018 2 28 * 1440 + 9 * 60 + 30)).
Proof.
  apply (read_2dvd_rho_timestamp 2018 2 28 (mk_datetime 2018 2 28 0 0 0 0)
           (dvd_rec 930 4)).
  - reflexivity.
  - lia.
  - cbn. lia.
Defined.

Lemma read_2dvd_rho_malformed_name_witness :
  (exists e',
     outcome (read_2dvd_rho dvd_globals dvd_world_with_notes
                (TimeSeq [day_2017_12_24]) "/dvd" true) = Raise e') /\
  List.filter is_read_csv
    (trace (read_2dvd_rho dvd_globals dvd_world_with_notes
              (TimeSeq [day_2017_12_24]) "/dvd" true)) = [].
Proof.
  apply (read_2dvd_rho_malformed_name dvd_globals dvd_world_with_notes
           (TimeSeq [day_2017_12_24]) "/dvd" true dvd_file_notes ValueError).
  - vm_compute. right. left. reflexivity.
  - vm_compute. reflexivity.
Defined.

Lemma read_2dvd_rho_rows_follow_records_witness :
  exists l records,
    TimeSeq [day_2017_12_24; day_2017_12_25] = TimeSeq l /\
    Forall2 (fun file recs => read_csv_2dvd dvd_world file = Ok recs)
      (selected_files l true
         (np_sort (glob_glob dvd_world (dvd_pattern "/dvd") true)))
      records /\
    Forall2 (fun r row =>
               row_VEL row = rec_VEL r /\ row_AREA row = rec_AREA r /\
               row_Deq row = rec_Deq r /\
               row_jultime_minute row = row_jultime row)
      (List.concat records) dvd_table.
Proof.
  exact (read_2dvd_rho_rows_follow_records dvd_globals dvd_world
           (TimeSeq [day_2017_12_24; day_2017_12_25]) "/dvd" true dvd_table
           dvd_outcome).
Defined.

(** *** read_mxpol_rhi_with_hc *)

Lemma read_mxpol_reads_two_files_witness :
  trace (read_mxpol_rhi_with_hc mxpol_globals mxpol_world "rhi.nc" "hc.mat")
  = [EvLoadMat "hc.mat"; EvOpenDataset "rhi.nc"].
Proof.
  exact (proj2 (read_mxpol_reads_two_files mxpol_globals mxpol_world
                  "rhi.nc" "hc.mat") mxpol_radar mxpol_outcome).
Defined.

Lemma hc_bundle_keys_once : List.NoDup (map fst hc_bundle).
Proof.
  change (map fst hc_bundle) with
    ["__header__"; "__version__"; "__globals__";
     "AG"; "CR"; "IH"; "LR"; "MH"; "RN"; "RP"; "WS"].
  repeat constructor; cbn; intuition discriminate.
Qed.

Lemma read_mxpol_bundle_requirements_witness :
  Forall (fun code =>
            exists a, bundle_lookup code hc_bundle = Some (MatArray a) /\
                      shape0 a = nrays mxpol_radar /\
                      shape1 a = ngates mxpol_radar)
    list_str /\
  exists rest,
    habit_keys hc_bundle = "AG" :: rest /\
    Permutation rest ["CR"; "IH"; "LR"; "MH"; "RN"; "RP"; "WS"].
Proof.
  destruct (read_mxpol_bundle_requirements mxpol_globals mxpol_world
              "rhi.nc" "hc.mat" mxpol_radar mxpol_outcome)
    as (bundle & Hb & Hcodes & Hkeys).
  assert (bundle = hc_bundle) as ->
    by (vm_compute in Hb; injection Hb as <-; reflexivity).
  split; [exact Hcodes|].
  exact (Hkeys hc_bundle_keys hc_bundle_keys_once).
Defined.

Lemma read_mxpol_hc_values_witness :
  exists hcf,
    fields mxpol_radar !! "HC" = Some hcf /\
    Forall
      (Forall (fun v =>
                 f64_isnan v = true \/
                 exists k, (k < 8)%nat /\ v = f64_of_Z (Z.of_nat k)))
      (data (field_data hcf)).
Proof.
  destruct (read_mxpol_hc_values mxpol_globals mxpol_world
              "rhi.nc" "hc.mat" mxpol_radar mxpol_outcome)
    as (bundle & hcf & Hb & Hf & Hvalues).
  assert (bundle = hc_bundle) as ->
    by (vm_compute in Hb; injection Hb as <-; reflexivity).
  exists hcf. split; [exact Hf|].
  exact (Hvalues hc_bundle_keys hc_bundle_keys_once).
Defined.

Lemma read_mxpol_hc_first_maximum_witness :
  exists hcf values k,
    fields mxpol_radar !! "HC" = Some hcf /\
    hd_error values = Some (tenths 1) /\
    get2 (field_data hcf) 0 1 = Some (f64_of_Z (Z.of_nat k)) /\
    is_argmax values k.
Proof.
  destruct (read_mxpol_hc_first_maximum mxpol_globals mxpol_world
              "rhi.nc" "hc.mat" mxpol_radar mxpol_outcome)
    as (bundle & hcf & Hb & Hf & Hgate).
  assert (bundle = hc_bundle) as ->
    by (vm_compute in Hb; injection Hb as <-; reflexivity).
  destruct (Hgate eq_refl hc_bundle_wf (mk_ndarray2 1 2 [[f64_nan; tenths 1]])
              0%nat 1%nat (tenths 1) eq_refl eq_refl)
    as (values & Hhd & _ & Hk).
  destruct (Hk eq_refl) as (k & Hget & Harg).
  exists hcf, values, k. auto.
Defined.

Lemma read_mxpol_fields_witness :
  (forall k, is_Some (fields mxpol_radar !! k)
             <-> In k (list_str ++ ["HC"; "KDP"; "ZDR"; "ZHH"])%list) /\
  (forall k f, fields mxpol_radar !! k = Some f ->
     shape0 (field_data f) = nrays mxpol_radar /\
     shape1 (field_data f) = ngates mxpol_radar) /\
  exists bundle nc ag,
    loadmat mxpol_world "hc.mat" = Ok bundle /\
    open_dataset mxpol_world "rhi.nc" = Ok nc /\
    bundle_lookup "AG" bundle = Some (MatArray ag) /\
    nrays mxpol_radar = shape0 ag /\ ngates mxpol_radar = shape1 ag /\
    nrays mxpol_radar = length (elevation_data mxpol_radar) /\
    ngates mxpol_radar = shape0 (nc_Zdr nc) /\
    ngates mxpol_radar = shape0 (nc_Zh nc) /\
    ngates mxpol_radar = shape0 (nc_Kdp nc).
Proof.
  exact (read_mxpol_fields mxpol_globals mxpol_world "rhi.nc" "hc.mat"
           mxpol_radar mxpol_outcome).
Defined.

Lemma read_mxpol_needs_a_ray_witness :
  exists nc e,
    open_dataset mxpol_world "rhi.nc" = Ok nc /\
    In e (nc_Elevation nc) /\
    f64_gt e (f64_of_Z 5) = true /\ f64_lt e (f64_of_Z 175) = true /\
    In e (elevation_data mxpol_radar) /\ (0 < nrays mxpol_radar)%nat.
Proof.
  exact (read_mxpol_needs_a_ray mxpol_globals mxpol_world "rhi.nc" "hc.mat"
           mxpol_radar mxpol_outcome).
Defined.

Lemma read_mxpol_azimuth_shift_witness :
  azimuth_data mxpol_radar = [f64_add (f64_of_Z (-5)) (f64_of_Z 360)] /\
  fixed_angle_data mxpol_radar = azimuth_data mxpol_radar.
Proof.
  destruct (read_mxpol_azimuth_shift mxpol_globals mxpol_world "rhi.nc" "hc.mat"
              mxpol_radar mxpol_outcome)
    as (nc & first & rest & Hnc & Hsel & Hneg & _ & Hfix).
  assert (nc = rhi_volume) as ->
    by (vm_compute in Hnc; injection Hnc as <-; reflexivity).
  change (select (nc_Azimuth rhi_volume) (gate_mask (nc_Elevation rhi_volume)))
    with [f64_of_Z (-5)] in Hsel.
  injection Hsel as <- <-.
  split; [exact (Hneg eq_refl)|exact Hfix].
Defined.

Lemma read_mxpol_metadata_witness :
  exists nc,
    open_dataset mxpol_world "rhi.nc" = Ok nc /\
    range_data mxpol_radar = nc_Range nc /\
    longitude_data mxpol_radar = [nc_Longitude nc] /\
    latitude_data mxpol_radar = [nc_Latitude nc] /\
    altitude_data mxpol_radar = [nc_Altitude nc] /\
    time_units mxpol_radar = "seconds since 1970-01-01T00:00:00Z" /\
    instrument_name mxpol_radar = "MXPol".
Proof.
  exact (read_mxpol_metadata mxpol_globals mxpol_world "rhi.nc" "hc.mat"
           mxpol_radar mxpol_outcome).
Defined.

(** *** read_dem *)

Lemma read_dem_elevations_positive_or_nan_witness :
  Forall (Forall (fun v => f64_isnan v = true \/ f64_gt v (f64_of_Z 0) = true))
    (data (transpose (mask_nonpositive (astype_float (raster_pixels dem_raster))))).
Proof.
  exact (read_dem_elevations_positive_or_nan dem_world (Some "dem.tif")
           "pyeongchang" _ _ _ _ dem_outcome).
Defined.

Lemma read_dem_coordinates_not_transposed_witness :
  exists elevation x y,
    get2 (transpose (mask_nonpositive (astype_float (raster_pixels dem_raster))))
      2 1 = Some elevation /\
    grid_get (raster_coord dem_raster) 1 2 = Some (x, y) /\
    grid_get (map (map fst) (raster_coord dem_raster)) 1 2 = Some x /\
    grid_get (map (map snd) (raster_coord dem_raster)) 1 2 = Some y.
Proof.
  destruct (read_dem_coordinates_not_transposed dem_world (Some "dem.tif")
              "pyeongchang" _ _ _ _ dem_outcome)
    as (path & r & Hopen & _ & _ & _ & Hshape).
  assert (r = dem_raster) as ->.
  { unfold dem_world in Hopen. cbn [open_raster] in Hopen.
    destruct (String.eqb path "dem.tif" || String.eqb path pyeongchang_tif
              || String.eqb path korea_tif); [|discriminate].
    injection Hopen as <-. reflexivity. }
  assert (Hwf : wf_raster dem_raster).
  { split; [split; [reflexivity|repeat constructor]|].
    split; [reflexivity|repeat constructor]. }
  destruct (Hshape Hwf) as (_ & _ & _ & _ & _ & Hpixel).
  exact (Hpixel 1%nat 2%nat (PxInt 3) eq_refl).
Defined.
